(** * VK_Data.py: the crawler, as a shallow embedding

    The development follows [VK_Data.py] top to bottom:

    - Python values as decoded from JSON ([value]) with the few built-in
      operations the script applies to them (truthiness, [dict.get], [in],
      [len], iteration, indexing, slicing);
    - [process_profile];
    - the outside world: the remote API as an oracle answering the n-th HTTP
      request, the Neo4j store with the Cypher statements of [Neo4jHandler],
      a trace of what the script did, and the shared [visited_users] set;
    - [vk_api_request], [get_user_data], [get_detailed_data] in a state and
      exception monad over that world.

    Calls to [logging] have no effect on the data and are left out.  Floating
    point numbers do not occur in the model of JSON. *)

From Stdlib Require Import ZArith List String Ascii Bool Lia PeanoNat DecimalString.
Import ListNotations.
Local Open Scope string_scope.
Local Open Scope Z_scope.

Set Implicit Arguments.
Set Warnings "-register-all".

(** ** Python values *)

Inductive value : Type :=
| VNone
| VBool (b : bool)
| VInt (z : Z)
| VStr (s : string)
| VList (l : list value)
| VDict (d : list (string * value)).

(** Exceptions the script can meet; every one of them is an [Exception]. *)
Inductive exn : Type :=
| ApiExhausted          (* raise Exception("Повторные попытки ...") *)
| KeyError (k : string)
| IndexError
| TypeError
| AttributeError
| ValueError.

(** Structural equality of values; on integers and strings this is also the
    equality Cypher uses when it matches a node by its [id]. *)
Fixpoint value_eqb (a b : value) {struct a} : bool :=
  match a, b with
  | VNone, VNone => true
  | VBool x, VBool y => Bool.eqb x y
  | VInt x, VInt y => Z.eqb x y
  | VStr x, VStr y => String.eqb x y
  | VList l, VList m =>
      (fix go (l m : list value) {struct l} : bool :=
         match l, m with
         | [], [] => true
         | x :: l', y :: m' => value_eqb x y && go l' m'
         | _, _ => false
         end) l m
  | VDict d, VDict e =>
      (fix go (d e : list (string * value)) {struct d} : bool :=
         match d, e with
         | [], [] => true
         | (k, x) :: d', (k', y) :: e' =>
             String.eqb k k' && value_eqb x y && go d' e'
         | _, _ => false
         end) d e
  | _, _ => false
  end.

(** [bool(v)] *)
Definition truthy (v : value) : bool :=
  match v with
  | VNone => false
  | VBool b => b
  | VInt z => negb (z =? 0)
  | VStr s => negb (String.eqb s "")
  | VList l => match l with [] => false | _ => true end
  | VDict d => match d with [] => false | _ => true end
  end.

(** [v == 0] for a JSON value: the integer zero and [False]. *)
Definition eq_zero (v : value) : bool :=
  match v with
  | VInt z => z =? 0
  | VBool b => negb b
  | _ => false
  end.

(** *** Dictionaries: association lists in insertion order *)

Fixpoint dict_lookup (k : string) (d : list (string * value)) : option value :=
  match d with
  | [] => None
  | (k', v) :: d' => if String.eqb k k' then Some v else dict_lookup k d'
  end.

(** [k in d] *)
Definition dict_mem (k : string) (d : list (string * value)) : bool :=
  match dict_lookup k d with Some _ => true | None => false end.

(** [d.get(k, default)] *)
Definition dict_get (k : string) (default : value) (d : list (string * value)) : value :=
  match dict_lookup k d with Some v => v | None => default end.

(** [d[k] = v]: overwrite in place, or append a new key. *)
Fixpoint dict_set (k : string) (v : value) (d : list (string * value))
  : list (string * value) :=
  match d with
  | [] => [(k, v)]
  | (k', v') :: d' =>
      if String.eqb k k' then (k, v) :: d' else (k', v') :: dict_set k v d'
  end.

(** [d[k]] *)
Definition dict_item (k : string) (d : list (string * value)) : exn + value :=
  match dict_lookup k d with Some v => inr v | None => inl (KeyError k) end.

(** *** Sequences *)

Fixpoint chars (s : string) : list value :=
  match s with
  | EmptyString => []
  | String c s' => VStr (String c EmptyString) :: chars s'
  end.

(** [for x in v]: lists give their elements, strings their characters,
    dictionaries their keys; nothing else is iterable. *)
Definition py_iter (v : value) : exn + list value :=
  match v with
  | VList l => inr l
  | VStr s => inr (chars s)
  | VDict d => inr (map (fun kv => VStr (fst kv)) d)
  | _ => inl TypeError
  end.

(** [len(v)] *)
Definition py_len (v : value) : exn + Z :=
  match py_iter v with
  | inr l => inr (Z.of_nat (List.length l))
  | inl e => inl e
  end.

(** [v[0]] *)
Definition py_index0 (v : value) : exn + value :=
  match v with
  | VList [] => inl IndexError
  | VList (x :: _) => inr x
  | VStr EmptyString => inl IndexError
  | VStr (String c _) => inr (VStr (String c EmptyString))
  | VDict _ => inl (KeyError "0")
  | _ => inl TypeError
  end.

(** [v[k]] for a string key [k]: only dictionaries accept one. *)
Definition py_item (k : string) (v : value) : exn + value :=
  match v with
  | VDict d => dict_item k d
  | _ => inl TypeError
  end.

(** ['title' in v] *)
Definition py_contains (k : string) (v : value) : exn + bool :=
  match v with
  | VDict d => inr (dict_mem k d)
  | VList l => inr (existsb (value_eqb (VStr k)) l)
  | VStr s => inr (match index 0 k s with Some _ => true | None => false end)
  | _ => inl TypeError
  end.

(** [l[:n]]: a negative bound counts from the end. *)
Definition py_slice_to {A} (n : Z) (l : list A) : list A :=
  if 0 <=? n then firstn (Z.to_nat n) l
  else firstn (List.length l - Z.to_nat (- n)) l.

(** [[l[i:i + size] for i in range(0, len(l), size)]]; the fuel is the number
    of chunks still allowed, [length l] always suffices. *)
Fixpoint chunks_fuel {A} (fuel size : nat) (l : list A) : list (list A) :=
  match fuel with
  | O => []
  | S fuel' =>
      match l with
      | [] => []
      | _ => firstn size l :: chunks_fuel fuel' size (skipn size l)
      end
  end.

Definition chunks {A} (size : nat) (l : list A) : list (list A) :=
  chunks_fuel (List.length l) size l.

(** [str(v)] and [s.strip()] are Python's own; the script is verified for
    every implementation of the two. *)
Class PyText : Type := {
  py_str : value -> string;
  py_strip : string -> string
}.

(** ** [process_profile] *)

(** The dictionary [process_profile] returns; [get_user_data] later adds the
    two counters to the one of the crawled user. *)
Record User : Type := mkUser {
  id : value;
  screen_name : value;
  name : string;
  sex : value;
  home_town : value;
  is_private : value;
  friends_count : option Z;
  subscriptions_count : option value
}.

Section Profile.
Context {PT : PyText}.

(** Lines 42-44. *)
Definition profile_home_town (d : list (string * value)) : exn + value :=
  let home_town := dict_get "home_town" (VStr "") d in
  if truthy home_town then inr home_town
  else
    match dict_lookup "city" d with
    | None => inr home_town
    | Some city =>
        match py_contains "title" city with
        | inl e => inl e
        | inr false => inr home_town
        | inr true => py_item "title" city
        end
    end.

(** Line 52: [in], [or], [and] and [not] with Python's values: [x and y]
    is [x] itself when [x] is falsy. *)
Definition profile_is_private (d : list (string * value)) : value :=
  if dict_mem "deactivated" d then VBool true
  else
    let is_closed := dict_get "is_closed" VNone d in
    if truthy is_closed
    then VBool (negb (truthy (dict_get "can_access_closed" VNone d)))
    else is_closed.

Definition process_profile (profile : value) : exn + User :=
  match profile with
  | VDict d =>
      let name :=
        py_strip (py_str (dict_get "first_name" (VStr "") d) ++ " "
                  ++ py_str (dict_get "last_name" (VStr "") d)) in
      match profile_home_town d with
      | inl e => inl e
      | inr home_town =>
          match dict_item "id" d with
          | inl e => inl e
          | inr i =>
              inr {| id := i;
                     screen_name := dict_get "screen_name" (VStr "") d;
                     name := name;
                     sex := dict_get "sex" (VInt 0) d;
                     home_town := home_town;
                     is_private := profile_is_private d;
                     friends_count := None;
                     subscriptions_count := None |}
          end
      end
  | _ => inl AttributeError
  end.

End Profile.

(** ** The outside world *)

(** One HTTP request: the API method of the URL and the query parameters. *)
Record Request : Type := mkRequest {
  api_method : string;
  params : list (string * value)
}.

(** What one [requests.get] attempt (lines 17-26) runs into. *)
Inductive Attempt : Type :=
| AttHTTPError                             (* raise_for_status() raised *)
| AttRequestException                      (* requests.get() raised *)
| AttMalformed                             (* no JSON, or neither key *)
| AttApiError (error_code : Z) (error_msg : string)  (* {"error": ...} *)
| AttResponse (payload : value).           (* {"response": payload} *)

(** The parameters of the four Cypher write statements. *)
Record GroupData : Type := mkGroup {
  g_id : value;
  g_name : value;
  g_members_count : value
}.

Inductive Event : Type :=
| EvCall (r : Request)                     (* vk_api_request entered *)
| EvHttp (r : Request) (a : Attempt)       (* requests.get and its outcome *)
| EvSleep (delay : Z)                      (* time.sleep *)
| EvCreateUser (u : User)                  (* db_handler.create_user *)
| EvCreateGroup (g : GroupData)            (* db_handler.create_group *)
| EvCreateFriendship (a b : value)         (* db_handler.create_friendship *)
| EvCreateSubscription (u g : value).      (* db_handler.create_subscription *)

(** A [User] node as the statement of [_create_user_node] sets it. *)
Record UserNode : Type := mkUserNode {
  n_id : value;
  n_screen_name : value;
  n_name : string;
  n_sex : value;
  n_home_town : value;
  n_friends_count : Z;
  n_subscriptions_count : value
}.

Record Store : Type := mkStore {
  user_nodes : list UserNode;
  group_nodes : list GroupData;
  friend_edges : list (value * value);
  subscribed_edges : list (value * value)
}.

Definition empty_store : Store := mkStore [] [] [] [].

(** Members of a Python set of JSON scalars: [True == 1] and [False == 0]
    hash and compare alike; lists and dictionaries are unhashable. *)
Inductive key : Type :=
| KNone
| KInt (z : Z)
| KStr (s : string).

Definition key_of (v : value) : option key :=
  match v with
  | VNone => Some KNone
  | VBool b => Some (KInt (if b then 1 else 0))
  | VInt z => Some (KInt z)
  | VStr s => Some (KStr s)
  | VList _ | VDict _ => None
  end.

Definition key_eqb (a b : key) : bool :=
  match a, b with
  | KNone, KNone => true
  | KInt x, KInt y => x =? y
  | KStr x, KStr y => String.eqb x y
  | _, _ => false
  end.

Record World : Type := mkWorld {
  api : nat -> Request -> Attempt;   (* the answer to the n-th HTTP request *)
  db_fails : nat -> bool;            (* does the n-th write transaction fail *)
  http_count : nat;
  write_count : nat;
  trace : list Event;                (* oldest first *)
  store : Store;
  visited_users : list key           (* the one set shared by a crawl *)
}.

Definition log (e : Event) (w : World) : World :=
  mkWorld (api w) (db_fails w) (http_count w) (write_count w)
          (trace w ++ [e]) (store w) (visited_users w).

Definition next_http (w : World) : World :=
  mkWorld (api w) (db_fails w) (S (http_count w)) (write_count w)
          (trace w) (store w) (visited_users w).

Definition next_write (w : World) : World :=
  mkWorld (api w) (db_fails w) (http_count w) (S (write_count w))
          (trace w) (store w) (visited_users w).

Definition set_store (s : Store) (w : World) : World :=
  mkWorld (api w) (db_fails w) (http_count w) (write_count w)
          (trace w) s (visited_users w).

Definition set_visited (v : list key) (w : World) : World :=
  mkWorld (api w) (db_fails w) (http_count w) (write_count w)
          (trace w) (store w) v.

(** ** State and exceptions *)

Inductive res (A : Type) : Type :=
| Ret (a : A)
| Raise (e : exn)
| OutOfFuel.
Arguments Raise {A} e.
Arguments OutOfFuel {A}.

Definition M (A : Type) : Type := World -> res A * World.

Definition ret {A} (a : A) : M A := fun w => (Ret a, w).
Definition raise {A} (e : exn) : M A := fun w => (Raise e, w).

Definition bind {A B} (m : M A) (k : A -> M B) : M B :=
  fun w =>
    match m w with
    | (Ret a, w') => k a w'
    | (Raise e, w') => (Raise e, w')
    | (OutOfFuel, w') => (OutOfFuel, w')
    end.

(** [try: m  except Exception: h] *)
Definition try_except {A} (m : M A) (h : exn -> M A) : M A :=
  fun w =>
    match m w with
    | (Raise e, w') => h e w'
    | r => r
    end.

Definition lift {A} (x : exn + A) : M A :=
  match x with
  | inr a => ret a
  | inl e => raise e
  end.

Declare Scope crawl_scope.
Delimit Scope crawl_scope with crawl.
Notation "x <- m ;; k" := (bind m (fun x => k))
  (at level 100, m at next level, right associativity) : crawl_scope.
Notation "m ;;; k" := (bind m (fun _ => k))
  (at level 100, right associativity) : crawl_scope.
Local Open Scope crawl_scope.

(** [for x in l: body x] *)
Fixpoint for_each {A} (l : list A) (body : A -> M unit) : M unit :=
  match l with
  | [] => ret tt
  | x :: l' => body x ;;; for_each l' body
  end.

Definition emit (e : Event) : M unit := fun w => (Ret tt, log e w).

Definition out_of_fuel {A} : M A := fun w => (OutOfFuel, w).

(** ** [Neo4jHandler] *)

Definition has_user (i : value) (s : Store) : bool :=
  existsb (fun n => value_eqb (n_id n) i) (user_nodes s).

Definition has_group (i : value) (s : Store) : bool :=
  existsb (fun g => value_eqb (g_id g) i) (group_nodes s).

Definition has_edge (a b : value) (l : list (value * value)) : bool :=
  existsb (fun e => value_eqb (fst e) a && value_eqb (snd e) b) l.

(** [MERGE (u:User {id: $id}) SET u.screen_name = ..., ...] *)
Definition merge_user (n : UserNode) (s : Store) : Store :=
  let same := fun m => value_eqb (n_id m) (n_id n) in
  mkStore
    (if existsb same (user_nodes s)
     then map (fun m => if same m then n else m) (user_nodes s)
     else user_nodes s ++ [n])
    (group_nodes s) (friend_edges s) (subscribed_edges s).

(** [MERGE (g:Group {id: $id}) SET g.name = ..., g.members_count = ...] *)
Definition merge_group (g : GroupData) (s : Store) : Store :=
  let same := fun m => value_eqb (g_id m) (g_id g) in
  mkStore
    (user_nodes s)
    (if existsb same (group_nodes s)
     then map (fun m => if same m then g else m) (group_nodes s)
     else group_nodes s ++ [g])
    (friend_edges s) (subscribed_edges s).

(** [MATCH (u1:User {id: $user_id1}), (u2:User {id: $user_id2})
     MERGE (u1)-[:FRIEND]->(u2)]: without both nodes there is no row to
    merge an edge for. *)
Definition merge_friend (a b : value) (s : Store) : Store :=
  if has_user a s && has_user b s && negb (has_edge a b (friend_edges s))
  then mkStore (user_nodes s) (group_nodes s)
               (friend_edges s ++ [(a, b)]) (subscribed_edges s)
  else s.

(** [MATCH (u:User {id: $user_id}), (g:Group {id: $group_id})
     MERGE (u)-[:SUBSCRIBED_TO]->(g)] *)
Definition merge_subscription (u g : value) (s : Store) : Store :=
  if has_user u s && has_group g s && negb (has_edge u g (subscribed_edges s))
  then mkStore (user_nodes s) (group_nodes s)
               (friend_edges s) (subscribed_edges s ++ [(u, g)])
  else s.

(** One write transaction inside [try: ... except Exception: logging.error]:
    a failing transaction leaves the store as it was and nothing is raised. *)
Definition db_write (e : Event) (f : Store -> Store) : M unit :=
  fun w =>
    let w1 := next_write (log e w) in
    (Ret tt,
     if db_fails w (write_count w) then w1 else set_store (f (store w1)) w1).

Definition node_of_user (u : User) : UserNode :=
  {| n_id := id u;
     n_screen_name := screen_name u;
     n_name := name u;
     n_sex := sex u;
     n_home_town := home_town u;
     n_friends_count := match friends_count u with Some n => n | None => 0 end;
     n_subscriptions_count :=
       match subscriptions_count u with Some c => c | None => VInt 0 end |}.

Definition create_user (u : User) : M unit :=
  db_write (EvCreateUser u) (merge_user (node_of_user u)).

Definition create_group (g : GroupData) : M unit :=
  db_write (EvCreateGroup g) (merge_group g).

Definition create_friendship (user_id1 user_id2 : value) : M unit :=
  db_write (EvCreateFriendship user_id1 user_id2) (merge_friend user_id1 user_id2).

Definition create_subscription (user_id group_id : value) : M unit :=
  db_write (EvCreateSubscription user_id group_id)
           (merge_subscription user_id group_id).

(** ** [vk_api_request] *)

(** The value returned for error code 30. *)
Definition private_sentinel : value := VDict [("is_private", VBool true)].

(** Lines 20-26: what an attempt makes the function return, if anything. *)
Definition attempt_result (a : Attempt) : option value :=
  match a with
  | AttResponse payload => Some payload
  | AttApiError code _ => if code =? 30 then Some private_sentinel else None
  | _ => None
  end.

(** [time.sleep(delay)]: a negative delay is a [ValueError]. *)
Definition sleep (delay : Z) : M unit :=
  if delay <? 0 then raise ValueError else emit (EvSleep delay).

(** [requests.get(url, params=params)] with all that lines 17-19 do to it. *)
Definition http_get (r : Request) : M Attempt :=
  fun w =>
    let a := api w (http_count w) r in
    (Ret a, next_http (log (EvHttp r a) w)).

(** Lines 15-37: the loop over [range(retries)], [n] attempts to go. *)
Fixpoint attempts (n : nat) (r : Request) (delay : Z) : M value :=
  match n with
  | O => raise ApiExhausted
  | S n' =>
      a <- http_get r ;;
      match attempt_result a with
      | Some v => ret v
      | None => sleep delay ;;; attempts n' r delay
      end
  end.

Definition api_request (method : string) (token : value)
    (params : list (string * value))
    (use_service_token : bool) (service_token : value) : Request :=
  let access_token :=
    if use_service_token && truthy service_token then service_token else token in
  mkRequest method
    (dict_set "v" (VStr "5.131") (dict_set "access_token" access_token params)).

Definition vk_api_request (method : string) (token : value)
    (params : list (string * value)) (retries delay : Z)
    (use_service_token : bool) (service_token : value) : M value :=
  let r := api_request method token params use_service_token service_token in
  emit (EvCall r) ;;; attempts (Z.to_nat retries) r delay.

Definition default_retries : Z := 3.
Definition default_delay : Z := 2.

(** ** [get_user_data] and [get_detailed_data] *)

Definition profile_fields : value :=
  VStr "screen_name,sex,home_town,city,first_name,last_name".

Definition count_per_request : Z := 200.

Definition users_get_params (user_id : value) : list (string * value) :=
  [("user_ids", user_id); ("fields", profile_fields)].

Definition friends_get_params (user_id : value) (friends_limit : Z)
  : list (string * value) :=
  [("user_id", user_id); ("fields", profile_fields); ("count", VInt friends_limit)].

Definition subscriptions_params (user_id : value) (offset : Z)
  : list (string * value) :=
  [("user_id", user_id); ("extended", VInt 1); ("offset", VInt offset);
   ("count", VInt count_per_request); ("filter", VStr "groups")].

Definition groups_params (chunk : list string) : list (string * value) :=
  [("group_ids", VStr (String.concat "," chunk)); ("fields", VStr "members_count")].

Section Crawl.
Context {PT : PyText}.

(** Lines 161-165, the body of the first [try]. *)
Definition fetch_profile (token user_id : value) : M User :=
  r <- vk_api_request "users.get" token (users_get_params user_id)
         default_retries default_delay false VNone ;;
  user_info_data <- lift (py_index0 r) ;;
  lift (process_profile user_info_data).

(** Lines 186-190, the body of the loop over [friends_list]. *)
Definition save_friend (user_info : User) (friend : value) : M unit :=
  friend_profile <- lift (process_profile friend) ;;
  if truthy (is_private friend_profile) then ret tt
  else
    create_user friend_profile ;;;
    create_friendship (id user_info) (id friend_profile).

(** Lines 176-193, the body of the second [try]; the result is
    [friends_count]. *)
Definition save_friends (token user_id : value) (friends_limit : Z)
    (user_info : User) : M Z :=
  friends <- vk_api_request "friends.get" token
               (friends_get_params user_id friends_limit)
               default_retries default_delay false VNone ;;
  match friends with
  | VDict d =>
      let friends_list := dict_get "items" (VList []) d in
      friends_count <- lift (py_len friends_list) ;;
      l <- lift (py_iter friends_list) ;;
      for_each l (save_friend user_info) ;;;
      ret friends_count
  | _ => ret 0
  end.

(** Line 226: [[str(sub['id']) for sub in items if sub.get("is_closed", 0) == 0]] *)
Fixpoint open_group_ids (items : list value) : exn + list string :=
  match items with
  | [] => inr []
  | VDict d :: rest =>
      if eq_zero (dict_get "is_closed" (VInt 0) d) then
        match dict_item "id" d with
        | inl e => inl e
        | inr i =>
            match open_group_ids rest with
            | inl e => inl e
            | inr ids => inr (py_str i :: ids)
            end
        end
      else open_group_ids rest
  | _ :: _ => inl AttributeError
  end.

(** Lines 205-232, the [while True] loop; [fuel] bounds the number of pages
    requested.  The result is [all_group_ids] and [subscriptions_count] as
    the loop leaves them. *)
Fixpoint subscription_pages (fuel : nat) (token user_id : value)
    (subscriptions_limit offset : Z) (all_group_ids : list string)
    (subscriptions_count : value) : M (list string * value) :=
  match fuel with
  | O => out_of_fuel
  | S fuel' =>
      subscriptions <- vk_api_request "users.getSubscriptions" token
                         (subscriptions_params user_id offset)
                         default_retries default_delay false VNone ;;
      match subscriptions with
      | VDict d =>
          let items := dict_get "items" (VList []) d in
          let total_subscriptions := dict_get "count" (VInt 0) d in
          l <- lift (py_iter items) ;;
          group_ids <- lift (open_group_ids l) ;;
          let all_group_ids := (all_group_ids ++ group_ids)%list in
          if (Z.of_nat (List.length l) <? count_per_request)
             || (subscriptions_limit <=? Z.of_nat (List.length all_group_ids))
          then ret (all_group_ids, total_subscriptions)
          else subscription_pages fuel' token user_id subscriptions_limit
                 (offset + count_per_request) all_group_ids total_subscriptions
      | _ => ret (all_group_ids, subscriptions_count)
      end
  end.

(** Lines 255-264, the body of the loop over [groups_info]. *)
Definition save_group (user_info : User) (group : value) : M unit :=
  match group with
  | VDict d =>
      i <- lift (dict_item "id" d) ;;
      let group_data :=
        {| g_id := i;
           g_name := dict_get "name" (VStr "") d;
           g_members_count := dict_get "members_count" (VInt 0) d |} in
      create_group group_data ;;;
      create_subscription (id user_info) (g_id group_data)
  | _ => raise TypeError
  end.

(** Lines 241-264, the body of the loop over [group_chunks]. *)
Definition save_chunk (token service_token : value) (user_info : User)
    (chunk : list string) : M unit :=
  groups_info <- vk_api_request "groups.getById" token (groups_params chunk)
                   default_retries default_delay true service_token ;;
  match groups_info with
  | VList groups => for_each groups (save_group user_info)
  | _ => ret tt
  end.

(** Lines 238-264. *)
Definition save_groups (token service_token : value) (user_info : User)
    (all_group_ids : list string) : M unit :=
  match all_group_ids with
  | [] => ret tt
  | _ => for_each (chunks 500 all_group_ids)
                  (save_chunk token service_token user_info)
  end.

(** Lines 200-264, the body of the third [try]; the result is
    [subscriptions_count]. *)
Definition save_subscriptions (fuel : nat) (token service_token user_id : value)
    (subscriptions_limit : Z) (user_info : User) : M value :=
  r <- subscription_pages fuel token user_id subscriptions_limit 0 [] (VInt 0) ;;
  let all_group_ids := py_slice_to subscriptions_limit (fst r) in
  save_groups token service_token user_info all_group_ids ;;;
  ret (snd r).

Definition with_counts (u : User) (friends subscriptions : option _ ) : User :=
  mkUser (id u) (screen_name u) (name u) (sex u) (home_town u) (is_private u)
         friends subscriptions.

(** Lines 170-276: what follows a profile that was fetched. *)
Definition save_user_data (fuel : nat) (token service_token user_id : value)
    (friends_limit subscriptions_limit : Z) (user_info : User) : M unit :=
  friends_count <-
    try_except (save_friends token user_id friends_limit user_info)
               (fun _ => ret 0) ;;
  subscriptions_count <-
    try_except (save_subscriptions fuel token service_token user_id
                                   subscriptions_limit user_info)
               (fun _ => ret (VInt 0)) ;;
  create_user (with_counts user_info (Some friends_count)
                           (Some subscriptions_count)).

Definition get_user_data (fuel : nat) (token service_token user_id : value)
    (friends_limit subscriptions_limit : Z) : M unit :=
  fetched <- try_except (user_info <- fetch_profile token user_id ;;
                         ret (Some user_info))
                        (fun _ => ret None) ;;
  match fetched with
  | None => ret tt
  | Some user_info =>
      save_user_data fuel token service_token user_id
                     friends_limit subscriptions_limit user_info
  end.

(** Lines 281-286: the set the caller handed over, or a new one; then the
    guard.  The result tells whether [user_id] was there already. *)
Definition enter_user (given : bool) (user_id : value) : M bool :=
  fun w =>
    let w0 := if given then w else set_visited [] w in
    match key_of user_id with
    | None => (Raise TypeError, w0)
    | Some k =>
        if existsb (key_eqb k) (visited_users w0) then (Ret true, w0)
        else (Ret false, set_visited (visited_users w0 ++ [k]) w0)
    end.

(** Lines 293-309, the body of the [try] of [get_detailed_data], with the
    recursive call as a parameter. *)
Definition recurse_friends (token user_id : value) (friends_limit : Z)
    (recur : value -> M unit) : M unit :=
  friends <- vk_api_request "friends.get" token
               (friends_get_params user_id friends_limit)
               default_retries default_delay false VNone ;;
  match friends with
  | VDict d =>
      l <- lift (py_iter (dict_get "items" (VList []) d)) ;;
      for_each l (fun friend =>
        friend_profile <- lift (process_profile friend) ;;
        if truthy (is_private friend_profile) then ret tt
        else recur (id friend_profile))
  | _ => ret tt
  end.

(** [budget] is the number of levels the recursion may still descend;
    [depth_limit - current_depth] of them are ever needed, and
    [get_detailed_data] below starts with that many. *)
Fixpoint get_detailed_data_from (budget fuel : nat)
    (token service_token user_id : value)
    (depth_limit current_depth friends_limit subscriptions_limit : Z)
    (given : bool) {struct budget} : M unit :=
  seen <- enter_user given user_id ;;
  if (seen : bool) then ret tt
  else
    get_user_data fuel token service_token user_id
                  friends_limit subscriptions_limit ;;;
    if current_depth <? depth_limit then
      match budget with
      | O => out_of_fuel
      | S budget' =>
          try_except
            (recurse_friends token user_id friends_limit
               (fun friend_id =>
                  get_detailed_data_from budget' fuel token service_token
                    friend_id depth_limit (current_depth + 1)
                    friends_limit subscriptions_limit true))
            (fun _ => ret tt)
      end
    else ret tt.

Definition get_detailed_data (fuel : nat) (token service_token user_id : value)
    (depth_limit current_depth friends_limit subscriptions_limit : Z)
    (given : bool) : M unit :=
  get_detailed_data_from (Z.to_nat (depth_limit - current_depth)) fuel
    token service_token user_id depth_limit current_depth
    friends_limit subscriptions_limit given.

End Crawl.

(** ** Reading a trace *)

(** What the script did between two worlds. *)
Definition events_since (w w' : World) : list Event :=
  skipn (List.length (trace w)) (trace w').

(** The requests [vk_api_request] was called for, in order. *)
Definition calls (evs : list Event) : list Request :=
  flat_map (fun e => match e with EvCall r => [r] | _ => [] end) evs.

(** The requests sent over HTTP, one per attempt. *)
Definition http_requests (evs : list Event) : list Request :=
  flat_map (fun e => match e with EvHttp r _ => [r] | _ => [] end) evs.

Definition sleeps (evs : list Event) : list Z :=
  flat_map (fun e => match e with EvSleep d => [d] | _ => [] end) evs.

Definition calls_of (method : string) (evs : list Event) : list Request :=
  filter (fun r => String.eqb (api_method r) method) (calls evs).

(** The [user_ids] of the profile lookups, one per [get_user_data]. *)
Definition fetched_ids (evs : list Event) : list value :=
  map (fun r => dict_get "user_ids" VNone (params r)) (calls_of "users.get" evs).

(** The [offset] of the subscription pages asked for. *)
Definition page_offsets (evs : list Event) : list value :=
  map (fun r => dict_get "offset" VNone (params r))
      (calls_of "users.getSubscriptions" evs).

(** What the calls for subscription pages returned. *)
Definition pages (evs : list Event) : list value :=
  flat_map (fun e =>
              match e with
              | EvHttp r a =>
                  if String.eqb (api_method r) "users.getSubscriptions"
                  then match attempt_result a with Some v => [v] | None => [] end
                  else []
              | _ => []
              end) evs.

(** The ['count'] of the last page that was a dictionary, [c] without one. *)
Definition reported_total (c : value) (ps : list value) : value :=
  fold_left (fun c p => match p with
                        | VDict d => dict_get "count" (VInt 0) d
                        | _ => c
                        end) ps c.

Definition created_friendships (evs : list Event) : list (value * value) :=
  flat_map (fun e => match e with EvCreateFriendship a b => [(a, b)] | _ => [] end) evs.

(** ** Concrete worlds for the examples *)

Module Sample.

(** [str] and [strip] on ASCII data: exact on [None], booleans, integers and
    strings; a list or dictionary is shown with its strings in single
    quotes, which is Python's output when they hold no quote, backslash or
    control character. *)
Definition str_of_Z (z : Z) : string := NilZero.string_of_int (Z.to_int z).

Fixpoint repr (v : value) : string :=
  match v with
  | VNone => "None"
  | VBool true => "True"
  | VBool false => "False"
  | VInt z => str_of_Z z
  | VStr s => "'" ++ s ++ "'"
  | VList l =>
      "[" ++ String.concat ", "
               ((fix go (l : list value) : list string :=
                   match l with
                   | [] => []
                   | x :: l' => repr x :: go l'
                   end) l) ++ "]"
  | VDict d =>
      "{" ++ String.concat ", "
               ((fix go (d : list (string * value)) : list string :=
                   match d with
                   | [] => []
                   | (k, x) :: d' => ("'" ++ k ++ "': " ++ repr x) :: go d'
                   end) d) ++ "}"
  end.

Definition str (v : value) : string :=
  match v with
  | VStr s => s
  | _ => repr v
  end.

Definition is_space (c : ascii) : bool :=
  let n := nat_of_ascii c in
  ((9 <=? n) && (n <=? 13) || (28 <=? n) && (n <=? 32))%nat.

Fixpoint lstrip (s : string) : string :=
  match s with
  | String c s' => if is_space c then lstrip s' else s
  | EmptyString => EmptyString
  end.

Fixpoint rstrip (s : string) : string :=
  match s with
  | EmptyString => EmptyString
  | String c s' =>
      match rstrip s' with
      | EmptyString => if is_space c then EmptyString else String c EmptyString
      | t => String c t
      end
  end.

Definition strip (s : string) : string := rstrip (lstrip s).

Definition text : PyText := {| py_str := str; py_strip := strip |}.

Definition param (k : string) (r : Request) : value :=
  dict_get k VNone (params r).

(** A world that has seen nothing yet: every write succeeds, the store is
    empty as [main] leaves it after [clear_database]. *)
Definition fresh (answers : nat -> Request -> Attempt) : World :=
  mkWorld answers (fun _ => false) 0 0 [] empty_store [].

Definition first_name (i : Z) : string :=
  if i =? 1 then "Anna" else if i =? 2 then "Boris" else if i =? 3 then "Vera"
  else if i =? 4 then "Gleb" else "Daria".

Definition person (i : Z) : value :=
  VDict [("id", VInt i); ("first_name", VStr (first_name i));
         ("last_name", VStr "Ivanov");
         ("is_closed", VBool false); ("can_access_closed", VBool true)].

Definition closed_person (i : Z) : value :=
  VDict [("id", VInt i); ("first_name", VStr (first_name i));
         ("last_name", VStr "Petrov");
         ("is_closed", VBool true); ("can_access_closed", VBool false)].

Definition listing (items : list value) : Attempt :=
  AttResponse (VDict [("count", VInt (Z.of_nat (List.length items)));
                      ("items", VList items)]).

(** The user a request names in parameter [k]: the query string shows the
    integer 1 and the text "1" alike. *)
Definition asked (k : string) (r : Request) : option Z :=
  match param k r with
  | VInt i => Some i
  | VStr s => option_map Z.of_int (NilZero.int_of_string s)
  | _ => None
  end.

(** A network of users without subscriptions: [profile i] answers the
    profile lookup of user [i], [friends i] are the records in the friend
    list of user [i]. *)
Definition network (profile : Z -> Attempt) (friends : Z -> list value)
  : nat -> Request -> Attempt :=
  fun _ r =>
    if String.eqb (api_method r) "users.get" then
      match asked "user_ids" r with
      | Some i => profile i
      | None => AttApiError 113 "Invalid user id"
      end
    else if String.eqb (api_method r) "friends.get" then
      match asked "user_id" r with
      | Some i => listing (friends i)
      | None => AttApiError 113 "Invalid user id"
      end
    else if String.eqb (api_method r) "users.getSubscriptions" then listing []
    else AttResponse (VList []).

Definition public_profile (i : Z) : Attempt := AttResponse (VList [person i]).

(** The API is down: every request dies with an HTTP error. *)
Definition down : nat -> Request -> Attempt := fun _ _ => AttHTTPError.

(** User 1 has the friends 2, 3 and 4, of whom 4 is closed to the caller;
    user 2 has the friends 1 and 5. *)
Definition three_friends : nat -> Request -> Attempt :=
  network public_profile
    (fun i => if i =? 1 then [person 2; person 3; closed_person 4]
              else if i =? 2 then [person 1; person 5]
              else []).


(** Users 1 and 2 are friends of each other. *)
Definition two_friends : nat -> Request -> Attempt :=
  network public_profile
    (fun i => if i =? 1 then [person 2]
              else if i =? 2 then [person 1]
              else []).

Definition open_group (i : nat) : value :=
  VDict [("id", VInt (Z.of_nat i)); ("name", VStr "club"); ("is_closed", VInt 0)].

(** Groups number [from + 1] to [from + n]. *)
Definition open_groups (from n : nat) : list value :=
  map open_group (seq (S from) n).

Definition subscriptions_page (total : nat) (offset : Z) : Attempt :=
  AttResponse
    (VDict [("count", VInt (Z.of_nat (List.length (open_groups 0 total))));
            ("items", VList (firstn 200 (skipn (Z.to_nat offset)
                                               (open_groups 0 total))))]).

(** User 1 has no friends and [total] subscriptions, all of them open
    groups, served in pages of at most 200; the group lookup knows none of
    them and answers with an empty list. *)
Definition subscriber (total : nat) : nat -> Request -> Attempt :=
  fun _ r =>
    if String.eqb (api_method r) "users.get" then
      public_profile 1
    else if String.eqb (api_method r) "friends.get" then listing []
    else if String.eqb (api_method r) "users.getSubscriptions" then
      match param "offset" r with
      | VInt o => subscriptions_page total o
      | _ => AttMalformed
      end
    else AttResponse (VList []).

End Sample.

(** ** What the properties speak of *)

(** Every run of [m] takes a world to one that [R] relates to it. *)
Definition keeps (R : World -> World -> Prop) {A} (m : M A) : Prop :=
  forall w r w', m w = (r, w') -> R w w'.

(** A group as the lookup returns it: a dictionary with an [id]. *)
Definition group_record (g : value) : Prop :=
  exists d i, g = VDict d /\ dict_lookup "id" d = Some i.

(** The group lookup answers every attempt with a list of groups. *)
Definition groups_served (w : World) : Prop :=
  forall (n : nat) (r : Request),
    api_method r = "groups.getById" ->
    exists gl, api w n r = AttResponse (VList gl) /\ Forall group_record gl.

(** The request of line 241 for one chunk. *)
Definition lookup_request (token service_token : value) (chunk : list string)
  : Request :=
  api_request "groups.getById" token (groups_params chunk) true service_token.


(** The request of line 206 for the page at [offset]. *)
Definition subscriptions_request (token user_id : value) (offset : Z) : Request :=
  api_request "users.getSubscriptions" token
              (subscriptions_params user_id offset) false VNone.



(** Between two worlds the script did only things that [P] allows, and did
    not touch the set of visited users. *)
Definition only (P : list Event -> Prop) (w w' : World) : Prop :=
  visited_users w' = visited_users w
  /\ exists evs, trace w' = (trace w ++ evs)%list /\ P evs.

Definition no_pages (evs : list Event) : Prop := pages evs = [].

(** Nothing but requests happened: the store, the set of visited users and
    the write counter are as they were, and the oracles are never touched. *)
Definition untouched (w w' : World) : Prop :=
  store w' = store w /\ visited_users w' = visited_users w
  /\ write_count w' = write_count w
  /\ api w' = api w /\ db_fails w' = db_fails w.

(** The request of line 161 for the profile of [user_id]. *)
Definition profile_request (token user_id : value) : Request :=
  api_request "users.get" token (users_get_params user_id) false VNone.


Definition no_calls (evs : list Event) : Prop := calls evs = [].

Definition no_fetch (evs : list Event) : Prop := fetched_ids evs = [].

(** From [w] to [w'] the crawl entered the users [ks], in that order and
    after those visited before, and fetched exactly their profiles, in the
    same order; it entered none of them twice if none was there twice. *)
Definition crawled (w w' : World) : Prop :=
  exists ks evs,
    visited_users w' = (visited_users w ++ ks)%list
    /\ trace w' = (trace w ++ evs)%list
    /\ map key_of (fetched_ids evs) = map Some ks
    /\ (NoDup (visited_users w) -> NoDup (visited_users w')).

Definition created_users (evs : list Event) : list User :=
  flat_map (fun e => match e with EvCreateUser u => [u] | _ => [] end) evs.

(** While no node with the id [root] is written, none exists and the FRIEND
    edges stay as they are. *)
Definition no_edge_without (root : value) (w w' : World) : Prop :=
  exists evs,
    trace w' = (trace w ++ evs)%list
    /\ ((forall u, In u (created_users evs) -> value_eqb (id u) root = false) ->
        has_user root (store w) = false ->
        has_user root (store w') = false
        /\ friend_edges (store w') = friend_edges (store w)).

(** ** Reading the store *)

(** [MATCH (u:User {id: $id}) RETURN u], the first match. *)
Definition find_user (i : value) (s : Store) : option UserNode :=
  find (fun n => value_eqb (n_id n) i) (user_nodes s).

Definition find_group (i : value) (s : Store) : option GroupData :=
  find (fun g => value_eqb (g_id g) i) (group_nodes s).

(** A store as the four statements keep it: one node per id, one edge per
    pair, and no edge without the nodes at its two ends. *)
Definition store_ok (s : Store) : Prop :=
  NoDup (map n_id (user_nodes s))
  /\ NoDup (map g_id (group_nodes s))
  /\ NoDup (friend_edges s)
  /\ NoDup (subscribed_edges s)
  /\ (forall a b, In (a, b) (friend_edges s) ->
                  has_user a s = true /\ has_user b s = true)
  /\ (forall u g, In (u, g) (subscribed_edges s) ->
                  has_user u s = true /\ has_group g s = true).

(** Nothing of [s] is missing in [s']: the nodes are there, under their
    ids, and so are the edges. *)
Definition store_grows (s s' : Store) : Prop :=
  (forall i, has_user i s = true -> has_user i s' = true)
  /\ (forall i, has_group i s = true -> has_group i s' = true)
  /\ incl (friend_edges s) (friend_edges s')
  /\ incl (subscribed_edges s) (subscribed_edges s').

(** No run of [m] ends in an exception. *)
Definition never_raises {A} (m : M A) : Prop :=
  forall w, match fst (m w) with Raise _ => False | _ => True end.

(** A friend that line 187 lets through. *)
Definition open_profile (p : User) : bool := negb (truthy (is_private p)).

(** The request of lines 177 and 294 for the friends of [user_id]. *)
Definition friends_request (token user_id : value) (friends_limit : Z) : Request :=
  api_request "friends.get" token (friends_get_params user_id friends_limit)
              false VNone.

Definition no_writes (evs : list Event) : Prop :=
  created_users evs = [] /\ created_friendships evs = [].

(** A subscription that line 226 keeps: [sub.get("is_closed", 0) == 0]. *)
Definition is_open (sub : value) : bool :=
  match sub with
  | VDict d => eq_zero (dict_get "is_closed" (VInt 0) d)
  | _ => false
  end.

(** A subscription line 226 can read: a dictionary, with an [id] if it is
    open. *)
Definition readable_subscription (sub : value) : Prop :=
  exists d, sub = VDict d /\ (is_open sub = true -> dict_mem "id" d = true).

(** [str(sub['id'])] *)
Definition id_text {PT : PyText} (sub : value) : string :=
  match sub with
  | VDict d => py_str (dict_get "id" VNone d)
  | _ => ""
  end.

(** No call for a friend list among the events. *)
Definition no_friends_call (evs : list Event) : Prop :=
  calls_of "friends.get" evs = [].


(** ** [execute_queries], [clear_database] and [main] *)

(** The five read queries, lines 324-363. *)
Inductive Query : Type :=
| QTotalUsers      (* MATCH (u:User) RETURN count(u) as total_users *)
| QTotalGroups     (* MATCH (g:Group) RETURN count(DISTINCT g) as total_groups *)
| QTopUsers        (* ... RETURN u.id as user_id, u.name as name,
                      count(f) as friends_count ... LIMIT 5 *)
| QTopGroups       (* ... RETURN g.id as group_id, g.name as name,
                      g.members_count as members_count ... LIMIT 5 *)
| QMutualFriends.  (* ... RETURN u1.id as user1_id, u1.name as user1_name,
                      u2.id as user2_id, u2.name as user2_name *)

(** A record of a result, by column. *)
Definition Row : Type := list (string * value).

(** One constructor per [print] of the script, with the values its
    f-string shows, in the order it shows them. *)
Inductive Line : Type :=
| TotalUsersLine (total_users : value)
| TotalGroupsLine (total_groups : value)
| TopUsersHeader
| TopUserLine (user_id name friends_count : value)
| TopGroupsHeader
| TopGroupLine (group_id name members_count : value)
| MutualFriendsHeader
| MutualFriendsLine (user1_name user1_id user2_name user2_id : value)
| InvalidQueryLine
| MissingInputLine.

(** What was printed, and the exception that ended the printing, if any. *)
Definition Output : Type := (list Line * option exn)%type.

Definition nonempty (s : string) : bool := negb (String.eqb s "").

Section Reports.

(** What Neo4j answers to a read query on a store; [None] when
    [session.run] raises. *)
Variable engine : Query -> Store -> option (list Row).

(** Lines 149-156. *)
Definition execute_query (q : Query) (s : Store) : list Row :=
  match engine q s with
  | Some result => result
  | None => []
  end.

(** [for record in result: print(f"...")] *)
Fixpoint print_records (line : Row -> exn + Line) (result : list Row) : Output :=
  match result with
  | [] => ([], None)
  | record :: rest =>
      match line record with
      | inl e => ([], Some e)
      | inr l => let (ls, e) := print_records line rest in (l :: ls, e)
      end
  end.

(** Line 345. *)
Definition top_user_line (record : Row) : exn + Line :=
  match dict_item "user_id" record with
  | inl e => inl e
  | inr user_id =>
      match dict_item "name" record with
      | inl e => inl e
      | inr name =>
          match dict_item "friends_count" record with
          | inl e => inl e
          | inr friends_count => inr (TopUserLine user_id name friends_count)
          end
      end
  end.

(** Line 357. *)
Definition top_group_line (record : Row) : exn + Line :=
  match dict_item "group_id" record with
  | inl e => inl e
  | inr group_id =>
      match dict_item "name" record with
      | inl e => inl e
      | inr name =>
          match dict_item "members_count" record with
          | inl e => inl e
          | inr members_count => inr (TopGroupLine group_id name members_count)
          end
      end
  end.

(** Line 367. *)
Definition mutual_friends_line (record : Row) : exn + Line :=
  match dict_item "user1_name" record with
  | inl e => inl e
  | inr user1_name =>
      match dict_item "user1_id" record with
      | inl e => inl e
      | inr user1_id =>
          match dict_item "user2_name" record with
          | inl e => inl e
          | inr user2_name =>
              match dict_item "user2_id" record with
              | inl e => inl e
              | inr user2_id =>
                  inr (MutualFriendsLine user1_name user1_id user2_name user2_id)
              end
          end
      end
  end.

(** Lines 323-369, the body of the loop over [queries_to_execute]. *)
Definition report (q_type : string) (s : Store) : Output :=
  if String.eqb q_type "total_users" then
    match execute_query QTotalUsers s with
    | [] => ([], None)
    | record :: _ =>
        match dict_item "total_users" record with
        | inl e => ([], Some e)
        | inr total_users => ([TotalUsersLine total_users], None)
        end
    end
  else if String.eqb q_type "total_groups" then
    match execute_query QTotalGroups s with
    | [] => ([], None)
    | record :: _ =>
        match dict_item "total_groups" record with
        | inl e => ([], Some e)
        | inr total_groups => ([TotalGroupsLine total_groups], None)
        end
    end
  else if String.eqb q_type "top_users" then
    let (ls, e) := print_records top_user_line (execute_query QTopUsers s) in
    (TopUsersHeader :: ls, e)
  else if String.eqb q_type "top_groups" then
    let (ls, e) := print_records top_group_line (execute_query QTopGroups s) in
    (TopGroupsHeader :: ls, e)
  else if String.eqb q_type "mutual_friends" then
    let (ls, e) := print_records mutual_friends_line
                                 (execute_query QMutualFriends s) in
    (MutualFriendsHeader :: ls, e)
  else ([InvalidQueryLine], None).

(** [for q_type in queries_to_execute] *)
Fixpoint report_each (queries_to_execute : list string) (s : Store) : Output :=
  match queries_to_execute with
  | [] => ([], None)
  | q_type :: rest =>
      match report q_type s with
      | (ls, Some e) => (ls, Some e)
      | (ls, None) => let (ls', e) := report_each rest s in ((ls ++ ls')%list, e)
      end
  end.

Definition all_queries : list string :=
  ["total_users"; "total_groups"; "top_groups"; "top_users"; "mutual_friends"].

(** Lines 314-369. *)
Definition execute_queries (query_type : option string) (s : Store) : Output :=
  let queries_to_execute :=
    match query_type with
    | Some q => if nonempty q then [q] else all_queries
    | None => all_queries
    end in
  report_each queries_to_execute s.

End Reports.

(** The columns the RETURN clause of each query names. *)
Definition columns (q : Query) : list string :=
  match q with
  | QTotalUsers => ["total_users"]
  | QTotalGroups => ["total_groups"]
  | QTopUsers => ["user_id"; "name"; "friends_count"]
  | QTopGroups => ["group_id"; "name"; "members_count"]
  | QMutualFriends => ["user1_id"; "user1_name"; "user2_id"; "user2_name"]
  end.

(** Every record of every answer has the columns of its query. *)
Definition answers_in_columns (engine : Query -> Store -> option (list Row))
    (s : Store) : Prop :=
  forall q, Forall (fun record => forall c, In c (columns q) ->
                                            dict_mem c record = true)
                   (execute_query engine q s).

(** The value a record shows in a column. *)
Definition shown (c : string) (record : Row) : value := dict_get c VNone record.

(** The command line, lines 382-389. *)
Record Args : Type := mkArgs {
  args_query : option string;
  args_depth_limit : Z;
  args_friends_limit : Z;
  args_subscriptions_limit : Z;
  args_uri : string
}.

(** What is typed at the five prompts, lines 392-397. *)
Record Inputs : Type := mkInputs {
  typed_token : string;
  typed_service_token : string;
  typed_user_id : string;
  typed_db_user : string;
  typed_db_password : string
}.

(** Whether [GraphDatabase.driver] and the [DETACH DELETE] of
    [clear_database] go through. *)
Record Neo4j : Type := mkNeo4j {
  connects : bool;
  clears : bool
}.

(** How [main] ends: it returns, or the [finally] of line 424 finds
    [db_handler] unbound, or the model ran out of fuel. *)
Inductive Ending : Type := Returned | UnboundLocalError | Exhausted.

Record Outcome : Type := mkOutcome {
  printed : list Line;
  after : World;
  connection : option (string * string * string);
  closed : bool;
  ending : Ending
}.

(** Lines 372-375; [None] when [session.run] raises. *)
Definition clear_database (db : Neo4j) (w : World) : option World :=
  if clears db then Some (set_store empty_store w) else None.

Section Main.
Context {PT : PyText}.
Variable engine : Query -> Store -> option (list Row).

(** Lines 378-424.  An exception of the [try] is logged by line 422 and
    the connection is closed by line 424; the prompts, the parser and
    [close] are taken not to fail. *)
Definition main (fuel : nat) (db : Neo4j) (args : Args) (typed : Inputs)
    (w : World) : Outcome :=
  let token := typed_token typed in
  let service_token := typed_service_token typed in
  let user_id := typed_user_id typed in
  let db_user :=
    if nonempty (typed_db_user typed) then typed_db_user typed else "neo4j" in
  let db_password := typed_db_password typed in
  if negb (nonempty token) || negb (nonempty user_id)
     || negb (nonempty service_token)
  then mkOutcome [MissingInputLine] w None false Returned
  else if negb (connects db)
  then mkOutcome [] w None false UnboundLocalError
  else
    let opened := Some (args_uri args, db_user, db_password) in
    match clear_database db w with
    | None => mkOutcome [] w opened true Returned
    | Some w1 =>
        if match args_query args with
           | Some q => nonempty q
           | None => false
           end
        then
          mkOutcome (fst (execute_queries engine (args_query args) (store w1)))
                    w1 opened true Returned
        else
          let (r, w2) :=
            get_detailed_data fuel (VStr token) (VStr service_token)
              (VStr user_id) (args_depth_limit args) 1
              (args_friends_limit args) (args_subscriptions_limit args)
              false w1 in
          match r with
          | Ret _ =>
              mkOutcome (fst (execute_queries engine None (store w2)))
                        w2 opened true Returned
          | Raise _ => mkOutcome [] w2 opened true Returned
          | OutOfFuel => mkOutcome [] w2 opened true Exhausted
          end
    end.

End Main.

(** While the user [root] has no node and [create_friendship] is not asked
    to link a user to itself, [root] stays without a node and neither the
    FRIEND nor the SUBSCRIBED_TO edges change. *)
Definition no_edges_without (root : value) (w w' : World) : Prop :=
  exists evs,
    trace w' = (trace w ++ evs)%list
    /\ ((forall a b, In (a, b) (created_friendships evs) ->
                     value_eqb b a = false) ->
        has_user root (store w) = false ->
        has_user root (store w') = false
        /\ friend_edges (store w') = friend_edges (store w)
        /\ subscribed_edges (store w') = subscribed_edges (store w)).

(** ** More worlds, for the further properties *)

Module Cases.

(** The first [k] requests die with an HTTP error, the later ones are
    answered with [payload]. *)
Definition flaky (k : nat) (payload : value) : nat -> Request -> Attempt :=
  fun n _ => if (n <? k)%nat then AttHTTPError else AttResponse payload.

(** A friend record without an [id]. *)
Definition nameless : value := VDict [("first_name", VStr "Ghost")].

(** User 1 has the friends 2 and 3, with a record without [id] between
    them in the friend list. *)
Definition broken_friend_list : nat -> Request -> Attempt :=
  Sample.network Sample.public_profile
    (fun i => if i =? 1 then [Sample.person 2; nameless; Sample.person 3]
              else []).

(** As [Sample.subscriber], with the group lookup down. *)
Definition lookup_down (total : nat) : nat -> Request -> Attempt :=
  fun n r =>
    if String.eqb (api_method r) "groups.getById" then AttHTTPError
    else Sample.subscriber total n r.

(** User 1 has the friends 2 and 3 and subscribes to the open groups 1 and
    2, which the group lookup knows. *)
Definition with_groups : nat -> Request -> Attempt :=
  fun _ r =>
    if String.eqb (api_method r) "users.get" then Sample.public_profile 1
    else if String.eqb (api_method r) "friends.get"
    then Sample.listing [Sample.person 2; Sample.person 3]
    else if String.eqb (api_method r) "users.getSubscriptions"
    then AttResponse (VDict [("count", VInt 2);
                             ("items", VList (Sample.open_groups 0 2))])
    else AttResponse (VList (Sample.open_groups 0 2)).

(** An engine that counts the nodes and finds no row for the three
    listings, as Neo4j does on a store without groups and edges. *)
Definition counting (q : Query) (s : Store) : option (list Row) :=
  match q with
  | QTotalUsers =>
      Some [[("total_users", VInt (Z.of_nat (List.length (user_nodes s))))]]
  | QTotalGroups =>
      Some [[("total_groups", VInt (Z.of_nat (List.length (group_nodes s))))]]
  | _ => Some []
  end.

(** User 1 shows a profile but neither friends nor subscriptions: both
    lists are answered with error 30. *)
Definition private_lists : nat -> Request -> Attempt :=
  fun _ r =>
    if String.eqb (api_method r) "users.get" then Sample.public_profile 1
    else AttApiError 30 "This profile is private".

(** The first [k] requests are turned away with error 6, the later ones
    are answered with [then_]. *)
Definition rate_limited (k : nat) (then_ : Attempt) : nat -> Request -> Attempt :=
  fun n _ =>
    if (n <? k)%nat then AttApiError 6 "Too many requests per second"
    else then_.

(** Users 1 and 2 are friends of each other and subscribe to [total] open
    groups each; the group lookup knows none of the groups. *)
Definition mutual_subscribers (total : nat) : nat -> Request -> Attempt :=
  fun n r =>
    if String.eqb (api_method r) "users.getSubscriptions" then
      match Sample.param "offset" r with
      | VInt o => Sample.subscriptions_page total o
      | _ => AttMalformed
      end
    else if String.eqb (api_method r) "groups.getById" then AttResponse (VList [])
    else Sample.two_friends n r.

(** The API answers every request with error 30, "profile is private". *)
Definition all_private : nat -> Request -> Attempt :=
  fun _ _ => AttApiError 30 "This profile is private".

(** The world once an earlier call has written the node of [who]. *)
Definition known (who : User) (w : World) : World :=
  set_store (merge_user (node_of_user who) (store w)) w.

Definition anna : User :=
  mkUser (VInt 1) (VStr "") "Anna Ivanov" (VInt 0) (VStr "") (VBool false)
         None None.

Definition friend_record (i : Z) (name : string) (private : bool) : User :=
  mkUser (VInt i) (VStr "") name (VInt 0) (VStr "") (VBool private) None None.

End Cases.

(** * Properties *)

(** ** The monad *)

Lemma events_since_app (w w' : World) (evs : list Event) :
  trace w' = (trace w ++ evs)%list -> events_since w w' = evs.
Proof.
  intros H. unfold events_since. rewrite H.
  rewrite skipn_app, skipn_all, Nat.sub_diag. reflexivity.
Qed.

Lemma bind_ret_inv {A B} (m : M A) (k : A -> M B) w b w' :
  bind m k w = (Ret b, w') ->
  exists a w1, m w = (Ret a, w1) /\ k a w1 = (Ret b, w').
Proof.
  unfold bind. destruct (m w) as [[a | e |] w1]; intros H; try discriminate.
  eauto.
Qed.

Lemma bind_of_ret {A B} (m : M A) (k : A -> M B) w a w1 :
  m w = (Ret a, w1) -> bind m k w = k a w1.
Proof. unfold bind. intros ->. reflexivity. Qed.

(** A relation between the world before and the world after that every step
    of a computation respects is respected by the whole computation. *)
Section Keeps.
Variable R : World -> World -> Prop.
Hypothesis R_refl : forall w, R w w.
Hypothesis R_trans : forall w1 w2 w3, R w1 w2 -> R w2 w3 -> R w1 w3.

Lemma keeps_ret {A} (a : A) : keeps R (ret a).
Proof. intros w r w' H. inversion H. apply R_refl. Qed.

Lemma keeps_raise {A} (e : exn) : keeps R (@raise A e).
Proof. intros w r w' H. inversion H. apply R_refl. Qed.

Lemma keeps_out_of_fuel {A} : keeps R (@out_of_fuel A).
Proof. intros w r w' H. inversion H. apply R_refl. Qed.

Lemma keeps_lift {A} (x : exn + A) : keeps R (lift x).
Proof. destruct x; [apply keeps_raise | apply keeps_ret]. Qed.

Lemma keeps_bind {A B} (m : M A) (k : A -> M B) :
  keeps R m -> (forall a, keeps R (k a)) -> keeps R (bind m k).
Proof.
  intros Hm Hk w r w'. unfold bind.
  destruct (m w) as [[a | e |] w1] eqn:E; intros H.
  - eapply R_trans; [eapply Hm; eassumption | eapply Hk; eassumption].
  - inversion H; subst. eapply Hm; eassumption.
  - inversion H; subst. eapply Hm; eassumption.
Qed.

Lemma keeps_try {A} (m : M A) (h : exn -> M A) :
  keeps R m -> (forall e, keeps R (h e)) -> keeps R (try_except m h).
Proof.
  intros Hm Hh w r w'. unfold try_except.
  destruct (m w) as [[a | e |] w1] eqn:E; intros H.
  - inversion H; subst. eapply Hm; eassumption.
  - eapply R_trans; [eapply Hm; eassumption | eapply Hh; eassumption].
  - inversion H; subst. eapply Hm; eassumption.
Qed.

Lemma keeps_for_each {A} (l : list A) (body : A -> M unit) :
  (forall x, In x l -> keeps R (body x)) -> keeps R (for_each l body).
Proof.
  induction l as [| x l IH]; intros Hb; simpl.
  - apply keeps_ret.
  - apply keeps_bind.
    + apply Hb. now left.
    + intros _. apply IH. intros y Hy. apply Hb. now right.
Qed.

End Keeps.

(** One structural step of a [keeps] proof, given that the relation is
    reflexive ([Rf]) and transitive ([Tr]). *)
Ltac keeps_step Rf Tr :=
  first [ apply keeps_ret; exact Rf
        | apply keeps_raise; exact Rf
        | apply keeps_out_of_fuel; exact Rf
        | apply keeps_lift; exact Rf
        | apply keeps_bind; [exact Tr | | intro]
        | apply keeps_try; [exact Tr | | intro] ].

Ltac keeps_each Rf Tr x :=
  apply keeps_for_each; [exact Rf | exact Tr | intros x _].

(** ** [process_profile] *)

Lemma process_profile_inv {PT : PyText} (profile : value) (u : User) :
  process_profile profile = inr u ->
  exists d, profile = VDict d
            /\ dict_lookup "id" d = Some (id u)
            /\ is_private u = profile_is_private d.
Proof.
  destruct profile; simpl; try discriminate.
  unfold dict_item.
  destruct (profile_home_town d); try discriminate.
  destruct (dict_lookup "id" d) eqn:E; try discriminate.
  intros H. inversion H; subst; simpl. eauto.
Qed.

(** A record with an [id], and with a dictionary for [city] if it has one,
    is accepted. *)
Lemma process_profile_returns {PT : PyText} (d : list (string * value)) (i : value) :
  dict_lookup "id" d = Some i ->
  (forall city, dict_lookup "city" d = Some city -> exists c, city = VDict c) ->
  exists u, process_profile (VDict d) = inr u /\ id u = i.
Proof.
  intros Hi Hc.
  assert (H : exists h, profile_home_town d = inr h).
  { unfold profile_home_town.
    destruct (truthy (dict_get "home_town" (VStr "") d)); [eauto |].
    destruct (dict_lookup "city" d) as [city |] eqn:E; [| eauto].
    destruct (Hc city eq_refl) as (c & ->). simpl.
    unfold dict_mem, dict_item.
    destruct (dict_lookup "title" c); eauto. }
  destruct H as (h & Hh).
  simpl. rewrite Hh. unfold dict_item. rewrite Hi. eauto.
Qed.

(** C7.  Whatever record [process_profile] accepts, the [is_private] it
    returns is true, as Python tests it, exactly when the record has the key
    [deactivated], or [is_closed] is true and [can_access_closed] is absent
    or false; with a JSON boolean for [is_closed] the result is the
    boolean [True] or [False] itself. *)
Theorem process_profile_is_private {PT : PyText}
    (d : list (string * value)) (u : User) :
  process_profile (VDict d) = inr u ->
  truthy (is_private u)
  = dict_mem "deactivated" d
    || (truthy (dict_get "is_closed" VNone d)
        && negb (truthy (dict_get "can_access_closed" VNone d)))
  /\ (forall c, dict_lookup "is_closed" d = Some (VBool c) ->
      is_private u
      = VBool (dict_mem "deactivated" d
               || (c && negb (truthy (dict_get "can_access_closed" VNone d))))).
Proof.
  intros H. apply process_profile_inv in H.
  destruct H as (d' & Hd & _ & Hp). inversion Hd; subst d'. clear Hd.
  rewrite Hp. unfold profile_is_private. split.
  - destruct (dict_mem "deactivated" d); simpl; [reflexivity |].
    destruct (truthy (dict_get "is_closed" VNone d)) eqn:E; simpl.
    + reflexivity.
    + exact E.
  - intros c Hc. unfold dict_get at 1 3. rewrite Hc.
    destruct (dict_mem "deactivated" d); simpl; [reflexivity |].
    destruct c; reflexivity.
Qed.

Lemma process_profile_is_private_witness :
  let u := mkUser (VInt 4) (VStr "") "Gleb Petrov" (VInt 0) (VStr "")
                  (VBool true) None None in
  @process_profile Sample.text (Sample.closed_person 4) = inr u
  /\ truthy (is_private u) = true.
Proof.
  intros u.
  assert (H : @process_profile Sample.text (Sample.closed_person 4) = inr u)
    by (vm_compute; reflexivity).
  split; [exact H |].
  eapply eq_trans;
    [apply (proj1 (@process_profile_is_private Sample.text _ u H)) | reflexivity].
Defined.

(** ** [vk_api_request] *)

Lemma attempts_fail_step (n : nat) (r : Request) (delay : Z) (w : World) :
  0 <= delay ->
  attempt_result (api w (http_count w) r) = None ->
  attempts (S n) r delay w
  = attempts n r delay
      (log (EvSleep delay)
           (next_http (log (EvHttp r (api w (http_count w) r)) w))).
Proof.
  intros Hd Ha. simpl. unfold bind, http_get at 1. rewrite Ha.
  unfold sleep. destruct (delay <? 0) eqn:E; [lia |]. reflexivity.
Qed.

Lemma attempts_success (n : nat) (r : Request) (delay : Z) (w : World) (v : value) :
  attempt_result (api w (http_count w) r) = Some v ->
  attempts (S n) r delay w
  = (Ret v, next_http (log (EvHttp r (api w (http_count w) r)) w)).
Proof.
  intros Ha. simpl. unfold bind, http_get at 1. rewrite Ha. reflexivity.
Qed.

(** C3, as the code has it.  When the three attempts of a call all fail, the
    call raises after the third one, and each of the three attempts, the
    last one too, is followed by a sleep: three sleeps, not two. *)
Theorem vk_api_request_sleeps_after_last_attempt
    (method : string) (token : value) (params : list (string * value))
    (delay : Z) (use_service_token : bool) (service_token : value) (w : World) :
  let r := api_request method token params use_service_token service_token in
  let a := fun i : nat => api w (http_count w + i)%nat r in
  0 <= delay ->
  (forall i : nat, (i < 3)%nat -> attempt_result (a i) = None) ->
  exists w',
    vk_api_request method token params 3 delay use_service_token service_token w
    = (Raise ApiExhausted, w')
    /\ events_since w w'
       = [EvCall r; EvHttp r (a 0%nat); EvSleep delay;
          EvHttp r (a 1%nat); EvSleep delay;
          EvHttp r (a 2%nat); EvSleep delay]
    /\ sleeps (events_since w w') = [delay; delay; delay].
Proof.
  intros r a Hd Hfail.
  pose proof (Hfail 0%nat ltac:(lia)) as H0.
  pose proof (Hfail 1%nat ltac:(lia)) as H1.
  pose proof (Hfail 2%nat ltac:(lia)) as H2.
  assert (E0 : a 0%nat = api w (http_count w) r)
    by (unfold a; f_equal; lia).
  assert (E1 : a 1%nat = api w (S (http_count w)) r)
    by (unfold a; f_equal; lia).
  assert (E2 : a 2%nat = api w (S (S (http_count w))) r)
    by (unfold a; f_equal; lia).
  rewrite E0 in *. rewrite E1 in *. rewrite E2 in *. clear E0 E1 E2 Hfail.
  unfold vk_api_request. fold r.
  change (Z.to_nat 3) with 3%nat.
  unfold bind at 1, emit at 1.
  rewrite attempts_fail_step; [| assumption | exact H0].
  rewrite attempts_fail_step; [| assumption | exact H1].
  rewrite attempts_fail_step; [| assumption | exact H2].
  simpl attempts. unfold raise.
  eexists. split; [reflexivity |].
  erewrite events_since_app;
    [| simpl; repeat rewrite <- app_assoc; reflexivity].
  split; reflexivity.
Qed.

Lemma vk_api_request_sleeps_after_last_attempt_witness :
  sleeps (events_since (Sample.fresh Sample.down)
            (snd (vk_api_request "users.get" (VStr "token")
                    (users_get_params (VInt 1)) 3 2 false VNone
                    (Sample.fresh Sample.down))))
  = [2; 2; 2].
Proof.
  destruct (@vk_api_request_sleeps_after_last_attempt
              "users.get" (VStr "token") (users_get_params (VInt 1)) 2
              false VNone (Sample.fresh Sample.down)
              ltac:(lia) (fun i _ => eq_refl)) as (w' & H & _ & Hs).
  rewrite H. exact Hs.
Defined.

(** ** Chunks *)

Lemma chunks_fuel_cons {A} (fuel size : nat) (l : list A) :
  l <> [] ->
  chunks_fuel (S fuel) size l = firstn size l :: chunks_fuel fuel size (skipn size l).
Proof. destruct l; [congruence | reflexivity]. Qed.

Lemma chunks_fuel_nil {A} (fuel size : nat) : @chunks_fuel A fuel size [] = [].
Proof. destruct fuel; reflexivity. Qed.

Lemma length_pos_not_nil {A} (l : list A) : (0 < List.length l)%nat -> l <> [].
Proof. destruct l; simpl; [lia | congruence]. Qed.


(** 1200 ids make three chunks, of 500, 500 and 200 ids, in the order of
    the ids. *)
Lemma chunks_1200 {A} (l : list A) :
  List.length l = 1200%nat ->
  exists c1 c2 c3,
    chunks 500 l = [c1; c2; c3]
    /\ l = (c1 ++ c2 ++ c3)%list
    /\ List.length c1 = 500%nat /\ List.length c2 = 500%nat
    /\ List.length c3 = 200%nat.
Proof.
  intros Hl.
  exists (firstn 500 l), (firstn 500 (skipn 500 l)),
         (firstn 500 (skipn 500 (skipn 500 l))).
  assert (H1 : List.length (skipn 500 l) = 700%nat)
    by (rewrite length_skipn; lia).
  assert (H2 : List.length (skipn 500 (skipn 500 l)) = 200%nat)
    by (rewrite length_skipn; lia).
  assert (H3 : skipn 500 (skipn 500 (skipn 500 l)) = []).
  { apply length_zero_iff_nil. rewrite length_skipn. lia. }
  repeat split.
  - unfold chunks. rewrite Hl.
    rewrite chunks_fuel_cons by (apply length_pos_not_nil; lia).
    rewrite chunks_fuel_cons by (apply length_pos_not_nil; lia).
    rewrite chunks_fuel_cons by (apply length_pos_not_nil; lia).
    rewrite H3, chunks_fuel_nil. reflexivity.
  - rewrite <- (firstn_skipn 500 l) at 1. f_equal.
    rewrite <- (firstn_skipn 500 (skipn 500 l)) at 1. f_equal.
    rewrite <- (firstn_skipn 500 (skipn 500 (skipn 500 l))) at 1.
    rewrite H3, app_nil_r. reflexivity.
  - rewrite length_firstn. lia.
  - rewrite length_firstn. lia.
  - rewrite length_firstn. lia.
Qed.

(** ** The group lookups of [get_user_data] *)

Section Groups.

Lemma save_group_record (u : User) (g : value) (w : World) :
  group_record g ->
  exists w' evs,
    save_group u g w = (Ret tt, w')
    /\ api w' = api w
    /\ trace w' = (trace w ++ evs)%list
    /\ calls evs = [] /\ http_requests evs = [].
Proof.
  intros (d & i & -> & Hi).
  unfold save_group, dict_item. rewrite Hi. simpl.
  unfold bind, create_group, create_subscription, db_write. simpl.
  do 2 eexists. split; [reflexivity |].
  split; [| split].
  - destruct (db_fails w (write_count w)); simpl;
      destruct (db_fails w (S (write_count w))); reflexivity.
  - destruct (db_fails w (write_count w)); simpl;
      destruct (db_fails w (S (write_count w))); simpl;
      rewrite <- app_assoc; reflexivity.
  - split; reflexivity.
Qed.

Lemma save_group_records (u : User) (gl : list value) :
  Forall group_record gl ->
  forall w, exists w' evs,
    for_each gl (save_group u) w = (Ret tt, w')
    /\ api w' = api w
    /\ trace w' = (trace w ++ evs)%list
    /\ calls evs = [] /\ http_requests evs = [].
Proof.
  induction 1 as [| g gl Hg _ IH]; intros w; simpl.
  - exists w, []. rewrite app_nil_r. repeat split; reflexivity.
  - destruct (save_group_record u w Hg) as (w1 & e1 & H1 & A1 & T1 & C1 & Q1).
    destruct (IH w1) as (w2 & e2 & H2 & A2 & T2 & C2 & Q2).
    exists w2, (e1 ++ e2)%list.
    rewrite (bind_of_ret _ _ _ H1). split; [exact H2 |].
    split; [congruence |]. split.
    + rewrite T2, T1, app_assoc. reflexivity.
    + unfold calls, http_requests in *. rewrite !flat_map_app.
      rewrite C1, C2, Q1, Q2. split; reflexivity.
Qed.

Lemma save_chunk_served (token service_token : value) (u : User)
    (chunk : list string) (w : World) :
  groups_served w ->
  exists w' evs,
    save_chunk token service_token u chunk w = (Ret tt, w')
    /\ api w' = api w
    /\ trace w' = (trace w ++ evs)%list
    /\ calls evs = [lookup_request token service_token chunk]
    /\ http_requests evs = [lookup_request token service_token chunk].
Proof.
  intros Hs.
  destruct (Hs (http_count w) (lookup_request token service_token chunk)
               eq_refl) as (gl & Ha & Hgl).
  unfold save_chunk, vk_api_request.
  fold (lookup_request token service_token chunk).
  set (r := lookup_request token service_token chunk) in *.
  change (Z.to_nat default_retries) with 3%nat.
  unfold bind at 1. unfold bind at 1. unfold emit at 1.
  erewrite attempts_success by (simpl; rewrite Ha; reflexivity).
  simpl api. rewrite Ha.
  destruct (save_group_records u Hgl
              (next_http (log (EvHttp r (AttResponse (VList gl)))
                              (log (EvCall r) w))))
    as (w2 & e2 & H2 & A2 & T2 & C2 & Q2).
  exists w2, (EvCall r :: EvHttp r (AttResponse (VList gl)) :: e2).
  split; [exact H2 |]. split; [exact A2 |]. split.
  - rewrite T2. simpl. rewrite <- !app_assoc. reflexivity.
  - unfold calls, http_requests in *. simpl. rewrite C2, Q2.
    split; reflexivity.
Qed.

Lemma save_chunks_served (token service_token : value) (u : User)
    (cs : list (list string)) :
  forall w,
    groups_served w ->
    exists w' evs,
      for_each cs (save_chunk token service_token u) w = (Ret tt, w')
      /\ api w' = api w
      /\ trace w' = (trace w ++ evs)%list
      /\ calls evs = map (lookup_request token service_token) cs
      /\ http_requests evs = map (lookup_request token service_token) cs.
Proof.
  induction cs as [| c cs IH]; intros w Hs; simpl.
  - exists w, []. rewrite app_nil_r. repeat split; reflexivity.
  - destruct (save_chunk_served token service_token u c Hs)
      as (w1 & e1 & H1 & A1 & T1 & C1 & Q1).
    assert (Hs1 : groups_served w1).
    { intros n r Hr. rewrite A1. apply Hs, Hr. }
    destruct (IH w1 Hs1) as (w2 & e2 & H2 & A2 & T2 & C2 & Q2).
    exists w2, (e1 ++ e2)%list.
    rewrite (bind_of_ret _ _ _ H1). split; [exact H2 |].
    split; [congruence |]. split.
    + rewrite T2, T1, app_assoc. reflexivity.
    + unfold calls, http_requests in *. rewrite !flat_map_app.
      rewrite C1, C2, Q1, Q2. split; reflexivity.
Qed.

(** C8.  With 1200 accumulated group ids, a service token that is there
    and a lookup that answers, lines 238-264 cut the ids, in their order,
    into chunks of 500, 500 and 200, and call the lookup once per chunk,
    three calls and three requests in all: each is a [groups.getById]
    whose [group_ids] are the ids of its chunk joined by commas and whose
    [access_token] is the service token. *)
Theorem save_groups_1200 (token service_token : value) (u : User)
    (all_group_ids : list string) (w : World) :
  List.length all_group_ids = 1200%nat ->
  truthy service_token = true ->
  groups_served w ->
  let lookup := fun chunk : list string =>
    mkRequest "groups.getById"
      [("group_ids", VStr (String.concat "," chunk));
       ("fields", VStr "members_count");
       ("access_token", service_token);
       ("v", VStr "5.131")] in
  exists w' c1 c2 c3,
    save_groups token service_token u all_group_ids w = (Ret tt, w')
    /\ all_group_ids = (c1 ++ c2 ++ c3)%list
    /\ List.length c1 = 500%nat /\ List.length c2 = 500%nat
    /\ List.length c3 = 200%nat
    /\ calls (events_since w w') = [lookup c1; lookup c2; lookup c3]
    /\ http_requests (events_since w w') = [lookup c1; lookup c2; lookup c3].
Proof.
  intros Hl Ht Hs lookup.
  destruct (chunks_1200 all_group_ids Hl) as (c1 & c2 & c3 & Hc & Hcat & L1 & L2 & L3).
  destruct (save_chunks_served token service_token u (chunks 500 all_group_ids) Hs)
    as (w' & evs & H & _ & T & C & Q).
  assert (E : forall c, lookup_request token service_token c = lookup c).
  { intros c. unfold lookup_request, api_request, lookup. rewrite Ht. reflexivity. }
  exists w', c1, c2, c3.
  split.
  { unfold save_groups. destruct all_group_ids; [discriminate Hl | exact H]. }
  rewrite (@events_since_app _ _ _ T), C, Q, Hc. cbn [map]. rewrite !E.
  repeat split; assumption.
Qed.

End Groups.

Lemma save_groups_1200_witness :
  let u := mkUser (VInt 1) (VStr "anna") "Anna Ivanov" (VInt 2) (VStr "") (VBool false)
                  None None in
  let ids := map Sample.str_of_Z (map Z.of_nat (seq 1 1200)) in
  let evs := events_since (Sample.fresh (Sample.subscriber 1200))
               (snd (save_groups (VStr "token") (VStr "service") u ids
                       (Sample.fresh (Sample.subscriber 1200)))) in
  map (fun r => dict_get "access_token" VNone (params r)) (calls evs)
  = [VStr "service"; VStr "service"; VStr "service"]
  /\ map (fun r => api_method r) (calls evs)
     = ["groups.getById"; "groups.getById"; "groups.getById"]
  /\ exists c1 c2 c3,
       ids = (c1 ++ c2 ++ c3)%list
       /\ map (fun r => dict_get "group_ids" VNone (params r)) (calls evs)
          = map (fun c => VStr (String.concat "," c)) [c1; c2; c3]
       /\ map (@List.length string) [c1; c2; c3] = [500; 500; 200]%nat.
Proof.
  intros u ids evs.
  assert (Hs : groups_served (Sample.fresh (Sample.subscriber 1200))).
  { intros n r Hr. exists []. split; [| constructor].
    unfold Sample.fresh, Sample.subscriber. simpl. rewrite Hr. reflexivity. }
  assert (Hl : List.length ids = 1200%nat).
  { unfold ids. rewrite !length_map, length_seq. reflexivity. }
  destruct (@save_groups_1200 (VStr "token") (VStr "service") u ids
              (Sample.fresh (Sample.subscriber 1200)) Hl eq_refl Hs)
    as (w' & c1 & c2 & c3 & H & Hcat & L1 & L2 & L3 & C & _).
  unfold evs. rewrite H. cbn [snd]. rewrite C.
  split; [reflexivity |]. split; [reflexivity |].
  exists c1, c2, c3. split; [exact Hcat |]. split; [reflexivity |].
  cbn [map]. rewrite L1, L2, L3. reflexivity.
Defined.

(** ** The subscription pages of [get_user_data] *)

Lemma vk_api_request_first_answer
    (method : string) (token : value) (params : list (string * value))
    (use_service_token : bool) (service_token : value) (w : World) (v : value) :
  let r := api_request method token params use_service_token service_token in
  attempt_result (api w (http_count w) r) = Some v ->
  vk_api_request method token params default_retries default_delay
                 use_service_token service_token w
  = (Ret v, next_http (log (EvHttp r (api w (http_count w) r)) (log (EvCall r) w))).
Proof.
  intros r Ha. unfold vk_api_request. fold r.
  change (Z.to_nat default_retries) with 3%nat.
  unfold bind at 1, emit at 1.
  erewrite attempts_success by exact Ha. reflexivity.
Qed.

Section Pages.
Context {PT : PyText}.




End Pages.





(** ** The count that [get_user_data] stores *)

Lemma pages_app (e1 e2 : list Event) : pages (e1 ++ e2) = (pages e1 ++ pages e2)%list.
Proof. unfold pages. apply flat_map_app. Qed.

Lemma pages_call (r : Request) (evs : list Event) :
  pages (EvCall r :: evs) = pages evs.
Proof. reflexivity. Qed.

Lemma attempts_page (n : nat) (r : Request) (delay : Z) :
  api_method r = "users.getSubscriptions" ->
  forall w v w',
    attempts n r delay w = (Ret v, w') ->
    exists evs, trace w' = (trace w ++ evs)%list /\ pages evs = [v].
Proof.
  intros Hm. induction n as [| n IH]; intros w v w' H; simpl in H.
  - discriminate H.
  - unfold bind at 1, http_get at 1 in H.
    destruct (attempt_result (api w (http_count w) r)) as [v0 |] eqn:Ha.
    + inversion H; subst. eexists. split; [reflexivity |].
      unfold pages. simpl. rewrite Hm, Ha. reflexivity.
    + unfold sleep in H. destruct (delay <? 0); [discriminate H |].
      unfold bind at 1, emit at 1 in H.
      apply IH in H. destruct H as (evs & T & P).
      exists (EvHttp r (api w (http_count w) r) :: EvSleep delay :: evs).
      split.
      * rewrite T. simpl. rewrite <- !app_assoc. reflexivity.
      * unfold pages in *. simpl. rewrite Hm, Ha. exact P.
Qed.

Section Count.
Context {PT : PyText}.

Lemma subscription_pages_total (fuel : nat) (token user_id : value) (limit : Z) :
  forall offset acc cnt w ids c w',
    subscription_pages fuel token user_id limit offset acc cnt w
    = (Ret (ids, c), w') ->
    exists evs, trace w' = (trace w ++ evs)%list
                /\ c = reported_total cnt (pages evs).
Proof.
  induction fuel as [| fuel IH]; intros offset acc cnt w ids c w' H.
  - discriminate H.
  - cbn [subscription_pages] in H.
    apply bind_ret_inv in H. destruct H as (v & w1 & Hv & H).
    unfold vk_api_request in Hv.
    unfold bind at 1, emit at 1 in Hv.
    apply attempts_page in Hv; [| reflexivity].
    destruct Hv as (e1 & T1 & P1). simpl in T1.
    destruct v as [| b | z | s | l | d];
      try (inversion H; subst;
           exists (EvCall (api_request "users.getSubscriptions" token
                        (subscriptions_params user_id offset) false VNone) :: e1);
           split; [rewrite T1, <- app_assoc; reflexivity |];
           rewrite pages_call, P1; reflexivity).
    apply bind_ret_inv in H. destruct H as (l & w2 & Hl & H).
    apply bind_ret_inv in H. destruct H as (gids & w3 & Hg & H).
    assert (w2 = w1) as ->.
    { destruct (py_iter (dict_get "items" (VList []) d)); inversion Hl; reflexivity. }
    assert (w3 = w1) as ->.
    { destruct (open_group_ids l); inversion Hg; reflexivity. }
    destruct ((Z.of_nat (List.length l) <? count_per_request)
              || (limit <=? Z.of_nat (List.length (acc ++ gids)))).
    + inversion H; subst.
      eexists. split; [rewrite T1, <- app_assoc; reflexivity |].
      simpl app. rewrite pages_call, P1. reflexivity.
    + apply IH in H. destruct H as (e2 & T2 & P2).
      eexists. split; [rewrite T2, T1, <- !app_assoc; reflexivity |].
      simpl app. rewrite pages_call, pages_app, P1. exact P2.
Qed.

End Count.

(** Events of a kind [P] that holds of no event at all, of single events
    where needed, and of concatenations. *)
Section Only.
Variable P : list Event -> Prop.
Hypothesis P_nil : P [].
Hypothesis P_app : forall e1 e2, P e1 -> P e2 -> P (e1 ++ e2).

Lemma only_refl (w : World) : only P w w.
Proof.
  split; [reflexivity |].
  exists []. rewrite app_nil_r. split; [reflexivity | exact P_nil].
Qed.

Lemma only_trans (w1 w2 w3 : World) : only P w1 w2 -> only P w2 w3 -> only P w1 w3.
Proof.
  intros (V1 & e1 & T1 & H1) (V2 & e2 & T2 & H2).
  split; [congruence |]. exists (e1 ++ e2)%list.
  split; [rewrite T2, T1, app_assoc; reflexivity | apply P_app; assumption].
Qed.

Lemma only_emit (e : Event) : P [e] -> keeps (only P) (emit e).
Proof.
  intros He w r w' H. inversion H; subst.
  split; [reflexivity |]. exists [e]. split; [reflexivity | exact He].
Qed.

Lemma only_db_write (e : Event) (f : Store -> Store) :
  P [e] -> keeps (only P) (db_write e f).
Proof.
  intros He w r w' H. unfold db_write in H. inversion H; subst.
  split; [destruct (db_fails w (write_count w)); reflexivity |].
  exists [e]. split; [| exact He].
  destruct (db_fails w (write_count w)); reflexivity.
Qed.

Lemma only_sleep (delay : Z) : P [EvSleep delay] -> keeps (only P) (sleep delay).
Proof.
  intros He. unfold sleep. destruct (delay <? 0).
  - keeps_step only_refl only_trans.
  - apply only_emit, He.
Qed.

Lemma only_http_get (r : Request) :
  (forall a, P [EvHttp r a]) -> keeps (only P) (http_get r).
Proof.
  intros He w x w' H. unfold http_get in H. inversion H; subst.
  split; [reflexivity |]. eexists. split; [reflexivity | apply He].
Qed.

Lemma only_attempts (n : nat) (r : Request) (delay : Z) :
  (forall a, P [EvHttp r a]) -> P [EvSleep delay] ->
  keeps (only P) (attempts n r delay).
Proof.
  intros Hh Hs. induction n as [| n IH]; simpl.
  - keeps_step only_refl only_trans.
  - keeps_step only_refl only_trans; [apply only_http_get, Hh |].
    destruct (attempt_result a).
    + keeps_step only_refl only_trans.
    + keeps_step only_refl only_trans; [apply only_sleep, Hs | exact IH].
Qed.

Lemma only_vk_api_request method token params retries delay ust st :
  let r := api_request method token params ust st in
  P [EvCall r] -> (forall a, P [EvHttp r a]) -> P [EvSleep delay] ->
  keeps (only P) (vk_api_request method token params retries delay ust st).
Proof.
  intros r Hc Hh Hs. unfold vk_api_request.
  keeps_step only_refl only_trans; [apply only_emit, Hc |].
  apply only_attempts; assumption.
Qed.

End Only.

Lemma no_pages_app (e1 e2 : list Event) : no_pages e1 -> no_pages e2 -> no_pages (e1 ++ e2).
Proof. unfold no_pages. intros H1 H2. rewrite pages_app, H1, H2. reflexivity. Qed.

(** The same for the blocks of [get_user_data], when [P] allows sleeps,
    writes, and the calls and requests of the methods [ok]. *)
Section Allowed.
Context {PT : PyText}.
Variable P : list Event -> Prop.
Variable ok : string -> Prop.
Hypothesis P_nil : P [].
Hypothesis P_app : forall e1 e2, P e1 -> P e2 -> P (e1 ++ e2).
Hypothesis P_sleep : forall d, P [EvSleep d].
Hypothesis P_user : forall u, P [EvCreateUser u].
Hypothesis P_group : forall g, P [EvCreateGroup g].
Hypothesis P_friend : forall a b, P [EvCreateFriendship a b].
Hypothesis P_subscription : forall u g, P [EvCreateSubscription u g].
Hypothesis P_call : forall r, ok (api_method r) -> P [EvCall r].
Hypothesis P_http : forall r a, ok (api_method r) -> P [EvHttp r a].

Let Rf := @only_refl P P_nil.
Let Tr := @only_trans P P_app.

Lemma allowed_request method token params retries delay ust st :
  ok method ->
  keeps (only P) (vk_api_request method token params retries delay ust st).
Proof.
  intros Hm. apply only_vk_api_request; try assumption.
  - apply P_call, Hm.
  - intros a. apply P_http, Hm.
  - apply P_sleep.
Qed.

Lemma allowed_save_groups (token service_token : value) (u : User)
    (all_group_ids : list string) :
  ok "groups.getById" ->
  keeps (only P) (save_groups token service_token u all_group_ids).
Proof.
  intros Hm. unfold save_groups. destruct all_group_ids as [| g0 rest].
  - keeps_step Rf Tr.
  - keeps_each Rf Tr chunk. unfold save_chunk.
    apply keeps_bind; [exact Tr | apply allowed_request, Hm | intros groups_info].
    destruct groups_info as [| | | | groups |]; try (apply keeps_ret; exact Rf).
    keeps_each Rf Tr group.
    unfold save_group. destruct group; try (apply keeps_raise; exact Rf).
    apply keeps_bind; [exact Tr | apply keeps_lift; exact Rf | intros i].
    apply keeps_bind; [exact Tr | apply only_db_write, P_group | intros _].
    apply only_db_write, P_subscription.
Qed.

Lemma allowed_save_friends (token user_id : value) (friends_limit : Z) (u : User) :
  ok "friends.get" ->
  keeps (only P) (save_friends token user_id friends_limit u).
Proof.
  intros Hm. unfold save_friends.
  apply keeps_bind; [exact Tr | apply allowed_request, Hm | intros friends].
  destruct friends as [| | | | | d]; try (apply keeps_ret; exact Rf).
  apply keeps_bind; [exact Tr | apply keeps_lift; exact Rf | intros n].
  apply keeps_bind; [exact Tr | apply keeps_lift; exact Rf | intros l].
  apply keeps_bind; [exact Tr | | intros _; apply keeps_ret; exact Rf].
  keeps_each Rf Tr friend. unfold save_friend.
  apply keeps_bind; [exact Tr | apply keeps_lift; exact Rf | intros p].
  destruct (truthy (is_private p)); [apply keeps_ret; exact Rf |].
  apply keeps_bind; [exact Tr | apply only_db_write, P_user | intros _].
  apply only_db_write, P_friend.
Qed.

Lemma allowed_subscription_pages (fuel : nat) (token user_id : value) (limit : Z) :
  ok "users.getSubscriptions" ->
  forall offset acc cnt,
    keeps (only P) (subscription_pages fuel token user_id limit offset acc cnt).
Proof.
  intros Hm. induction fuel as [| fuel IH]; intros offset acc cnt;
    cbn [subscription_pages].
  - apply keeps_out_of_fuel; exact Rf.
  - apply keeps_bind; [exact Tr | apply allowed_request, Hm | intros subscriptions].
    destruct subscriptions as [| | | | | d]; try (apply keeps_ret; exact Rf).
    apply keeps_bind; [exact Tr | apply keeps_lift; exact Rf | intros l].
    apply keeps_bind; [exact Tr | apply keeps_lift; exact Rf | intros group_ids].
    destruct ((Z.of_nat (List.length l) <? count_per_request)
              || (limit <=? Z.of_nat (List.length (acc ++ group_ids)))).
    + apply keeps_ret; exact Rf.
    + apply IH.
Qed.

Lemma allowed_save_user_data (fuel : nat) (token service_token user_id : value)
    (friends_limit subscriptions_limit : Z) (u : User) :
  ok "friends.get" -> ok "users.getSubscriptions" -> ok "groups.getById" ->
  keeps (only P) (save_user_data fuel token service_token user_id
                                 friends_limit subscriptions_limit u).
Proof.
  intros Hf Hs Hg. unfold save_user_data.
  apply keeps_bind; [exact Tr | | intros friends_count].
  { apply keeps_try; [exact Tr | apply allowed_save_friends, Hf |].
    intros _. apply keeps_ret; exact Rf. }
  apply keeps_bind; [exact Tr | | intros subscriptions_count].
  { apply keeps_try; [exact Tr | | intros _; apply keeps_ret; exact Rf].
    unfold save_subscriptions.
    apply keeps_bind; [exact Tr | apply allowed_subscription_pages, Hs | intros r].
    apply keeps_bind; [exact Tr | apply allowed_save_groups, Hg | intros _].
    apply keeps_ret; exact Rf. }
  apply only_db_write, P_user.
Qed.

End Allowed.

Lemma save_groups_no_pages (token service_token : value) (u : User)
    (all_group_ids : list string) :
  keeps (only no_pages) (save_groups token service_token u all_group_ids).
Proof.
  apply allowed_save_groups
    with (ok := fun m => String.eqb m "users.getSubscriptions" = false);
    try reflexivity; try exact no_pages_app.
  intros r a Hr. unfold no_pages, pages. simpl. rewrite Hr. reflexivity.
Qed.

Lemma merge_user_has (n : UserNode) (s : Store) :
  In n (user_nodes (merge_user n s)).
Proof.
  unfold merge_user. simpl.
  destruct (existsb (fun m => value_eqb (n_id m) (n_id n)) (user_nodes s)) eqn:E.
  - apply existsb_exists in E. destruct E as (m & Hm & Hs).
    apply in_map_iff. exists m. rewrite Hs. split; [reflexivity | exact Hm].
  - apply in_or_app. right. now left.
Qed.

Section Stored.
Context {PT : PyText}.

Lemma save_subscriptions_total (fuel : nat) (token service_token user_id : value)
    (limit : Z) (u : User) (w : World) (c : value) (w' : World) :
  save_subscriptions fuel token service_token user_id limit u w = (Ret c, w') ->
  c = reported_total (VInt 0) (pages (events_since w w')).
Proof.
  unfold save_subscriptions. intros H.
  apply bind_ret_inv in H. destruct H as ([ids c0] & w1 & Hp & H).
  apply bind_ret_inv in H. destruct H as ([] & w2 & Hg & H).
  inversion H; subst. simpl.
  apply subscription_pages_total in Hp. destruct Hp as (e1 & T1 & ->).
  apply save_groups_no_pages in Hg. destruct Hg as (_ & e2 & T2 & P2).
  rewrite T1, <- app_assoc in T2.
  rewrite (@events_since_app _ _ _ T2), pages_app, P2, app_nil_r. reflexivity.
Qed.

End Stored.


(** ** The depth limit *)

(** The recursion goes no deeper than [depth_limit]: at that depth a user
    is entered and its data fetched, and that is all. *)
Lemma get_detailed_data_at_limit {PT : PyText} (budget fuel : nat)
    (token service_token user_id : value)
    (depth_limit current_depth friends_limit subscriptions_limit : Z)
    (given : bool) :
  depth_limit <= current_depth ->
  get_detailed_data_from budget fuel token service_token user_id depth_limit
    current_depth friends_limit subscriptions_limit given
  = (seen <- enter_user given user_id ;;
     if (seen : bool) then ret tt
     else get_user_data fuel token service_token user_id
                        friends_limit subscriptions_limit ;;; ret tt)%crawl.
Proof.
  intros H. destruct budget; simpl;
    destruct (current_depth <? depth_limit) eqn:E; try lia; reflexivity.
Qed.

(** ** A profile that cannot be fetched *)

Lemma untouched_refl (w : World) : untouched w w.
Proof. repeat split. Qed.

Lemma untouched_trans (w1 w2 w3 : World) :
  untouched w1 w2 -> untouched w2 w3 -> untouched w1 w3.
Proof.
  unfold untouched. intros (A1 & B1 & C1 & D1 & E1) (A2 & B2 & C2 & D2 & E2).
  repeat split; congruence.
Qed.

Lemma vk_api_request_untouched method token params retries delay ust st :
  keeps untouched (vk_api_request method token params retries delay ust st).
Proof.
  unfold vk_api_request.
  keeps_step untouched_refl untouched_trans.
  - intros w r w' H. inversion H; subst. repeat split.
  - induction (Z.to_nat retries) as [| n IH]; simpl.
    + keeps_step untouched_refl untouched_trans.
    + keeps_step untouched_refl untouched_trans.
      * intros w r w' H. inversion H; subst. repeat split.
      * destruct (attempt_result a0); keeps_step untouched_refl untouched_trans.
        -- unfold sleep. destruct (delay <? 0).
           ++ keeps_step untouched_refl untouched_trans.
           ++ intros w r w' H. inversion H; subst. repeat split.
        -- exact IH.
Qed.

Lemma no_calls_app (e1 e2 : list Event) : no_calls e1 -> no_calls e2 -> no_calls (e1 ++ e2).
Proof.
  unfold no_calls, calls. intros H1 H2. rewrite flat_map_app, H1, H2. reflexivity.
Qed.

(** A call is one [EvCall] and then attempts and sleeps. *)
Lemma vk_api_request_one_call method token params retries delay ust st w x w' :
  vk_api_request method token params retries delay ust st w = (x, w') ->
  exists evs,
    trace w' = (trace w ++ EvCall (api_request method token params ust st) :: evs)%list
    /\ no_calls evs.
Proof.
  unfold vk_api_request. unfold bind at 1, emit at 1. intros H.
  apply (@only_attempts no_calls eq_refl no_calls_app _ _ _
            (fun _ => eq_refl) eq_refl) in H.
  destruct H as (_ & evs & T & N). exists evs. split; [| exact N].
  rewrite T. simpl. rewrite <- app_assoc. reflexivity.
Qed.

Lemma try_except_total {A} (m : M A) (a : A) (w : World) (e : exn) :
  fst (try_except m (fun _ => ret a) w) <> Raise e.
Proof.
  unfold try_except. destruct (m w) as [[x | e' |] w']; simpl; discriminate.
Qed.

Section Failure.
Context {PT : PyText}.

Lemma fetch_profile_one_call (token user_id : value) (w : World) x w' :
  fetch_profile token user_id w = (x, w') ->
  untouched w w'
  /\ calls (events_since w w') = [profile_request token user_id].
Proof.
  unfold fetch_profile, bind. intros H.
  destruct (vk_api_request "users.get" token (users_get_params user_id)
              default_retries default_delay false VNone w) as [r w1] eqn:E.
  assert (w' = w1) as ->.
  { destruct r as [v | |]; try (inversion H; reflexivity).
    destruct (py_index0 v) as [| v0]; simpl in H; [inversion H; reflexivity |].
    destruct (process_profile v0); simpl in H; inversion H; reflexivity. }
  split.
  - eapply vk_api_request_untouched. exact E.
  - apply vk_api_request_one_call in E. destruct E as (evs & T & N).
    rewrite (@events_since_app _ _ _ T). unfold calls. simpl.
    unfold no_calls, calls in N. rewrite N. reflexivity.
Qed.


End Failure.



(** ** The set of visited users *)

Lemma key_eqb_eq (a b : key) : key_eqb a b = true <-> a = b.
Proof.
  destruct a, b; simpl; split; intros H; try discriminate; try reflexivity.
  - apply Z.eqb_eq in H. congruence.
  - inversion H. apply Z.eqb_refl.
  - apply String.eqb_eq in H. congruence.
  - inversion H. apply String.eqb_refl.
Qed.

Lemma not_visited (k : key) (l : list key) :
  existsb (key_eqb k) l = false -> ~ In k l.
Proof.
  intros H Hin. assert (E : existsb (key_eqb k) l = true).
  { apply existsb_exists. exists k. split; [exact Hin | now apply key_eqb_eq]. }
  congruence.
Qed.

Lemma fetched_ids_app (e1 e2 : list Event) :
  fetched_ids (e1 ++ e2) = (fetched_ids e1 ++ fetched_ids e2)%list.
Proof.
  unfold fetched_ids, calls_of, calls.
  rewrite flat_map_app, filter_app, map_app. reflexivity.
Qed.

Lemma no_fetch_app (e1 e2 : list Event) : no_fetch e1 -> no_fetch e2 -> no_fetch (e1 ++ e2).
Proof. unfold no_fetch. intros H1 H2. rewrite fetched_ids_app, H1, H2. reflexivity. Qed.

Lemma crawled_refl (w : World) : crawled w w.
Proof.
  exists [], []. rewrite !app_nil_r. repeat split; auto.
Qed.

Lemma crawled_trans (w1 w2 w3 : World) : crawled w1 w2 -> crawled w2 w3 -> crawled w1 w3.
Proof.
  intros (k1 & e1 & V1 & T1 & F1 & N1) (k2 & e2 & V2 & T2 & F2 & N2).
  exists (k1 ++ k2)%list, (e1 ++ e2)%list. repeat split.
  - rewrite V2, V1, app_assoc. reflexivity.
  - rewrite T2, T1, app_assoc. reflexivity.
  - rewrite fetched_ids_app, !map_app, F1, F2. reflexivity.
  - auto.
Qed.

Lemma quiet_crawled (w w' : World) : only no_fetch w w' -> crawled w w'.
Proof.
  intros (V & evs & T & F). exists [], evs. rewrite app_nil_r.
  repeat split; try assumption.
  - rewrite F. reflexivity.
  - rewrite V. auto.
Qed.

Lemma keeps_weaken (R R' : World -> World -> Prop) {A} (m : M A) :
  (forall w w', R w w' -> R' w w') -> keeps R m -> keeps R' m.
Proof. intros H Hm w r w' E. eapply H, Hm, E. Qed.

Lemma no_fetch_call (r : Request) :
  String.eqb (api_method r) "users.get" = false -> no_fetch [EvCall r].
Proof.
  intros H. unfold no_fetch, fetched_ids, calls_of, calls. simpl.
  rewrite H. reflexivity.
Qed.

Section Visited.
Context {PT : PyText}.

Lemma save_user_data_no_fetch (fuel : nat) (token service_token user_id : value)
    (friends_limit subscriptions_limit : Z) (u : User) :
  keeps (only no_fetch) (save_user_data fuel token service_token user_id
                                        friends_limit subscriptions_limit u).
Proof.
  apply allowed_save_user_data
    with (ok := fun m => String.eqb m "users.get" = false);
    try reflexivity; try exact no_fetch_app.
  intros r. apply no_fetch_call.
Qed.

Lemma friends_request_no_fetch (token user_id : value) (friends_limit : Z) :
  keeps (only no_fetch)
        (vk_api_request "friends.get" token
           (friends_get_params user_id friends_limit)
           default_retries default_delay false VNone).
Proof.
  apply allowed_request
    with (ok := fun m => String.eqb m "users.get" = false);
    try reflexivity; try exact no_fetch_app.
  intros r. apply no_fetch_call.
Qed.

Lemma fetch_profile_fetches (token user_id : value) (w : World) x w' :
  fetch_profile token user_id w = (x, w') ->
  visited_users w' = visited_users w
  /\ exists evs, trace w' = (trace w ++ evs)%list /\ fetched_ids evs = [user_id].
Proof.
  unfold fetch_profile, bind. intros H.
  destruct (vk_api_request "users.get" token (users_get_params user_id)
              default_retries default_delay false VNone w) as [r w1] eqn:E.
  assert (w' = w1) as ->.
  { destruct r as [v | |]; try (inversion H; reflexivity).
    destruct (py_index0 v) as [| v0]; simpl in H; [inversion H; reflexivity |].
    destruct (process_profile v0); simpl in H; inversion H; reflexivity. }
  split.
  - eapply vk_api_request_untouched. exact E.
  - apply vk_api_request_one_call in E. destruct E as (evs & T & N).
    eexists. split; [exact T |].
    unfold fetched_ids, calls_of, calls. simpl.
    unfold no_calls, calls in N. rewrite N. reflexivity.
Qed.

Lemma get_user_data_fetches (fuel : nat) (token service_token user_id : value)
    (friends_limit subscriptions_limit : Z) (w : World) x w' :
  get_user_data fuel token service_token user_id friends_limit
                subscriptions_limit w = (x, w') ->
  visited_users w' = visited_users w
  /\ exists evs, trace w' = (trace w ++ evs)%list /\ fetched_ids evs = [user_id].
Proof.
  unfold get_user_data. unfold bind at 1, try_except at 1, bind at 1.
  destruct (fetch_profile token user_id w) as [r w1] eqn:E.
  apply fetch_profile_fetches in E. destruct E as (V1 & e1 & T1 & F1).
  destruct r as [u | e |]; unfold ret; intros H.
  - apply save_user_data_no_fetch in H. destruct H as (V2 & e2 & T2 & F2).
    split; [congruence |]. exists (e1 ++ e2)%list. split.
    + rewrite T2, T1, app_assoc. reflexivity.
    + rewrite fetched_ids_app, F1, F2. reflexivity.
  - inversion H; subst. split; [exact V1 |]. exists e1. split; assumption.
  - inversion H; subst. split; [exact V1 |]. exists e1. split; assumption.
Qed.

Lemma enter_then_fetch (k : key) (user_id : value) (w w' : World) :
  key_of user_id = Some k ->
  existsb (key_eqb k) (visited_users w) = false ->
  (visited_users w' = (visited_users w ++ [k])%list
   /\ exists evs, trace w' = (trace w ++ evs)%list
                  /\ fetched_ids evs = [user_id]) ->
  crawled w w'.
Proof.
  intros Hk Hv (V & evs & T & F). exists [k], evs. repeat split; try assumption.
  - rewrite F. simpl. rewrite Hk. reflexivity.
  - intros N. rewrite V. apply NoDup_app; [exact N | repeat constructor; simpl; tauto |].
    intros x Hx [<- | []]. exact (not_visited _ _ Hv Hx).
Qed.

Lemma get_detailed_data_crawled (budget fuel : nat) (token service_token : value)
    (depth_limit friends_limit subscriptions_limit : Z) :
  forall (user_id : value) (current_depth : Z),
    keeps crawled
          (get_detailed_data_from budget fuel token service_token user_id
             depth_limit current_depth friends_limit subscriptions_limit true).
Proof.
  assert (Hrec : forall recur user_id,
             (forall friend_id, keeps crawled (recur friend_id)) ->
             keeps crawled
               (try_except (recurse_friends token user_id friends_limit recur)
                           (fun _ => ret tt))).
  { intros recur user_id Hr.
    apply keeps_try; [exact crawled_trans | | intros _; apply keeps_ret, crawled_refl].
    unfold recurse_friends.
    apply keeps_bind; [exact crawled_trans | | intros friends].
    { eapply keeps_weaken; [exact quiet_crawled | apply friends_request_no_fetch]. }
    destruct friends as [| | | | | d]; try (apply keeps_ret, crawled_refl).
    apply keeps_bind; [exact crawled_trans | apply keeps_lift, crawled_refl | intros l].
    keeps_each crawled_refl crawled_trans friend.
    apply keeps_bind; [exact crawled_trans | apply keeps_lift, crawled_refl | intros p].
    destruct (truthy (is_private p)); [apply keeps_ret, crawled_refl | apply Hr]. }
  assert (Hstep : forall rest user_id,
             keeps crawled rest ->
             keeps crawled
               (seen <- enter_user true user_id ;;
                if (seen : bool) then ret tt
                else get_user_data fuel token service_token user_id
                                   friends_limit subscriptions_limit ;;; rest)%crawl).
  { intros rest user_id Hrest w r w' H.
    unfold bind at 1, enter_user at 1 in H.
    destruct (key_of user_id) as [k |] eqn:Hk;
      [| inversion H; subst; apply crawled_refl].
    destruct (existsb (key_eqb k) (visited_users w)) eqn:Hv;
      [inversion H; subst; apply crawled_refl |].
    unfold bind at 1 in H.
    destruct (get_user_data fuel token service_token user_id friends_limit
                subscriptions_limit
                (set_visited (visited_users w ++ [k]) w)) as [x w1] eqn:G.
    apply get_user_data_fetches in G. simpl in G.
    assert (C1 : crawled w w1) by (eapply enter_then_fetch; eassumption).
    destruct x as [[] | e |].
    - eapply crawled_trans; [exact C1 | eapply Hrest; exact H].
    - inversion H; subst. exact C1.
    - inversion H; subst. exact C1. }
  induction budget as [| budget IH]; intros user_id current_depth;
    cbn [get_detailed_data_from]; apply Hstep;
    destruct (current_depth <? depth_limit);
    try (apply keeps_ret, crawled_refl).
  - apply keeps_out_of_fuel, crawled_refl.
  - apply Hrec. intros friend_id. apply IH.
Qed.

End Visited.

Lemma NoDup_app_inv {A} (l l' : list A) :
  NoDup (l ++ l') -> NoDup l' /\ (forall k, In k l' -> ~ In k l).
Proof.
  induction l as [| a l IH]; simpl; intros H.
  - split; [exact H | tauto].
  - inversion H as [| ? ? Ha N]; subst. destruct (IH N) as [N' D].
    split; [exact N' |]. intros k Hk [-> | Hl].
    + apply Ha, in_or_app. now right.
    + exact (D k Hk Hl).
Qed.

Lemma NoDup_map_Some {A} (l : list A) : NoDup l -> NoDup (map Some l).
Proof.
  induction 1 as [| a l Ha _ IH]; simpl; constructor; [| exact IH].
  intros H. apply in_map_iff in H. destruct H as (b & E & Hb).
  inversion E; subst. exact (Ha Hb).
Qed.

Lemma get_detailed_data_from_given {PT : PyText} (budget fuel : nat)
    (token service_token user_id : value)
    (depth_limit current_depth friends_limit subscriptions_limit : Z)
    (given : bool) (w : World) :
  get_detailed_data_from budget fuel token service_token user_id depth_limit
    current_depth friends_limit subscriptions_limit given w
  = get_detailed_data_from budget fuel token service_token user_id depth_limit
      current_depth friends_limit subscriptions_limit true
      (if given then w else set_visited [] w).
Proof.
  destruct given; [reflexivity |].
  destruct budget; cbn [get_detailed_data_from]; unfold bind at 1 3, enter_user;
    reflexivity.
Qed.

(** What the set of visited users does give.  In a run of
    [get_detailed_data], from the set it is given or the empty one it
    makes, the set only grows, by the users [ks] entered during the run;
    none of them was in the set before or enters it twice; and the
    profiles fetched during the run are exactly those of [ks], one fetch
    each.  User ids are told apart as the Python set tells them apart:
    the text "1" and the integer 1 are two of them. *)
Theorem visited_users_grow_once {PT : PyText} (fuel : nat)
    (token service_token user_id : value)
    (depth_limit current_depth friends_limit subscriptions_limit : Z)
    (given : bool) (w : World) (r : res unit) (w' : World) :
  let w0 := if given then w else set_visited [] w in
  get_detailed_data fuel token service_token user_id depth_limit current_depth
                    friends_limit subscriptions_limit given w = (r, w') ->
  NoDup (visited_users w0) ->
  exists ks,
    visited_users w' = (visited_users w0 ++ ks)%list
    /\ NoDup (visited_users w')
    /\ (forall k, In k ks -> ~ In k (visited_users w0))
    /\ map key_of (fetched_ids (events_since w w')) = map Some ks
    /\ NoDup (map key_of (fetched_ids (events_since w w'))).
Proof.
  intros w0 H N. unfold get_detailed_data in H.
  rewrite get_detailed_data_from_given in H. fold w0 in H.
  apply get_detailed_data_crawled in H.
  destruct H as (ks & evs & V & T & F & ND).
  assert (Tw : trace w0 = trace w) by (unfold w0; destruct given; reflexivity).
  rewrite Tw in T. rewrite (@events_since_app _ _ _ T).
  specialize (ND N). exists ks.
  pose proof ND as ND'. rewrite V in ND'. apply NoDup_app_inv in ND'.
  destruct ND' as [Nk D].
  repeat split; try assumption.
  rewrite F. apply NoDup_map_Some, Nk.
Qed.

Lemma visited_users_grow_once_witness :
  let w := Sample.fresh Sample.two_friends in
  let run := @get_detailed_data Sample.text 10 (VStr "token") (VStr "service")
               (VInt 1) 3 1 100 300 false w in
  NoDup (visited_users (snd run))
  /\ NoDup (map key_of (fetched_ids (events_since w (snd run)))).
Proof.
  intros w run.
  destruct (@visited_users_grow_once Sample.text 10 (VStr "token") (VStr "service")
              (VInt 1) 3 1 100 300 false w (fst run) (snd run)
              (surjective_pairing run) (NoDup_nil key))
    as (ks & _ & N & _ & _ & F).
  split; assumption.
Defined.

(** The set holds the text that [main] read for the root and the integers
    of the friend lists: the root "1" and the friend 1 of a friend are two
    members, and the profile of user 1 is asked for under both. *)
Example root_as_text_and_as_number :
  let run := @get_detailed_data Sample.text 10 (VStr "token") (VStr "service")
               (VStr "1") 3 1 100 300 false (Sample.fresh Sample.two_friends) in
  visited_users (snd run) = [KStr "1"; KInt 2; KInt 1]
  /\ fetched_ids (trace (snd run)) = [VStr "1"; VInt 2; VInt 1].
Proof. vm_compute. split; reflexivity. Qed.

(** ** The depth budget is never the limit *)

Lemma bind_ext {A B} (m : M A) (k k' : A -> M B) (w : World) :
  (forall a w1, k a w1 = k' a w1) -> bind m k w = bind m k' w.
Proof. intros H. unfold bind. destruct (m w) as [[a | e |] w1]; auto. Qed.

Lemma for_each_ext {A} (l : list A) (f g : A -> M unit) :
  (forall x w, f x w = g x w) -> forall w, for_each l f w = for_each l g w.
Proof.
  intros H. induction l as [| x l IH]; intros w; simpl; [reflexivity |].
  unfold bind. rewrite H. destruct (g x w) as [[[] | e |] w1]; auto.
Qed.

Lemma try_except_ext {A} (m m' : M A) (h : exn -> M A) (w : World) :
  m w = m' w -> try_except m h w = try_except m' h w.
Proof. intros H. unfold try_except. rewrite H. reflexivity. Qed.

Section Budget.
Context {PT : PyText}.

Lemma recurse_friends_ext (token user_id : value) (friends_limit : Z)
    (recur recur' : value -> M unit) :
  (forall friend_id w, recur friend_id w = recur' friend_id w) ->
  forall w, recurse_friends token user_id friends_limit recur w
            = recurse_friends token user_id friends_limit recur' w.
Proof.
  intros H w. unfold recurse_friends. apply bind_ext. intros friends w1.
  destruct friends; try reflexivity.
  apply bind_ext. intros l w2. apply for_each_ext. intros friend w3.
  apply bind_ext. intros p w4. destruct (truthy (is_private p)); [reflexivity | apply H].
Qed.

(** With [depth_limit - current_depth] levels or more to spend, the crawl
    is the same: [get_detailed_data] never meets the end of its budget. *)
Lemma get_detailed_data_budget (fuel : nat) (token service_token : value)
    (depth_limit friends_limit subscriptions_limit : Z) (b1 : nat) :
  forall (b2 : nat) (user_id : value) (current_depth : Z) (given : bool) (w : World),
    (Z.to_nat (depth_limit - current_depth) <= b1)%nat ->
    (Z.to_nat (depth_limit - current_depth) <= b2)%nat ->
    get_detailed_data_from b1 fuel token service_token user_id depth_limit
      current_depth friends_limit subscriptions_limit given w
    = get_detailed_data_from b2 fuel token service_token user_id depth_limit
        current_depth friends_limit subscriptions_limit given w.
Proof.
  induction b1 as [| b1 IH]; intros b2 user_id current_depth given w H1 H2.
  - rewrite !get_detailed_data_at_limit by lia. reflexivity.
  - destruct (Z_lt_le_dec current_depth depth_limit) as [Hlt | Hge].
    + destruct b2 as [| b2]; [lia |].
      cbn [get_detailed_data_from].
      apply bind_ext. intros seen w1. destruct seen; [reflexivity |].
      apply bind_ext. intros _ w2.
      destruct (current_depth <? depth_limit); [| reflexivity].
      apply try_except_ext, recurse_friends_ext. intros friend_id w3.
      apply IH; lia.
    + rewrite !get_detailed_data_at_limit by lia. reflexivity.
Qed.

End Budget.

(** ** The page fuel is only a bound *)

(** A loop over the pages that ended, with a result or an exception, ends
    the same way with more fuel. *)
Lemma subscription_pages_more_fuel {PT : PyText} (fuel : nat)
    (token user_id : value) (limit : Z) :
  forall offset acc cnt w r w',
    subscription_pages fuel token user_id limit offset acc cnt w = (r, w') ->
    r <> OutOfFuel ->
    subscription_pages (S fuel) token user_id limit offset acc cnt w = (r, w').
Proof.
  induction fuel as [| fuel IH]; intros offset acc cnt w r w' H Hr.
  - inversion H; subst. congruence.
  - cbn [subscription_pages] in H. cbn [subscription_pages].
    unfold bind at 1 in H. unfold bind at 1.
    destruct (vk_api_request "users.getSubscriptions" token
                (subscriptions_params user_id offset)
                default_retries default_delay false VNone w)
      as [[v | e |] w1]; try exact H.
    destruct v as [| | | | | d]; try exact H.
    unfold bind at 1 in H. unfold bind at 1.
    destruct (lift (py_iter (dict_get "items" (VList []) d)) w1)
      as [[l | e |] w2]; try exact H.
    unfold bind at 1 in H. unfold bind at 1.
    destruct (lift (open_group_ids l) w2) as [[ids | e |] w3]; try exact H.
    destruct ((Z.of_nat (List.length l) <? count_per_request)
              || (limit <=? Z.of_nat (List.length (acc ++ ids)))); [exact H |].
    apply IH; assumption.
Qed.

(** ** No FRIEND edge without the node it starts from *)

(** Without a node for the first user the statement of
    [_create_friendship_relation] matches nothing and merges nothing. *)
Lemma merge_friend_without_source (a b : value) (s : Store) :
  has_user a s = false -> merge_friend a b s = s.
Proof. intros H. unfold merge_friend. rewrite H. reflexivity. Qed.

Lemma created_users_app (e1 e2 : list Event) :
  created_users (e1 ++ e2) = (created_users e1 ++ created_users e2)%list.
Proof. unfold created_users. apply flat_map_app. Qed.

Lemma merge_user_other (root : value) (n : UserNode) (s : Store) :
  value_eqb (n_id n) root = false ->
  has_user root s = false ->
  has_user root (merge_user n s) = false.
Proof.
  unfold has_user, merge_user. simpl. intros Hn Hs.
  destruct (existsb (fun m => value_eqb (n_id m) (n_id n)) (user_nodes s)).
  - induction (user_nodes s) as [| m l IH]; simpl in *; [reflexivity |].
    apply orb_false_iff in Hs. destruct Hs as [Hm Hl].
    rewrite (IH Hl), orb_false_r.
    destruct (value_eqb (n_id m) (n_id n)); assumption.
  - rewrite existsb_app, Hs. simpl. rewrite Hn. reflexivity.
Qed.

Lemma no_edge_without_refl (root : value) (w : World) : no_edge_without root w w.
Proof. exists []. rewrite app_nil_r. split; [reflexivity | auto]. Qed.

Lemma no_edge_without_trans (root : value) (w1 w2 w3 : World) :
  no_edge_without root w1 w2 -> no_edge_without root w2 w3 ->
  no_edge_without root w1 w3.
Proof.
  intros (e1 & T1 & H1) (e2 & T2 & H2). exists (e1 ++ e2)%list.
  split; [rewrite T2, T1, app_assoc; reflexivity |].
  intros Hu Hs. rewrite created_users_app in Hu.
  destruct H1 as [S1 F1]; [intros u Hin; apply Hu, in_or_app; now left | exact Hs |].
  destruct H2 as [S2 F2]; [intros u Hin; apply Hu, in_or_app; now right | exact S1 |].
  split; [exact S2 | congruence].
Qed.

Lemma no_edge_without_request (root : value)
    method token params retries delay ust st :
  keeps (no_edge_without root)
        (vk_api_request method token params retries delay ust st).
Proof.
  intros w r w' H.
  destruct (@vk_api_request_untouched _ _ _ _ _ _ _ _ _ _ H) as (S & _).
  apply vk_api_request_one_call in H. destruct H as (evs & T & _).
  eexists. split; [exact T |]. intros _ Hs. rewrite S. auto.
Qed.

(** Lines 176-193 on a store that has no node for the crawled user: as long
    as no friend carries that user's own id, every [create_friendship] of
    the loop finds no node to start from, and the FRIEND edges after the
    loop are those before it. *)
Lemma save_friends_no_edge {PT : PyText} (token user_id : value)
    (friends_limit : Z) (user_info : User) :
  keeps (no_edge_without (id user_info))
        (save_friends token user_id friends_limit user_info).
Proof.
  pose proof (no_edge_without_refl (id user_info)) as Rf.
  pose proof (@no_edge_without_trans (id user_info)) as Tr.
  unfold save_friends.
  apply keeps_bind; [exact Tr | apply no_edge_without_request | intros friends].
  destruct friends as [| | | | | d]; try (apply keeps_ret; exact Rf).
  apply keeps_bind; [exact Tr | apply keeps_lift; exact Rf | intros n].
  apply keeps_bind; [exact Tr | apply keeps_lift; exact Rf | intros l].
  apply keeps_bind; [exact Tr | | intros _; apply keeps_ret; exact Rf].
  keeps_each Rf Tr friend. unfold save_friend.
  apply keeps_bind; [exact Tr | apply keeps_lift; exact Rf | intros p].
  destruct (truthy (is_private p)); [apply keeps_ret; exact Rf |].
  apply keeps_bind; [exact Tr | | intros _].
  - intros w r w' H. unfold create_user, db_write in H. inversion H; subst.
    exists [EvCreateUser p]. split.
    + destruct (db_fails w (write_count w)); reflexivity.
    + intros Hu Hs.
      destruct (db_fails w (write_count w)); cbn [store set_store next_write log];
        [auto |].
      split; [| reflexivity].
      apply merge_user_other; [| exact Hs]. apply Hu. now left.
  - intros w r w' H. unfold create_friendship, db_write in H. inversion H; subst.
    exists [EvCreateFriendship (id user_info) (id p)]. split.
    + destruct (db_fails w (write_count w)); reflexivity.
    + intros _ Hs.
      assert (E : merge_friend (id user_info) (id p) (store w) = store w)
        by (apply merge_friend_without_source; exact Hs).
      destruct (db_fails w (write_count w)); cbn [store set_store next_write log];
        [| rewrite E]; auto.
Qed.

(** C4, as the code has it.  User 1 has three friends, one of them closed
    to the caller, and the store is empty.  [get_user_data] writes the nodes
    of the two open friends and then of user 1, none for the closed friend,
    and calls [create_friendship] for the two open friends; but the node of
    user 1 is written last, so neither call finds it and no FRIEND edge
    exists afterwards. *)
Theorem get_user_data_no_friend_edge_from_root :
  let w' := snd (@get_user_data Sample.text 10 (VStr "token") (VStr "service")
                   (VStr "1") 100 300 (Sample.fresh Sample.three_friends)) in
  map n_id (user_nodes (store w')) = [VInt 2; VInt 3; VInt 1]
  /\ created_friendships (trace w') = [(VInt 1, VInt 2); (VInt 1, VInt 3)]
  /\ friend_edges (store w') = [].
Proof. vm_compute. repeat split. Qed.

(** C6, as the code has it.  With [depth_limit = 1] and an empty store, a
    root with the friends 2, 3 and the closed 4, where 2 has the further
    friend 5: only the root is fetched, the nodes are those of 2, 3 and the
    root, there is none for 5; [create_friendship] is called for 2 and 3,
    and no FRIEND edge exists afterwards, the root's node being written
    after those calls. *)
Theorem depth_limit_one_no_friend_edge :
  let w' := snd (@get_detailed_data Sample.text 10 (VStr "token") (VStr "service")
                   (VStr "1") 1 1 100 300 false
                   (Sample.fresh Sample.three_friends)) in
  fetched_ids (trace w') = [VStr "1"]
  /\ map n_id (user_nodes (store w')) = [VInt 2; VInt 3; VInt 1]
  /\ created_friendships (trace w') = [(VInt 1, VInt 2); (VInt 1, VInt 3)]
  /\ friend_edges (store w') = [].
Proof. vm_compute. repeat split. Qed.

(** * Further properties *)

(** ** [vk_api_request]: the retry budget *)

Lemma http_requests_app (e1 e2 : list Event) :
  http_requests (e1 ++ e2) = (http_requests e1 ++ http_requests e2)%list.
Proof. unfold http_requests. apply flat_map_app. Qed.

Lemma sleeps_app (e1 e2 : list Event) :
  sleeps (e1 ++ e2) = (sleeps e1 ++ sleeps e2)%list.
Proof. unfold sleeps. apply flat_map_app. Qed.

Lemma calls_app (e1 e2 : list Event) :
  calls (e1 ++ e2) = (calls e1 ++ calls e2)%list.
Proof. unfold calls. apply flat_map_app. Qed.

Lemma attempts_runs (n : nat) (r : Request) (delay : Z) :
  forall w,
  exists k evs,
    (k <= n)%nat
    /\ trace (snd (attempts n r delay w)) = (trace w ++ evs)%list
    /\ http_requests evs = repeat r k
    /\ calls evs = []
    /\ match fst (attempts n r delay w) with
       | Ret _ => (1 <= k)%nat /\ sleeps evs = repeat delay (k - 1)
       | Raise e =>
           (e = ApiExhausted /\ k = n /\ sleeps evs = repeat delay k)
           \/ (e = ValueError /\ delay < 0 /\ k = 1%nat /\ sleeps evs = [])
       | OutOfFuel => False
       end.
Proof.
  induction n as [| n IH]; intros w.
  - exists 0%nat, []. simpl. rewrite app_nil_r. repeat split; auto.
  - set (a := api w (http_count w) r).
    set (w1 := next_http (log (EvHttp r a) w)).
    destruct (attempt_result a) as [v |] eqn:Ha.
    + erewrite attempts_success by exact Ha. fold a w1.
      exists 1%nat, [EvHttp r a]. cbn [fst snd].
      split; [lia |]. split; [reflexivity |]. split; [reflexivity |].
      split; [reflexivity |]. split; [lia | reflexivity].
    + destruct (Z_lt_le_dec delay 0) as [Hneg | Hpos].
      * assert (E : attempts (S n) r delay w = (Raise ValueError, w1)).
        { cbn [attempts]. unfold bind, http_get. fold a. rewrite Ha.
          unfold sleep. destruct (delay <? 0) eqn:Ed; [reflexivity | lia]. }
        rewrite E. exists 1%nat, [EvHttp r a]. cbn [fst snd].
        split; [lia |]. split; [reflexivity |]. split; [reflexivity |].
        split; [reflexivity |]. right. repeat split. exact Hneg.
      * rewrite attempts_fail_step by assumption. fold a w1.
        destruct (IH (log (EvSleep delay) w1)) as (k & evs & Hk & T & Hh & Hc & Hr).
        exists (S k), (EvHttp r a :: EvSleep delay :: evs).
        split; [lia |]. split.
        { rewrite T. unfold w1. simpl. rewrite <- !app_assoc. reflexivity. }
        split; [simpl; rewrite Hh; reflexivity |].
        split; [exact Hc |].
        destruct (fst (attempts n r delay (log (EvSleep delay) w1))) as [v | e |].
        -- destruct Hr as [H1 Hs]. split; [lia |].
           change (sleeps (EvHttp r a :: EvSleep delay :: evs))
             with (delay :: sleeps evs).
           rewrite Hs. destruct k as [| k]; [lia |].
           simpl. rewrite Nat.sub_0_r. reflexivity.
        -- destruct Hr as [(-> & -> & Hs) | (_ & Hneg & _)]; [| lia].
           left. repeat split.
           change (sleeps (EvHttp r a :: EvSleep delay :: evs))
             with (delay :: sleeps evs).
           rewrite Hs. reflexivity.
        -- exact Hr.
Qed.

(** X1.  Whatever the API answers, one call sends the same request at most
    [retries] times and nothing else.  A call that returns has slept once
    per failed attempt before the successful one; a call that gives up has
    made all [retries] attempts, none if [retries] is zero or negative, and
    slept after each; with a negative delay the first failed attempt ends
    the call with the [ValueError] of [time.sleep]. *)
Theorem vk_api_request_bounded
    (method : string) (token : value) (params : list (string * value))
    (retries delay : Z) (use_service_token : bool) (service_token : value)
    (w : World) :
  let r := api_request method token params use_service_token service_token in
  let run := vk_api_request method token params retries delay
                            use_service_token service_token w in
  let evs := events_since w (snd run) in
  exists k,
    (k <= Z.to_nat retries)%nat
    /\ http_requests evs = repeat r k
    /\ calls evs = [r]
    /\ match fst run with
       | Ret _ => (1 <= k)%nat /\ sleeps evs = repeat delay (k - 1)
       | Raise e =>
           (e = ApiExhausted /\ k = Z.to_nat retries /\ sleeps evs = repeat delay k)
           \/ (e = ValueError /\ delay < 0 /\ k = 1%nat /\ sleeps evs = [])
       | OutOfFuel => False
       end.
Proof.
  intros r run evs.
  assert (Erun : run = attempts (Z.to_nat retries) r delay (log (EvCall r) w))
    by reflexivity.
  unfold evs. rewrite Erun. clear evs run Erun.
  destruct (attempts_runs (Z.to_nat retries) r delay (log (EvCall r) w))
    as (k & e1 & Hk & T & Hh & Hc & Hr).
  exists k. split; [exact Hk |].
  assert (E : events_since w (snd (attempts (Z.to_nat retries) r delay
                                            (log (EvCall r) w)))
              = EvCall r :: e1).
  { apply events_since_app. rewrite T. simpl. rewrite <- app_assoc. reflexivity. }
  rewrite E.
  change (http_requests (EvCall r :: e1)) with (http_requests e1).
  change (calls (EvCall r :: e1)) with (r :: calls e1).
  change (sleeps (EvCall r :: e1)) with (sleeps e1).
  rewrite Hc. repeat split; assumption.
Qed.

Lemma attempts_until_success (r : Request) (delay : Z) (v : value) (k : nat) :
  0 <= delay ->
  forall (n : nat) (w : World),
    (k < n)%nat ->
    (forall i, (i < k)%nat -> attempt_result (api w (http_count w + i)%nat r) = None) ->
    attempt_result (api w (http_count w + k)%nat r) = Some v ->
    exists evs,
      fst (attempts n r delay w) = Ret v
      /\ trace (snd (attempts n r delay w)) = (trace w ++ evs)%list
      /\ http_requests evs = repeat r (S k)
      /\ sleeps evs = repeat delay k
      /\ calls evs = [].
Proof.
  intros Hd. induction k as [| k IH]; intros n w Hn Hfail Hok.
  - destruct n as [| n]; [lia |].
    rewrite Nat.add_0_r in Hok.
    erewrite attempts_success by exact Hok.
    eexists. split; [reflexivity |]. split; [reflexivity |].
    repeat split.
  - destruct n as [| n]; [lia |].
    assert (H0 : attempt_result (api w (http_count w) r) = None).
    { specialize (Hfail 0%nat ltac:(lia)). rewrite Nat.add_0_r in Hfail. exact Hfail. }
    rewrite attempts_fail_step by assumption.
    set (w2 := log (EvSleep delay)
                   (next_http (log (EvHttp r (api w (http_count w) r)) w))).
    destruct (IH n w2) as (evs & R & T & Hh & Hs & Hc).
    + lia.
    + intros i Hi. specialize (Hfail (S i) ltac:(lia)).
      replace (http_count w + S i)%nat with (S (http_count w + i)) in Hfail by lia.
      exact Hfail.
    + replace (http_count w + S k)%nat with (S (http_count w + k)) in Hok by lia.
      exact Hok.
    + exists (EvHttp r (api w (http_count w) r) :: EvSleep delay :: evs).
      split; [exact R |]. split.
      { rewrite T. simpl. rewrite <- !app_assoc. reflexivity. }
      split; [simpl; rewrite Hh; reflexivity |].
      split; [| exact Hc].
      change (sleeps (EvHttp r (api w (http_count w) r) :: EvSleep delay :: evs))
        with (delay :: sleeps evs).
      rewrite Hs. reflexivity.
Qed.

(** X2.  Transient failures are ridden out: when the first [k] attempts of
    a call fail, with [k] below [retries], and the next one is answered,
    the call returns that answer after [k + 1] requests and [k] sleeps. *)
Theorem vk_api_request_retries_until_success
    (method : string) (token : value) (params : list (string * value))
    (retries delay : Z) (use_service_token : bool) (service_token : value)
    (w : World) (k : nat) (v : value) :
  let r := api_request method token params use_service_token service_token in
  let run := vk_api_request method token params retries delay
                            use_service_token service_token w in
  0 <= delay ->
  (k < Z.to_nat retries)%nat ->
  (forall i, (i < k)%nat -> attempt_result (api w (http_count w + i)%nat r) = None) ->
  attempt_result (api w (http_count w + k)%nat r) = Some v ->
  fst run = Ret v
  /\ http_requests (events_since w (snd run)) = repeat r (S k)
  /\ sleeps (events_since w (snd run)) = repeat delay k.
Proof.
  intros r run Hd Hk Hfail Hok.
  assert (Erun : run = attempts (Z.to_nat retries) r delay (log (EvCall r) w))
    by reflexivity.
  rewrite Erun. clear run Erun.
  destruct (@attempts_until_success r delay v k Hd (Z.to_nat retries)
              (log (EvCall r) w) Hk Hfail Hok) as (evs & R & T & Hh & Hs & _).
  split; [exact R |].
  assert (E : events_since w (snd (attempts (Z.to_nat retries) r delay
                                            (log (EvCall r) w)))
              = EvCall r :: evs).
  { apply events_since_app. rewrite T. simpl. rewrite <- app_assoc. reflexivity. }
  rewrite E. split; assumption.
Qed.

Lemma vk_api_request_retries_until_success_witness :
  let w := Sample.fresh (Cases.flaky 2 (VList [])) in
  let run := vk_api_request "users.get" (VStr "token") (users_get_params (VInt 1))
                            3 2 false VNone w in
  fst run = Ret (VList [])
  /\ sleeps (events_since w (snd run)) = [2; 2].
Proof.
  intros w run.
  destruct (@vk_api_request_retries_until_success
              "users.get" (VStr "token") (users_get_params (VInt 1)) 3 2 false
              VNone w 2 (VList []) ltac:(lia) ltac:(simpl; lia))
    as (R & _ & S).
  - intros i Hi. destruct i as [| [| i]]; [reflexivity | reflexivity | lia].
  - reflexivity.
  - split; [exact R | exact S].
Defined.

(** ** [vk_api_request]: the parameters sent *)

Lemma dict_lookup_set_same (k : string) (v : value) (d : list (string * value)) :
  dict_lookup k (dict_set k v d) = Some v.
Proof.
  induction d as [| [k' v'] d IH]; simpl.
  - rewrite String.eqb_refl. reflexivity.
  - destruct (String.eqb k k') eqn:E; simpl; rewrite ?String.eqb_refl, ?E; auto.
Qed.

Lemma dict_lookup_set_other (k k' : string) (v : value) (d : list (string * value)) :
  k' <> k -> dict_lookup k' (dict_set k v d) = dict_lookup k' d.
Proof.
  intros Hk. induction d as [| [k0 v0] d IH]; simpl.
  - destruct (String.eqb k' k) eqn:E; [apply String.eqb_eq in E; congruence | reflexivity].
  - destruct (String.eqb k k0) eqn:E; simpl.
    + apply String.eqb_eq in E. subst k0.
      destruct (String.eqb k' k) eqn:E'; [apply String.eqb_eq in E'; congruence | reflexivity].
    + destruct (String.eqb k' k0); [reflexivity | exact IH].
Qed.

(** X3.  The request of a call carries the chosen token as [access_token],
    the service token only when it is asked for and not empty, and
    [v = 5.131]; a value the caller gave under one of these two names is
    overwritten, and every other parameter goes out as the caller gave it. *)
Theorem api_request_parameters
    (method : string) (token : value) (given : list (string * value))
    (use_service_token : bool) (service_token : value) :
  let r := api_request method token given use_service_token service_token in
  api_method r = method
  /\ dict_lookup "access_token" (params r)
     = Some (if use_service_token && truthy service_token
             then service_token else token)
  /\ dict_lookup "v" (params r) = Some (VStr "5.131")
  /\ (forall k, k <> "access_token" -> k <> "v" ->
                dict_lookup k (params r) = dict_lookup k given).
Proof.
  intros r. unfold r, api_request. cbn [api_method params].
  split; [reflexivity |]. split.
  - rewrite dict_lookup_set_other by discriminate. apply dict_lookup_set_same.
  - split; [apply dict_lookup_set_same |].
    intros k H1 H2. rewrite !dict_lookup_set_other by assumption. reflexivity.
Qed.

(** ** [process_profile]: what it rejects, and the home town *)

(** X4.  A profile that is not a dictionary is an [AttributeError]; a
    dictionary without [id] (and without [city]) is the [KeyError] of
    [profile['id']]; and with no home town of its own, a [city] that is
    [null], a boolean or a number is the [TypeError] of ['title' in ...],
    whether or not there is an [id]. *)
Theorem process_profile_rejects {PT : PyText} :
  (forall profile,
     match profile with VDict _ => True | _ => process_profile profile = inl AttributeError end)
  /\ (forall d,
        dict_lookup "id" d = None -> dict_lookup "city" d = None ->
        process_profile (VDict d) = inl (KeyError "id"))
  /\ (forall d city,
        truthy (dict_get "home_town" (VStr "") d) = false ->
        dict_lookup "city" d = Some city ->
        match city with VNone | VBool _ | VInt _ => True | _ => False end ->
        process_profile (VDict d) = inl TypeError).
Proof.
  split; [| split].
  - intros profile. destruct profile; reflexivity || exact I.
  - intros d Hi Hc. simpl. unfold profile_home_town. rewrite Hc.
    destruct (truthy (dict_get "home_town" (VStr "") d));
      unfold dict_item; rewrite Hi; reflexivity.
  - intros d city Hh Hc Hk. simpl. unfold profile_home_town. rewrite Hh, Hc.
    destruct city; try contradiction; reflexivity.
Qed.

(** X5.  The home town of an accepted profile: its own [home_town] when
    that is not empty, the [city] being ignored; otherwise the [title] of
    the [city] when the city is a dictionary that has one; otherwise the
    empty [home_town] as it stands, the empty string when there is none. *)
Theorem process_profile_home_town {PT : PyText}
    (d : list (string * value)) (u : User) :
  process_profile (VDict d) = inr u ->
  let own := dict_get "home_town" (VStr "") d in
  (truthy own = true -> home_town u = own)
  /\ (forall c t, truthy own = false ->
                  dict_lookup "city" d = Some (VDict c) ->
                  dict_lookup "title" c = Some t ->
                  home_town u = t)
  /\ (truthy own = false ->
      (dict_lookup "city" d = None
       \/ exists c, dict_lookup "city" d = Some (VDict c)
                    /\ dict_lookup "title" c = None) ->
      home_town u = own).
Proof.
  simpl. unfold dict_item.
  destruct (profile_home_town d) as [e | h] eqn:Eh; [discriminate |].
  destruct (dict_lookup "id" d); [| discriminate].
  intros H. inversion H; subst; clear H. simpl.
  unfold profile_home_town in Eh.
  split; [| split].
  - intros Ht. rewrite Ht in Eh. congruence.
  - intros c t Ht Hc Hti. rewrite Ht, Hc in Eh. simpl in Eh.
    unfold dict_mem, dict_item in Eh. rewrite Hti in Eh. congruence.
  - intros Ht [Hc | (c & Hc & Hti)]; rewrite Ht, Hc in Eh.
    + congruence.
    + simpl in Eh. unfold dict_mem in Eh. rewrite Hti in Eh. congruence.
Qed.

Lemma process_profile_home_town_witness :
  let d := [("id", VInt 7); ("home_town", VStr "");
            ("city", VDict [("id", VInt 2); ("title", VStr "Kazan")])] in
  exists u, @process_profile Sample.text (VDict d) = inr u
            /\ home_town u = VStr "Kazan".
Proof.
  intros d.
  assert (H : @process_profile Sample.text (VDict d)
              = inr (mkUser (VInt 7) (VStr "") "" (VInt 0) (VStr "Kazan") VNone
                            None None))
    by (vm_compute; reflexivity).
  eexists. split; [exact H |].
  destruct (@process_profile_home_town Sample.text d _ H) as (_ & Hc & _).
  apply (Hc [("id", VInt 2); ("title", VStr "Kazan")] (VStr "Kazan"));
    reflexivity.
Defined.

(** ** The store: equality of ids *)

Lemma value_ind_nested (P : value -> Prop) :
  P VNone ->
  (forall b, P (VBool b)) ->
  (forall z, P (VInt z)) ->
  (forall s, P (VStr s)) ->
  (forall l, Forall P l -> P (VList l)) ->
  (forall d, Forall (fun kv => P (snd kv)) d -> P (VDict d)) ->
  forall v, P v.
Proof.
  intros HN HB HI HS HL HD.
  fix IH 1. intros v. destruct v as [| b | z | s | l | d].
  - exact HN.
  - apply HB.
  - apply HI.
  - apply HS.
  - apply HL. induction l as [| x l IHl]; constructor; [apply IH | exact IHl].
  - apply HD. induction d as [| [k x] d IHd]; constructor; [apply IH | exact IHd].
Qed.

Lemma value_eqb_eq (a b : value) : value_eqb a b = true <-> a = b.
Proof.
  revert b. induction a as [| x | x | x | l IH | d IH] using value_ind_nested;
    intros b; destruct b as [| y | y | y | m | e]; simpl;
    try (split; intros H; discriminate H); try (split; reflexivity).
  - rewrite Bool.eqb_true_iff. split; congruence.
  - rewrite Z.eqb_eq. split; congruence.
  - rewrite String.eqb_eq. split; congruence.
  - revert m. induction IH as [| x l Hx _ IHl]; intros m; destruct m as [| y m];
      try (split; intros H; discriminate H); try (split; reflexivity).
    rewrite andb_true_iff, Hx. specialize (IHl m).
    split.
    + intros [-> H]. apply IHl in H. congruence.
    + intros H. inversion H; subst. split; [reflexivity |].
      apply IHl. reflexivity.
  - revert e. induction IH as [| [k x] d Hx _ IHd]; intros e;
      destruct e as [| [k' y] e];
      try (split; intros H; discriminate H); try (split; reflexivity).
    simpl in Hx. rewrite !andb_true_iff, String.eqb_eq, Hx. specialize (IHd e).
    split.
    + intros [[-> ->] H]. apply IHd in H. congruence.
    + intros H. inversion H; subst. repeat split. apply IHd. reflexivity.
Qed.

Lemma value_eqb_refl (a : value) : value_eqb a a = true.
Proof. apply value_eqb_eq. reflexivity. Qed.

Lemma value_eqb_neq (a b : value) : value_eqb a b = false <-> a <> b.
Proof.
  destruct (value_eqb a b) eqn:E.
  - apply value_eqb_eq in E. split; [discriminate | congruence].
  - split; [| reflexivity]. intros _ H. apply value_eqb_eq in H. congruence.
Qed.

(** ** The store: the four statements *)

Lemma has_user_In (i : value) (s : Store) :
  has_user i s = true <-> In i (map n_id (user_nodes s)).
Proof.
  unfold has_user. rewrite existsb_exists, in_map_iff.
  split; intros (n & H1 & H2).
  - apply value_eqb_eq in H2. eauto.
  - exists n. split; [exact H2 | apply value_eqb_eq; exact H1].
Qed.

Lemma has_group_In (i : value) (s : Store) :
  has_group i s = true <-> In i (map g_id (group_nodes s)).
Proof.
  unfold has_group. rewrite existsb_exists, in_map_iff.
  split; intros (n & H1 & H2).
  - apply value_eqb_eq in H2. eauto.
  - exists n. split; [exact H2 | apply value_eqb_eq; exact H1].
Qed.

Lemma has_edge_In (a b : value) (l : list (value * value)) :
  has_edge a b l = true <-> In (a, b) l.
Proof.
  unfold has_edge. rewrite existsb_exists. split.
  - intros ([x y] & Hin & H). simpl in H. apply andb_true_iff in H.
    destruct H as [H1 H2]. apply value_eqb_eq in H1, H2. subst. exact Hin.
  - intros H. exists (a, b). simpl. rewrite !value_eqb_refl. auto.
Qed.

(** Replacing the nodes of an id by one node of that id leaves the ids. *)
Lemma replace_keeps_ids {N} (key : N -> value) (n : N) (l : list N) :
  map key (map (fun m => if value_eqb (key m) (key n) then n else m) l)
  = map key l.
Proof.
  induction l as [| m l IH]; simpl; [reflexivity |]. rewrite IH. f_equal.
  destruct (value_eqb (key m) (key n)) eqn:E; [| reflexivity].
  apply value_eqb_eq in E. congruence.
Qed.

Lemma replace_twice {N} (key : N -> value) (n : N) (l : list N) :
  let f := fun m => if value_eqb (key m) (key n) then n else m in
  map f (map f l) = map f l.
Proof.
  intros f. rewrite map_map. apply map_ext. intros m. unfold f.
  destruct (value_eqb (key m) (key n)) eqn:E.
  - rewrite value_eqb_refl. reflexivity.
  - rewrite E. reflexivity.
Qed.

Lemma replace_none {N} (key : N -> value) (n : N) (l : list N) :
  existsb (fun m => value_eqb (key m) (key n)) l = false ->
  map (fun m => if value_eqb (key m) (key n) then n else m) l = l.
Proof.
  induction l as [| m l IH]; simpl; [reflexivity |].
  intros H. apply orb_false_iff in H. destruct H as [Hm Hl].
  rewrite Hm, (IH Hl). reflexivity.
Qed.

Lemma merge_user_ids (n : UserNode) (s : Store) :
  map n_id (user_nodes (merge_user n s))
  = if has_user (n_id n) s then map n_id (user_nodes s)
    else (map n_id (user_nodes s) ++ [n_id n])%list.
Proof.
  unfold merge_user, has_user. simpl.
  destruct (existsb (fun m => value_eqb (n_id m) (n_id n)) (user_nodes s)).
  - apply replace_keeps_ids.
  - rewrite map_app. reflexivity.
Qed.

Lemma merge_group_ids (g : GroupData) (s : Store) :
  map g_id (group_nodes (merge_group g s))
  = if has_group (g_id g) s then map g_id (group_nodes s)
    else (map g_id (group_nodes s) ++ [g_id g])%list.
Proof.
  unfold merge_group, has_group. simpl.
  destruct (existsb (fun m => value_eqb (g_id m) (g_id g)) (group_nodes s)).
  - apply replace_keeps_ids.
  - rewrite map_app. reflexivity.
Qed.

Lemma has_user_merge_user (i : value) (n : UserNode) (s : Store) :
  has_user i (merge_user n s) = has_user i s || value_eqb (n_id n) i.
Proof.
  apply eq_true_iff_eq. rewrite orb_true_iff, !has_user_In, merge_user_ids, value_eqb_eq.
  destruct (has_user (n_id n) s) eqn:E.
  - apply has_user_In in E. split; [tauto |]. intros [H | <-]; assumption.
  - rewrite in_app_iff. simpl. tauto.
Qed.

Lemma has_group_merge_group (i : value) (g : GroupData) (s : Store) :
  has_group i (merge_group g s) = has_group i s || value_eqb (g_id g) i.
Proof.
  apply eq_true_iff_eq. rewrite orb_true_iff, !has_group_In, merge_group_ids, value_eqb_eq.
  destruct (has_group (g_id g) s) eqn:E.
  - apply has_group_In in E. split; [tauto |]. intros [H | <-]; assumption.
  - rewrite in_app_iff. simpl. tauto.
Qed.

(** X6.  Each of the four statements is idempotent: run a second time with
    the same parameters, it leaves the store exactly as the first run left
    it, without a second node or a second edge. *)
Theorem upserts_idempotent (s : Store) :
  (forall n, merge_user n (merge_user n s) = merge_user n s)
  /\ (forall g, merge_group g (merge_group g s) = merge_group g s)
  /\ (forall a b, merge_friend a b (merge_friend a b s) = merge_friend a b s)
  /\ (forall u g, merge_subscription u g (merge_subscription u g s)
                  = merge_subscription u g s).
Proof.
  split; [| split; [| split]].
  - intros n. unfold merge_user at 1.
    pose proof (has_user_merge_user (n_id n) n s) as H.
    rewrite value_eqb_refl, orb_true_r in H. unfold has_user in H. rewrite H.
    unfold merge_user. simpl.
    destruct (existsb (fun m => value_eqb (n_id m) (n_id n)) (user_nodes s)) eqn:E.
    + rewrite (replace_twice n_id n). reflexivity.
    + rewrite map_app, (replace_none n_id n _ E). simpl.
      rewrite value_eqb_refl. reflexivity.
  - intros g. unfold merge_group at 1.
    pose proof (has_group_merge_group (g_id g) g s) as H.
    rewrite value_eqb_refl, orb_true_r in H. unfold has_group in H. rewrite H.
    unfold merge_group. simpl.
    destruct (existsb (fun m => value_eqb (g_id m) (g_id g)) (group_nodes s)) eqn:E.
    + rewrite (replace_twice g_id g). reflexivity.
    + rewrite map_app, (replace_none g_id g _ E). simpl.
      rewrite value_eqb_refl. reflexivity.
  - intros a b.
    destruct (has_user a s && has_user b s && negb (has_edge a b (friend_edges s)))
      eqn:E.
    + assert (M : merge_friend a b s
                  = mkStore (user_nodes s) (group_nodes s)
                            (friend_edges s ++ [(a, b)]) (subscribed_edges s))
        by (unfold merge_friend; rewrite E; reflexivity).
      rewrite M. unfold merge_friend, has_user. cbn [user_nodes friend_edges].
      assert (H : has_edge a b (friend_edges s ++ [(a, b)]) = true).
      { apply has_edge_In, in_or_app. right. now left. }
      rewrite H, andb_false_r. reflexivity.
    + assert (M : merge_friend a b s = s)
        by (unfold merge_friend; rewrite E; reflexivity).
      rewrite !M. reflexivity.
  - intros u g.
    destruct (has_user u s && has_group g s && negb (has_edge u g (subscribed_edges s)))
      eqn:E.
    + assert (M : merge_subscription u g s
                  = mkStore (user_nodes s) (group_nodes s) (friend_edges s)
                            (subscribed_edges s ++ [(u, g)]))
        by (unfold merge_subscription; rewrite E; reflexivity).
      rewrite M. unfold merge_subscription, has_user, has_group.
      cbn [user_nodes group_nodes subscribed_edges].
      assert (H : has_edge u g (subscribed_edges s ++ [(u, g)]) = true).
      { apply has_edge_In, in_or_app. right. now left. }
      rewrite H, andb_false_r. reflexivity.
    + assert (M : merge_subscription u g s = s)
        by (unfold merge_subscription; rewrite E; reflexivity).
      rewrite !M. reflexivity.
Qed.

Lemma find_replaced {N} (key : N -> value) (n : N) (l : list N) :
  existsb (fun m => value_eqb (key m) (key n)) l = true ->
  find (fun m => value_eqb (key m) (key n))
       (map (fun m => if value_eqb (key m) (key n) then n else m) l)
  = Some n.
Proof.
  induction l as [| m l IH]; simpl; [discriminate |].
  destruct (value_eqb (key m) (key n)) eqn:E; simpl.
  - rewrite value_eqb_refl. reflexivity.
  - rewrite E. exact IH.
Qed.

Lemma find_appended {N} (key : N -> value) (n : N) (l : list N) :
  existsb (fun m => value_eqb (key m) (key n)) l = false ->
  find (fun m => value_eqb (key m) (key n)) (l ++ [n]) = Some n.
Proof.
  induction l as [| m l IH]; simpl.
  - rewrite value_eqb_refl. reflexivity.
  - intros H. apply orb_false_iff in H. destruct H as [Hm Hl].
    rewrite Hm. exact (IH Hl).
Qed.

Lemma find_other_replaced {N} (key : N -> value) (n : N) (i : value) (l : list N) :
  i <> key n ->
  find (fun m => value_eqb (key m) i)
       (map (fun m => if value_eqb (key m) (key n) then n else m) l)
  = find (fun m => value_eqb (key m) i) l.
Proof.
  intros Hi. induction l as [| m l IH]; simpl; [reflexivity |].
  destruct (value_eqb (key m) (key n)) eqn:E.
  - apply value_eqb_eq in E.
    assert (F : value_eqb (key n) i = false) by (apply value_eqb_neq; congruence).
    rewrite F. rewrite E, F. exact IH.
  - rewrite IH. reflexivity.
Qed.

Lemma find_other_appended {N} (key : N -> value) (n : N) (i : value) (l : list N) :
  i <> key n ->
  find (fun m => value_eqb (key m) i) (l ++ [n])
  = find (fun m => value_eqb (key m) i) l.
Proof.
  intros Hi. induction l as [| m l IH]; simpl.
  - assert (F : value_eqb (key n) i = false) by (apply value_eqb_neq; congruence).
    rewrite F. reflexivity.
  - rewrite IH. reflexivity.
Qed.

Lemma merge_user_find (n : UserNode) (s : Store) :
  find_user (n_id n) (merge_user n s) = Some n
  /\ (forall i, i <> n_id n -> find_user i (merge_user n s) = find_user i s).
Proof.
  unfold find_user, merge_user. simpl.
  destruct (existsb (fun m => value_eqb (n_id m) (n_id n)) (user_nodes s)) eqn:E.
  - split; [apply (find_replaced n_id n _ E) |].
    intros i Hi. apply (find_other_replaced n_id n _ Hi).
  - split; [apply (find_appended n_id n _ E) |].
    intros i Hi. apply (find_other_appended n_id n _ Hi).
Qed.

(** X7.  [create_user] and a later lookup: when the write goes through, the
    node found under the user's id carries exactly the fields just written,
    the counters being 0 where the dictionary has none, and the node found
    under any other id is the one found before; when the write fails, the
    store is what it was. *)
Theorem create_user_then_find (u : User) (w : World) :
  let w' := snd (create_user u w) in
  if db_fails w (write_count w) then store w' = store w
  else find_user (id u) (store w') = Some (node_of_user u)
       /\ (forall i, i <> id u -> find_user i (store w') = find_user i (store w)).
Proof.
  unfold create_user, db_write. cbn [snd].
  destruct (db_fails w (write_count w)); [reflexivity |].
  cbn [store set_store next_write log].
  exact (merge_user_find (node_of_user u) (store w)).
Qed.

(** ** The store: what every statement keeps *)

Lemma NoDup_snoc {A} (l : list A) (x : A) : NoDup l -> ~ In x l -> NoDup (l ++ [x]).
Proof.
  intros Hl Hx. apply NoDup_app; [exact Hl | repeat constructor; simpl; tauto |].
  intros y Hy [<- | []]. exact (Hx Hy).
Qed.

Lemma merge_user_ok (n : UserNode) (s : Store) : store_ok s -> store_ok (merge_user n s).
Proof.
  intros (Hu & Hg & Hf & Hs & Ef & Es).
  assert (U : forall i, has_user i s = true -> has_user i (merge_user n s) = true).
  { intros i H. rewrite has_user_merge_user, H. reflexivity. }
  repeat split; try assumption.
  - rewrite merge_user_ids. destruct (has_user (n_id n) s) eqn:E; [exact Hu |].
    apply NoDup_snoc; [exact Hu |]. intros H. apply has_user_In in H. congruence.
  - apply U, (Ef a b H).
  - apply U, (Ef a b H).
  - apply U, (Es u g H).
  - apply (Es u g H).
Qed.

Lemma merge_group_ok (g : GroupData) (s : Store) : store_ok s -> store_ok (merge_group g s).
Proof.
  intros (Hu & Hg & Hf & Hs & Ef & Es).
  assert (G : forall i, has_group i s = true -> has_group i (merge_group g s) = true).
  { intros i H. rewrite has_group_merge_group, H. reflexivity. }
  repeat split; try assumption.
  - rewrite merge_group_ids. destruct (has_group (g_id g) s) eqn:E; [exact Hg |].
    apply NoDup_snoc; [exact Hg |]. intros H. apply has_group_In in H. congruence.
  - apply (Ef a b H).
  - apply (Ef a b H).
  - apply (Es u g0 H).
  - apply G, (Es u g0 H).
Qed.

Lemma merge_friend_ok (a b : value) (s : Store) : store_ok s -> store_ok (merge_friend a b s).
Proof.
  intros Hok. unfold merge_friend.
  destruct (has_user a s && has_user b s && negb (has_edge a b (friend_edges s)))
    eqn:E; [| exact Hok].
  apply andb_true_iff in E. destruct E as [E Hn].
  apply andb_true_iff in E. destruct E as [Ha Hb].
  apply negb_true_iff in Hn.
  destruct Hok as (Hu & Hg & Hf & Hs & Ef & Es).
  repeat split; try assumption; cbn [friend_edges subscribed_edges] in *.
  - apply NoDup_snoc; [exact Hf |]. intros H. apply has_edge_In in H. congruence.
  - apply in_app_or in H. destruct H as [H | [H | []]].
    + apply (Ef a0 b0 H).
    + inversion H; subst. exact Ha.
  - apply in_app_or in H. destruct H as [H | [H | []]].
    + apply (Ef a0 b0 H).
    + inversion H; subst. exact Hb.
  - apply (Es u g H).
  - apply (Es u g H).
Qed.

Lemma merge_subscription_ok (u g : value) (s : Store) :
  store_ok s -> store_ok (merge_subscription u g s).
Proof.
  intros Hok. unfold merge_subscription.
  destruct (has_user u s && has_group g s && negb (has_edge u g (subscribed_edges s)))
    eqn:E; [| exact Hok].
  apply andb_true_iff in E. destruct E as [E Hn].
  apply andb_true_iff in E. destruct E as [Ha Hb].
  apply negb_true_iff in Hn.
  destruct Hok as (Hu & Hg & Hf & Hs & Ef & Es).
  repeat split; try assumption; cbn [friend_edges subscribed_edges] in *.
  - apply NoDup_snoc; [exact Hs |]. intros H. apply has_edge_In in H. congruence.
  - apply (Ef a b H).
  - apply (Ef a b H).
  - apply in_app_or in H. destruct H as [H | [H | []]].
    + apply (Es u0 g0 H).
    + inversion H; subst. exact Ha.
  - apply in_app_or in H. destruct H as [H | [H | []]].
    + apply (Es u0 g0 H).
    + inversion H; subst. exact Hb.
Qed.

Lemma store_grows_refl (s : Store) : store_grows s s.
Proof. repeat split; auto using incl_refl. Qed.

Lemma store_grows_trans (s1 s2 s3 : Store) :
  store_grows s1 s2 -> store_grows s2 s3 -> store_grows s1 s3.
Proof.
  intros (A1 & B1 & C1 & D1) (A2 & B2 & C2 & D2).
  repeat split; eauto using incl_tran.
Qed.

Lemma merge_user_grows (n : UserNode) (s : Store) : store_grows s (merge_user n s).
Proof.
  repeat split; try apply incl_refl; auto.
  intros i H. rewrite has_user_merge_user, H. reflexivity.
Qed.

Lemma merge_group_grows (g : GroupData) (s : Store) : store_grows s (merge_group g s).
Proof.
  repeat split; try apply incl_refl; auto.
  intros i H. rewrite has_group_merge_group, H. reflexivity.
Qed.

Lemma merge_friend_grows (a b : value) (s : Store) : store_grows s (merge_friend a b s).
Proof.
  unfold merge_friend.
  destruct (has_user a s && has_user b s && negb (has_edge a b (friend_edges s)));
    [| apply store_grows_refl].
  repeat split; try apply incl_refl; auto. simpl. apply incl_appl, incl_refl.
Qed.

Lemma merge_subscription_grows (u g : value) (s : Store) :
  store_grows s (merge_subscription u g s).
Proof.
  unfold merge_subscription.
  destruct (has_user u s && has_group g s && negb (has_edge u g (subscribed_edges s)));
    [| apply store_grows_refl].
  repeat split; try apply incl_refl; auto. simpl. apply incl_appl, incl_refl.
Qed.

(** ** What the whole crawl keeps *)

(** A relation that requests, the four writes and the entry of a user
    respect is respected by [get_user_data] and by [get_detailed_data]. *)
Section Walk.
Context {PT : PyText}.
Variable R : World -> World -> Prop.
Hypothesis R_refl : forall w, R w w.
Hypothesis R_trans : forall w1 w2 w3, R w1 w2 -> R w2 w3 -> R w1 w3.
Hypothesis R_request :
  forall method token params retries delay ust st,
    keeps R (vk_api_request method token params retries delay ust st).
Hypothesis R_user : forall u, keeps R (create_user u).
Hypothesis R_group : forall g, keeps R (create_group g).
Hypothesis R_friendship : forall a b, keeps R (create_friendship a b).
Hypothesis R_subscription : forall u g, keeps R (create_subscription u g).
Hypothesis R_enter : forall given user_id, keeps R (enter_user given user_id).

Lemma walk_save_friends (token user_id : value) (friends_limit : Z) (u : User) :
  keeps R (save_friends token user_id friends_limit u).
Proof.
  unfold save_friends.
  apply keeps_bind; [exact R_trans | apply R_request | intros friends].
  destruct friends as [| | | | | d]; try (apply keeps_ret; exact R_refl).
  apply keeps_bind; [exact R_trans | apply keeps_lift; exact R_refl | intros n].
  apply keeps_bind; [exact R_trans | apply keeps_lift; exact R_refl | intros l].
  apply keeps_bind; [exact R_trans | | intros _; apply keeps_ret; exact R_refl].
  keeps_each R_refl R_trans friend. unfold save_friend.
  apply keeps_bind; [exact R_trans | apply keeps_lift; exact R_refl | intros p].
  destruct (truthy (is_private p)); [apply keeps_ret; exact R_refl |].
  apply keeps_bind; [exact R_trans | apply R_user | intros _].
  apply R_friendship.
Qed.

Lemma walk_subscription_pages (fuel : nat) (token user_id : value) (limit : Z) :
  forall offset acc cnt,
    keeps R (subscription_pages fuel token user_id limit offset acc cnt).
Proof.
  induction fuel as [| fuel IH]; intros offset acc cnt; cbn [subscription_pages].
  - apply keeps_out_of_fuel; exact R_refl.
  - apply keeps_bind; [exact R_trans | apply R_request | intros subscriptions].
    destruct subscriptions as [| | | | | d]; try (apply keeps_ret; exact R_refl).
    apply keeps_bind; [exact R_trans | apply keeps_lift; exact R_refl | intros l].
    apply keeps_bind; [exact R_trans | apply keeps_lift; exact R_refl | intros ids].
    destruct ((Z.of_nat (List.length l) <? count_per_request)
              || (limit <=? Z.of_nat (List.length (acc ++ ids)))).
    + apply keeps_ret; exact R_refl.
    + apply IH.
Qed.

Lemma walk_save_groups (token service_token : value) (u : User)
    (all_group_ids : list string) :
  keeps R (save_groups token service_token u all_group_ids).
Proof.
  unfold save_groups. destruct all_group_ids as [| g0 rest].
  - apply keeps_ret; exact R_refl.
  - keeps_each R_refl R_trans chunk. unfold save_chunk.
    apply keeps_bind; [exact R_trans | apply R_request | intros groups_info].
    destruct groups_info as [| | | | groups |]; try (apply keeps_ret; exact R_refl).
    keeps_each R_refl R_trans group.
    unfold save_group. destruct group; try (apply keeps_raise; exact R_refl).
    apply keeps_bind; [exact R_trans | apply keeps_lift; exact R_refl | intros i].
    apply keeps_bind; [exact R_trans | apply R_group | intros _].
    apply R_subscription.
Qed.

Lemma walk_get_user_data (fuel : nat) (token service_token user_id : value)
    (friends_limit subscriptions_limit : Z) :
  keeps R (get_user_data fuel token service_token user_id
                         friends_limit subscriptions_limit).
Proof.
  unfold get_user_data.
  apply keeps_bind; [exact R_trans | | intros fetched].
  { apply keeps_try; [exact R_trans | | intros _; apply keeps_ret; exact R_refl].
    apply keeps_bind; [exact R_trans | | intros u; apply keeps_ret; exact R_refl].
    unfold fetch_profile.
    apply keeps_bind; [exact R_trans | apply R_request | intros r].
    apply keeps_bind; [exact R_trans | apply keeps_lift; exact R_refl | intros x].
    apply keeps_lift; exact R_refl. }
  destruct fetched as [u |]; [| apply keeps_ret; exact R_refl].
  unfold save_user_data.
  apply keeps_bind; [exact R_trans | | intros friends_count].
  { apply keeps_try; [exact R_trans | apply walk_save_friends |].
    intros _. apply keeps_ret; exact R_refl. }
  apply keeps_bind; [exact R_trans | | intros subscriptions_count].
  { apply keeps_try; [exact R_trans | | intros _; apply keeps_ret; exact R_refl].
    unfold save_subscriptions.
    apply keeps_bind; [exact R_trans | apply walk_subscription_pages | intros r].
    apply keeps_bind; [exact R_trans | apply walk_save_groups | intros _].
    apply keeps_ret; exact R_refl. }
  apply R_user.
Qed.

Lemma walk_get_detailed_data_from (budget fuel : nat) (token service_token : value)
    (depth_limit friends_limit subscriptions_limit : Z) :
  forall (user_id : value) (current_depth : Z) (given : bool),
    keeps R (get_detailed_data_from budget fuel token service_token user_id
               depth_limit current_depth friends_limit subscriptions_limit given).
Proof.
  induction budget as [| budget IH]; intros user_id current_depth given;
    cbn [get_detailed_data_from];
    (apply keeps_bind; [exact R_trans | apply R_enter | intros seen]);
    (destruct seen; [apply keeps_ret; exact R_refl |]);
    (apply keeps_bind; [exact R_trans | apply walk_get_user_data | intros _]);
    (destruct (current_depth <? depth_limit); [| apply keeps_ret; exact R_refl]).
  - apply keeps_out_of_fuel; exact R_refl.
  - apply keeps_try; [exact R_trans | | intros _; apply keeps_ret; exact R_refl].
    unfold recurse_friends.
    apply keeps_bind; [exact R_trans | apply R_request | intros friends].
    destruct friends as [| | | | | d]; try (apply keeps_ret; exact R_refl).
    apply keeps_bind; [exact R_trans | apply keeps_lift; exact R_refl | intros l].
    keeps_each R_refl R_trans friend.
    apply keeps_bind; [exact R_trans | apply keeps_lift; exact R_refl | intros p].
    destruct (truthy (is_private p)); [apply keeps_ret; exact R_refl | apply IH].
Qed.

End Walk.

Lemma request_keeps_store (R : Store -> Store -> Prop) :
  (forall s, R s s) ->
  forall method token params retries delay ust st,
    keeps (fun w w' => R (store w) (store w'))
          (vk_api_request method token params retries delay ust st).
Proof.
  intros Rf method token params retries delay ust st w r w' H.
  destruct (@vk_api_request_untouched _ _ _ _ _ _ _ _ _ _ H) as (S & _).
  rewrite S. apply Rf.
Qed.

Lemma db_write_keeps_store (R : Store -> Store -> Prop) (e : Event)
    (f : Store -> Store) :
  (forall s, R s s) -> (forall s, R s (f s)) ->
  keeps (fun w w' => R (store w) (store w')) (db_write e f).
Proof.
  intros Rf Hf w r w' H. unfold db_write in H. inversion H; subst.
  destruct (db_fails w (write_count w)); cbn [store set_store next_write log]; auto.
Qed.

Lemma enter_user_keeps_store (R : Store -> Store -> Prop) (given : bool)
    (user_id : value) :
  (forall s, R s s) ->
  keeps (fun w w' => R (store w) (store w')) (enter_user given user_id).
Proof.
  intros Rf w r w' H. unfold enter_user in H.
  destruct (key_of user_id);
    [destruct (existsb _ _) |]; inversion H; subst; destruct given; apply Rf.
Qed.

(** A relation on stores that is reflexive and transitive and that each of
    the four statements respects holds between the store before a crawl
    and the store after it. *)
Lemma crawl_keeps_store {PT : PyText} (R : Store -> Store -> Prop) :
  (forall s, R s s) ->
  (forall s1 s2 s3, R s1 s2 -> R s2 s3 -> R s1 s3) ->
  (forall n s, R s (merge_user n s)) ->
  (forall g s, R s (merge_group g s)) ->
  (forall a b s, R s (merge_friend a b s)) ->
  (forall u g s, R s (merge_subscription u g s)) ->
  forall fuel token service_token user_id depth_limit current_depth
         friends_limit subscriptions_limit given w,
    R (store w)
      (store (snd (get_detailed_data fuel token service_token user_id depth_limit
                     current_depth friends_limit subscriptions_limit given w))).
Proof.
  intros Rf Tr Hu Hg Hfr Hs fuel token service_token user_id depth_limit
         current_depth friends_limit subscriptions_limit given w.
  unfold get_detailed_data.
  eapply (@walk_get_detailed_data_from PT (fun w w' => R (store w) (store w'))).
  - intros w0. apply Rf.
  - intros w1 w2 w3. apply Tr.
  - apply request_keeps_store, Rf.
  - intros u. apply db_write_keeps_store; auto.
  - intros g. apply db_write_keeps_store; auto.
  - intros a b. apply db_write_keeps_store; auto.
  - intros u g. apply db_write_keeps_store; auto.
  - intros g u. apply enter_user_keeps_store, Rf.
  - apply surjective_pairing.
Qed.

(** X8.  The crawl keeps the store well formed: started on a store with one
    node per user id and per group id, one edge per pair and no edge
    without the nodes at its two ends (the empty store is one), a run of
    [get_detailed_data] ends on such a store, whatever the API answers and
    whichever writes fail. *)
Theorem crawl_keeps_store_ok {PT : PyText} (fuel : nat)
    (token service_token user_id : value)
    (depth_limit current_depth friends_limit subscriptions_limit : Z)
    (given : bool) (w : World) :
  store_ok (store w) ->
  store_ok (store (snd (get_detailed_data fuel token service_token user_id
                          depth_limit current_depth friends_limit
                          subscriptions_limit given w))).
Proof.
  apply (@crawl_keeps_store PT (fun s s' => store_ok s -> store_ok s')); auto.
  - intros n s. apply merge_user_ok.
  - intros g s. apply merge_group_ok.
  - intros a b s. apply merge_friend_ok.
  - intros u g s. apply merge_subscription_ok.
Qed.

Lemma empty_store_ok : store_ok empty_store.
Proof.
  unfold store_ok, empty_store. simpl.
  repeat split; try constructor; contradiction.
Qed.

Lemma crawl_keeps_store_ok_witness :
  store_ok (store (snd (@get_detailed_data Sample.text 10 (VStr "token")
                          (VStr "service") (VStr "1") 3 1 100 300 false
                          (Sample.fresh Sample.three_friends)))).
Proof.
  apply (@crawl_keeps_store_ok Sample.text). exact empty_store_ok.
Defined.

(** X9.  The crawl only adds: every user id and group id that had a node
    before a run of [get_detailed_data] has one after it, and every FRIEND
    and SUBSCRIBED_TO edge that existed still exists. *)
Theorem crawl_only_adds {PT : PyText} (fuel : nat)
    (token service_token user_id : value)
    (depth_limit current_depth friends_limit subscriptions_limit : Z)
    (given : bool) (w : World) :
  store_grows (store w)
    (store (snd (get_detailed_data fuel token service_token user_id
                   depth_limit current_depth friends_limit
                   subscriptions_limit given w))).
Proof.
  apply (@crawl_keeps_store PT store_grows).
  - apply store_grows_refl.
  - apply store_grows_trans.
  - intros n s. apply merge_user_grows.
  - intros g s. apply merge_group_grows.
  - intros a b s. apply merge_friend_grows.
  - intros u g s. apply merge_subscription_grows.
Qed.

(** ** Exceptions that do not escape *)

Lemma never_raises_ret {A} (a : A) : never_raises (ret a).
Proof. intros w. exact I. Qed.

Lemma never_raises_bind {A B} (m : M A) (k : A -> M B) :
  never_raises m -> (forall a, never_raises (k a)) -> never_raises (bind m k).
Proof.
  intros Hm Hk w. unfold bind. specialize (Hm w).
  destruct (m w) as [[a | e |] w1]; simpl in *; [apply Hk | contradiction | exact I].
Qed.

Lemma never_raises_try {A} (m : M A) (a : A) :
  never_raises (try_except m (fun _ => ret a)).
Proof.
  intros w. unfold try_except. destruct (m w) as [[x | e |] w1]; exact I.
Qed.

Lemma never_raises_db_write (e : Event) (f : Store -> Store) :
  never_raises (db_write e f).
Proof. intros w. exact I. Qed.

Lemma save_user_data_returns {PT : PyText} (fuel : nat)
    (token service_token user_id : value)
    (friends_limit subscriptions_limit : Z) (u : User) :
  never_raises (save_user_data fuel token service_token user_id
                               friends_limit subscriptions_limit u).
Proof.
  unfold save_user_data.
  apply never_raises_bind; [apply never_raises_try | intros fc].
  apply never_raises_bind; [apply never_raises_try | intros sc].
  apply never_raises_db_write.
Qed.

(** X10.  No exception escapes [get_user_data]: whatever the API answers,
    however malformed, and whichever writes fail, a call returns (or, in
    the model, runs out of page fuel). *)
Theorem get_user_data_never_raises {PT : PyText} (fuel : nat)
    (token service_token user_id : value)
    (friends_limit subscriptions_limit : Z) :
  never_raises (get_user_data fuel token service_token user_id
                              friends_limit subscriptions_limit).
Proof.
  unfold get_user_data. apply never_raises_bind; [apply never_raises_try |].
  intros [u |]; [apply save_user_data_returns | apply never_raises_ret].
Qed.

Lemma never_raises_out_of_fuel {A} : never_raises (@out_of_fuel A).
Proof. intros w. exact I. Qed.

Lemma bind_raise {A B} (m : M A) (k : A -> M B) w e w1 :
  m w = (Raise e, w1) -> bind m k w = (Raise e, w1).
Proof. unfold bind. intros ->. reflexivity. Qed.

(** The three ways in which lines 281-286 end. *)
Lemma enter_user_cases (given : bool) (user_id : value) (w : World) :
  let w0 := if given then w else set_visited [] w in
  match key_of user_id with
  | None => enter_user given user_id w = (Raise TypeError, w0)
  | Some k =>
      if existsb (key_eqb k) (visited_users w0)
      then enter_user given user_id w = (Ret true, w0)
      else enter_user given user_id w
           = (Ret false, set_visited (visited_users w0 ++ [k]) w0)
  end.
Proof.
  unfold enter_user. destruct (key_of user_id) as [k |]; [| reflexivity].
  destruct (existsb (key_eqb k) _); reflexivity.
Qed.

Lemma enter_then_never_raises {PT : PyText} (fuel : nat)
    (token service_token user_id : value) (friends_limit subscriptions_limit : Z)
    (given : bool) (rest : M unit) (w : World) :
  never_raises rest ->
  let run := (seen <- enter_user given user_id ;;
              if (seen : bool) then ret tt
              else get_user_data fuel token service_token user_id
                                 friends_limit subscriptions_limit ;;; rest)%crawl w in
  match key_of user_id with
  | None => fst run = Raise TypeError
            /\ trace (snd run) = trace w /\ store (snd run) = store w
  | Some _ => match fst run with Raise _ => False | _ => True end
  end.
Proof.
  intros Hrest. cbv zeta.
  pose proof (enter_user_cases given user_id w) as E. cbv zeta in E.
  destruct (key_of user_id) as [k |].
  - destruct (existsb (key_eqb k) _).
    + rewrite (bind_of_ret _ _ _ E). exact I.
    + rewrite (bind_of_ret _ _ _ E).
      apply (never_raises_bind (m := get_user_data fuel token service_token user_id
                                       friends_limit subscriptions_limit)).
      * unfold get_user_data. apply never_raises_bind; [apply never_raises_try |].
        intros [u |]; [apply save_user_data_returns | apply never_raises_ret].
      * intros _. exact Hrest.
  - rewrite (@bind_raise _ _ _ _ _ _ _ E). cbn [fst snd]. destruct given; repeat split.
Qed.

(** X11.  The only exception that escapes [get_detailed_data] is the
    [TypeError] of the set for a user id that cannot be hashed, a JSON list
    or object; it is raised before anything is requested or written.  For
    every other id the call returns. *)
Theorem get_detailed_data_raises_only_unhashable {PT : PyText} (fuel : nat)
    (token service_token user_id : value)
    (depth_limit current_depth friends_limit subscriptions_limit : Z)
    (given : bool) (w : World) :
  let run := get_detailed_data fuel token service_token user_id depth_limit
               current_depth friends_limit subscriptions_limit given w in
  match key_of user_id with
  | None => fst run = Raise TypeError
            /\ trace (snd run) = trace w /\ store (snd run) = store w
  | Some _ => match fst run with Raise _ => False | _ => True end
  end.
Proof.
  unfold get_detailed_data.
  destruct (Z.to_nat (depth_limit - current_depth)) as [| b];
    cbn [get_detailed_data_from]; apply enter_then_never_raises;
    destruct (current_depth <? depth_limit);
    first [ apply never_raises_ret | apply never_raises_out_of_fuel
          | apply never_raises_try ].
Qed.

(** ** The friends loop of [get_user_data] *)

Lemma created_friendships_app (e1 e2 : list Event) :
  created_friendships (e1 ++ e2)
  = (created_friendships e1 ++ created_friendships e2)%list.
Proof. unfold created_friendships. apply flat_map_app. Qed.

Lemma no_writes_app (e1 e2 : list Event) : no_writes e1 -> no_writes e2 -> no_writes (e1 ++ e2).
Proof.
  unfold no_writes. intros [A1 B1] [A2 B2].
  rewrite created_users_app, created_friendships_app, A1, A2, B1, B2. auto.
Qed.

Lemma request_no_writes method token params retries delay ust st :
  keeps (only no_writes) (vk_api_request method token params retries delay ust st).
Proof.
  apply only_vk_api_request; try exact no_writes_app; repeat split.
Qed.

Section Friends.
Context {PT : PyText}.

Lemma save_friend_accepted (u p : User) (friend : value) (w : World) :
  process_profile friend = inr p ->
  exists w1 evs,
    save_friend u friend w = (Ret tt, w1)
    /\ trace w1 = (trace w ++ evs)%list
    /\ created_users evs = (if open_profile p then [p] else [])
    /\ created_friendships evs = (if open_profile p then [(id u, id p)] else []).
Proof.
  intros Hp. unfold save_friend, open_profile. rewrite Hp. cbn [lift].
  unfold bind at 1, ret at 1.
  destruct (truthy (is_private p)); cbn [negb].
  - exists w, []. rewrite app_nil_r. repeat split.
  - unfold bind, create_user, create_friendship, db_write.
    eexists. exists [EvCreateUser p; EvCreateFriendship (id u) (id p)].
    split; [reflexivity |]. split; [| split; reflexivity].
    destruct (db_fails w (write_count w)); simpl;
      destruct (db_fails w (S (write_count w))); simpl;
      rewrite <- app_assoc; reflexivity.
Qed.

(** The loop over the friends, as far as the records are accepted. *)
Lemma save_friend_prefix (u : User) (l1 : list value) :
  forall (ps1 : list User) (rest : list value) (w : World),
    map process_profile l1 = map inr ps1 ->
    exists w1 evs,
      for_each (l1 ++ rest) (save_friend u) w = for_each rest (save_friend u) w1
      /\ trace w1 = (trace w ++ evs)%list
      /\ created_users evs = filter open_profile ps1
      /\ created_friendships evs
         = map (fun p => (id u, id p)) (filter open_profile ps1).
Proof.
  induction l1 as [| friend l1 IH]; intros ps1 rest w H.
  - destruct ps1; [| discriminate]. exists w, []. rewrite app_nil_r.
    repeat split.
  - destruct ps1 as [| p ps1]; [discriminate |]. simpl in H.
    inversion H as [[Hp Hrest]].
    destruct (@save_friend_accepted u p friend w Hp) as (w1 & e1 & R1 & T1 & U1 & F1).
    destruct (IH ps1 rest w1 Hrest) as (w2 & e2 & R2 & T2 & U2 & F2).
    exists w2, (e1 ++ e2)%list.
    split.
    { cbn [app for_each]. rewrite (bind_of_ret _ _ _ R1). exact R2. }
    split; [rewrite T2, T1, app_assoc; reflexivity |].
    rewrite created_users_app, created_friendships_app, U1, U2, F1, F2.
    cbn [filter]. destruct (open_profile p); split; reflexivity.
Qed.

(** X12.  When the friend list comes back as a dictionary whose items are
    all accepted by [process_profile], the friends block asks for one
    [create_user] and one [create_friendship] from the crawled user per
    friend that is not private, in the order of the list and for no one
    else; its [friends_count] is the length of the list, the private
    friends included. *)
Theorem save_friends_writes_open_friends
    (token user_id : value) (friends_limit : Z) (u : User) (w w1 : World)
    (d : list (string * value)) (l : list value) (ps : list User) :
  vk_api_request "friends.get" token (friends_get_params user_id friends_limit)
                 default_retries default_delay false VNone w
  = (Ret (VDict d), w1) ->
  py_iter (dict_get "items" (VList []) d) = inr l ->
  map process_profile l = map inr ps ->
  let run := save_friends token user_id friends_limit u w in
  fst run = Ret (Z.of_nat (List.length l))
  /\ created_users (events_since w (snd run)) = filter open_profile ps
  /\ created_friendships (events_since w (snd run))
     = map (fun p => (id u, id p)) (filter open_profile ps).
Proof.
  intros Hreq Hl Hps run.
  destruct (@save_friend_prefix u l ps [] w1 Hps) as (w2 & e2 & R2 & T2 & U2 & F2).
  rewrite app_nil_r in R2. cbn [for_each] in R2.
  assert (Hrun : run = (Ret (Z.of_nat (List.length l)), w2)).
  { unfold run, save_friends. rewrite (bind_of_ret _ _ _ Hreq).
    unfold py_len. rewrite Hl. cbn [lift]. unfold bind at 1 2, ret at 1 2.
    unfold bind at 1. rewrite R2. reflexivity. }
  rewrite Hrun. cbn [fst snd]. split; [reflexivity |].
  destruct (@request_no_writes _ _ _ _ _ _ _ _ _ _ Hreq) as (_ & e1 & T1 & U1 & F1).
  assert (T : trace w2 = (trace w ++ (e1 ++ e2))%list)
    by (rewrite T2, T1, app_assoc; reflexivity).
  rewrite (@events_since_app _ _ _ T).
  rewrite created_users_app, created_friendships_app, U1, U2, F1, F2.
  split; reflexivity.
Qed.

(** X13.  A friend record that [process_profile] rejects ends the friends
    block where it stands: the friends before it have been written, those
    after it are never looked at, and [friends_count] falls back to 0. *)
Theorem save_friends_stops_at_bad_record
    (token user_id : value) (friends_limit : Z) (u : User) (w w1 : World)
    (d : list (string * value)) (l1 l2 : list value) (bad : value)
    (ps1 : list User) (e : exn) :
  vk_api_request "friends.get" token (friends_get_params user_id friends_limit)
                 default_retries default_delay false VNone w
  = (Ret (VDict d), w1) ->
  py_iter (dict_get "items" (VList []) d) = inr (l1 ++ bad :: l2)%list ->
  map process_profile l1 = map inr ps1 ->
  process_profile bad = inl e ->
  let run := try_except (save_friends token user_id friends_limit u)
                        (fun _ => ret 0) w in
  fst run = Ret 0
  /\ created_users (events_since w (snd run)) = filter open_profile ps1
  /\ created_friendships (events_since w (snd run))
     = map (fun p => (id u, id p)) (filter open_profile ps1).
Proof.
  intros Hreq Hl Hps Hbad run.
  destruct (@save_friend_prefix u l1 ps1 (bad :: l2) w1 Hps) as (w2 & e2 & R2 & T2 & U2 & F2).
  assert (Hloop : for_each (l1 ++ bad :: l2) (save_friend u) w1 = (Raise e, w2)).
  { rewrite R2. cbn [for_each]. unfold bind at 1, save_friend at 1.
    rewrite Hbad. reflexivity. }
  assert (Hrun : run = (Ret 0, w2)).
  { unfold run, try_except, save_friends. rewrite (bind_of_ret _ _ _ Hreq).
    unfold py_len. rewrite Hl. cbn [lift]. unfold bind at 1 2, ret at 1 2.
    unfold bind at 1. rewrite Hloop. reflexivity. }
  rewrite Hrun. cbn [fst snd]. split; [reflexivity |].
  destruct (@request_no_writes _ _ _ _ _ _ _ _ _ _ Hreq) as (_ & e1 & T1 & U1 & F1).
  assert (T : trace w2 = (trace w ++ (e1 ++ e2))%list)
    by (rewrite T2, T1, app_assoc; reflexivity).
  rewrite (@events_since_app _ _ _ T).
  rewrite created_users_app, created_friendships_app, U1, U2, F1, F2.
  split; reflexivity.
Qed.

End Friends.

Lemma save_friends_writes_open_friends_witness :
  let w := Sample.fresh Sample.three_friends in
  let run := @save_friends Sample.text (VStr "token") (VStr "1") 100 Cases.anna w in
  fst run = Ret 3
  /\ created_friendships (events_since w (snd run))
     = [(VInt 1, VInt 2); (VInt 1, VInt 3)].
Proof.
  intros w run.
  pose (l := [Sample.person 2; Sample.person 3; Sample.closed_person 4]).
  pose (d := [("count", VInt 3); ("items", VList l)]).
  pose (ps := [Cases.friend_record 2 "Boris Ivanov" false;
               Cases.friend_record 3 "Vera Ivanov" false;
               Cases.friend_record 4 "Gleb Petrov" true]).
  assert (H1 : vk_api_request "friends.get" (VStr "token")
                 (friends_get_params (VStr "1") 100)
                 default_retries default_delay false VNone w
               = (Ret (VDict d),
                  snd (vk_api_request "friends.get" (VStr "token")
                         (friends_get_params (VStr "1") 100)
                         default_retries default_delay false VNone w)))
    by (vm_compute; reflexivity).
  assert (H2 : py_iter (dict_get "items" (VList []) d) = inr l) by reflexivity.
  assert (H3 : map (@process_profile Sample.text) l = map inr ps)
    by (vm_compute; reflexivity).
  destruct (@save_friends_writes_open_friends Sample.text (VStr "token") (VStr "1")
              100 Cases.anna w _ d l ps H1 H2 H3) as (R & _ & F).
  split; [exact R | exact F].
Defined.

Lemma save_friends_stops_at_bad_record_witness :
  let w := Sample.fresh Cases.broken_friend_list in
  let run := try_except (@save_friends Sample.text (VStr "token") (VStr "1") 100
                           Cases.anna)
                        (fun _ => ret 0) w in
  fst run = Ret 0
  /\ created_friendships (events_since w (snd run)) = [(VInt 1, VInt 2)].
Proof.
  intros w run.
  pose (d := [("count", VInt 3);
              ("items", VList [Sample.person 2; Cases.nameless; Sample.person 3])]).
  assert (H1 : vk_api_request "friends.get" (VStr "token")
                 (friends_get_params (VStr "1") 100)
                 default_retries default_delay false VNone w
               = (Ret (VDict d),
                  snd (vk_api_request "friends.get" (VStr "token")
                         (friends_get_params (VStr "1") 100)
                         default_retries default_delay false VNone w)))
    by (vm_compute; reflexivity).
  assert (H2 : py_iter (dict_get "items" (VList []) d)
               = inr ([Sample.person 2] ++ Cases.nameless :: [Sample.person 3])%list)
    by reflexivity.
  assert (H3 : map (@process_profile Sample.text) [Sample.person 2]
               = map inr [Cases.friend_record 2 "Boris Ivanov" false])
    by (vm_compute; reflexivity).
  assert (H4 : @process_profile Sample.text Cases.nameless = inl (KeyError "id"))
    by (vm_compute; reflexivity).
  destruct (@save_friends_stops_at_bad_record Sample.text (VStr "token") (VStr "1")
              100 Cases.anna w _ d _ _ _ _ _ H1 H2 H3 H4) as (R & _ & F).
  split; [exact R | exact F].
Defined.

(** ** The subscription block fails *)

(** X14.  If anything in the subscription block raises, a page or a group
    lookup that fails after its retries or an item that cannot be read, the
    user is still written at the end, with the [friends_count] already
    obtained and with [subscriptions_count] 0, whatever total the pages
    had reported. *)
Theorem get_user_data_failed_subscriptions {PT : PyText}
    (fuel : nat) (token service_token user_id : value)
    (friends_limit subscriptions_limit : Z)
    (w w0 w1 w2 : World) (user_info : User) (fc : Z) (e : exn) :
  fetch_profile token user_id w = (Ret user_info, w0) ->
  try_except (save_friends token user_id friends_limit user_info)
             (fun _ => ret 0) w0 = (Ret fc, w1) ->
  save_subscriptions fuel token service_token user_id subscriptions_limit
                     user_info w1 = (Raise e, w2) ->
  let u := with_counts user_info (Some fc) (Some (VInt 0)) in
  let final := get_user_data fuel token service_token user_id
                             friends_limit subscriptions_limit w in
  final = create_user u w2
  /\ (db_fails w2 (write_count w2) = false ->
      find_user (id user_info) (store (snd final)) = Some (node_of_user u)).
Proof.
  intros Hf Hfr Hs u final.
  assert (E : final = create_user u w2).
  { unfold final, get_user_data.
    unfold bind at 1, try_except at 1, bind at 1. rewrite Hf.
    unfold ret at 1. cbv iota beta.
    unfold save_user_data. unfold bind at 1. rewrite Hfr.
    unfold bind at 1, try_except at 1. rewrite Hs. reflexivity. }
  split; [exact E |]. intros Hw. rewrite E.
  unfold create_user, db_write. cbn [snd]. rewrite Hw.
  cbn [store set_store next_write log].
  exact (proj1 (merge_user_find (node_of_user u) (store w2))).
Qed.

Lemma get_user_data_failed_subscriptions_witness :
  let w := Sample.fresh (Cases.lookup_down 650) in
  let final := @get_user_data Sample.text 10 (VStr "token") (VStr "service")
                 (VStr "1") 100 300 w in
  reported_total (VInt 0) (pages (events_since w (snd final))) = VInt 650
  /\ option_map n_subscriptions_count (find_user (VInt 1) (store (snd final)))
     = Some (VInt 0).
Proof.
  intros w final.
  split; [vm_compute; reflexivity |].
  pose (tok := VStr "token"). pose (uid := VStr "1").
  pose (w0 := snd (@fetch_profile Sample.text tok uid w)).
  pose (w1 := snd (try_except (@save_friends Sample.text tok uid 100 Cases.anna)
                              (fun _ => ret 0) w0)).
  pose (w2 := snd (@save_subscriptions Sample.text 10 tok (VStr "service") uid
                                       300 Cases.anna w1)).
  assert (H0 : @fetch_profile Sample.text tok uid w = (Ret Cases.anna, w0))
    by (vm_compute; reflexivity).
  assert (H1 : try_except (@save_friends Sample.text tok uid 100 Cases.anna)
                          (fun _ => ret 0) w0 = (Ret 0, w1))
    by (vm_compute; reflexivity).
  assert (H2 : @save_subscriptions Sample.text 10 tok (VStr "service") uid
                                   300 Cases.anna w1 = (Raise ApiExhausted, w2))
    by (vm_compute; reflexivity).
  destruct (@get_user_data_failed_subscriptions Sample.text 10 tok (VStr "service")
              uid 100 300 w w0 w1 w2 Cases.anna 0 ApiExhausted H0 H1 H2)
    as (_ & Hn).
  assert (Hw : db_fails w2 (write_count w2) = false) by (vm_compute; reflexivity).
  specialize (Hn Hw). change (id Cases.anna) with (VInt 1) in Hn.
  unfold final. fold tok uid. rewrite Hn. reflexivity.
Defined.

(** ** The private-profile sentinel in [get_user_data] *)

(** X15.  A user whose profile lookup is answered with error 30 is skipped:
    [vk_api_request] returns [{'is_private': True}], the [[0]] applied to
    it is a [KeyError], and [get_user_data] returns after that one request
    with nothing written and nothing else asked for. *)
Theorem get_user_data_private_profile {PT : PyText}
    (fuel : nat) (token service_token user_id : value)
    (friends_limit subscriptions_limit : Z) (w : World) (msg : string) :
  let r := profile_request token user_id in
  api w (http_count w) r = AttApiError 30 msg ->
  get_user_data fuel token service_token user_id friends_limit
                subscriptions_limit w
  = (Ret tt, next_http (log (EvHttp r (AttApiError 30 msg)) (log (EvCall r) w))).
Proof.
  intros r Ha. unfold get_user_data, fetch_profile.
  unfold bind at 1, try_except at 1, bind at 1, bind at 1.
  rewrite vk_api_request_first_answer with (v := private_sentinel)
    by (fold (profile_request token user_id); fold r; rewrite Ha; reflexivity).
  fold (profile_request token user_id). fold r. rewrite Ha. reflexivity.
Qed.

Lemma get_user_data_private_profile_witness :
  let w := Sample.fresh Cases.all_private in
  let run := @get_user_data Sample.text 10 (VStr "token") (VStr "service")
               (VStr "1") 100 300 w in
  fst run = Ret tt /\ store (snd run) = empty_store
  /\ List.length (trace (snd run)) = 2%nat.
Proof.
  intros w run. unfold run.
  rewrite (@get_user_data_private_profile Sample.text 10 (VStr "token")
             (VStr "service") (VStr "1") 100 300 w "This profile is private"
             eq_refl).
  repeat split.
Defined.

(** ** The pages asked for *)

Lemma subscription_pages_calls {PT : PyText} (token user_id : value) (limit : Z)
    (fuel : nat) :
  forall (offset : Z) (acc : list string) (cnt : value) (w : World),
  exists (k : nat) (evs : list Event),
    (k <= fuel)%nat
    /\ trace (snd (subscription_pages fuel token user_id limit offset acc cnt w))
       = (trace w ++ evs)%list
    /\ calls evs
       = map (fun i => subscriptions_request token user_id
                         (offset + count_per_request * Z.of_nat i))
             (seq 0 k).
Proof.
  induction fuel as [| fuel IH]; intros offset acc cnt w.
  - exists 0%nat, []. split; [lia |]. split; [| reflexivity].
    simpl. rewrite app_nil_r. reflexivity.
  - cbn [subscription_pages]. unfold bind at 1.
    destruct (vk_api_request "users.getSubscriptions" token
                (subscriptions_params user_id offset) default_retries
                default_delay false VNone w) as [x w1] eqn:Hreq.
    destruct (vk_api_request_one_call _ _ _ _ _ _ _ _ Hreq) as (evs & T & N).
    fold (subscriptions_request token user_id offset) in T.
    set (f := fun i => subscriptions_request token user_id
                         (offset + count_per_request * Z.of_nat i)).
    assert (One : exists (k : nat) (evs' : list Event),
               (k <= S fuel)%nat /\ trace w1 = (trace w ++ evs')%list
               /\ calls evs' = map f (seq 0 k)).
    { exists 1%nat, (EvCall (subscriptions_request token user_id offset) :: evs).
      split; [lia |]. split; [exact T |].
      change (calls (EvCall (subscriptions_request token user_id offset) :: evs))
        with (subscriptions_request token user_id offset :: calls evs).
      rewrite N. unfold f. cbn [seq map Z.of_nat].
      rewrite Z.mul_0_r, Z.add_0_r. reflexivity. }
    destruct x as [v | e |]; [| exact One | exact One].
    destruct v as [| b | z | s | l | d]; try exact One.
    destruct (py_iter (dict_get "items" (VList []) d)) as [e | l] eqn:Hl;
      [exact One |].
    cbn [lift]. unfold bind at 1, ret at 1.
    destruct (open_group_ids l) as [e | ids] eqn:Hi; [exact One |].
    cbn [lift]. unfold bind at 1, ret at 1.
    destruct ((Z.of_nat (List.length l) <? count_per_request)
              || (limit <=? Z.of_nat (List.length (acc ++ ids)))); [exact One |].
    destruct (IH (offset + count_per_request) (acc ++ ids)%list
                 (dict_get "count" (VInt 0) d) w1) as (k & evs2 & Hk & T2 & C2).
    exists (S k),
      ((EvCall (subscriptions_request token user_id offset) :: evs) ++ evs2)%list.
    split; [lia |]. split.
    + rewrite T2, T, <- app_assoc. reflexivity.
    + rewrite calls_app, C2.
      change (calls (EvCall (subscriptions_request token user_id offset) :: evs))
        with (subscriptions_request token user_id offset :: calls evs).
      rewrite N. cbn [seq map app]. f_equal.
      * unfold f. cbn [Z.of_nat]. rewrite Z.mul_0_r, Z.add_0_r. reflexivity.
      * rewrite <- seq_shift, map_map. apply map_ext. intros i. unfold f.
        f_equal. lia.
Qed.

(** X16.  Whatever the API answers, the paging loop asks only for
    subscription pages of the one user, at the offsets 0, 200, 400, ... in
    that order and without a gap or a repetition: [k] calls for some [k],
    the [i]-th at [offset + 200 * i], and it makes no other call. *)
Theorem subscription_pages_offsets {PT : PyText} (fuel : nat)
    (token user_id : value) (limit offset : Z) (acc : list string)
    (cnt : value) (w : World) :
  let run := subscription_pages fuel token user_id limit offset acc cnt w in
  exists k : nat,
    (k <= fuel)%nat
    /\ calls (events_since w (snd run))
       = map (fun i => subscriptions_request token user_id
                         (offset + count_per_request * Z.of_nat i))
             (seq 0 k)
    /\ page_offsets (events_since w (snd run))
       = map (fun i => VInt (offset + count_per_request * Z.of_nat i)) (seq 0 k).
Proof.
  intros run.
  destruct (subscription_pages_calls token user_id limit fuel offset acc cnt w)
    as (k & evs & Hk & T & C).
  exists k. split; [exact Hk |].
  unfold run. rewrite (@events_since_app _ _ _ T).
  split; [exact C |].
  unfold page_offsets, calls_of. rewrite C.
  clear. induction (seq 0 k) as [| i l IH]; [reflexivity |].
  cbn [map filter]. unfold subscriptions_request at 1, api_request at 1.
  cbn [api_method String.eqb Ascii.eqb Bool.eqb]. cbn [map]. rewrite IH.
  reflexivity.
Qed.

(** ** Chunks of any list *)

Lemma chunks_fuel_spec {A} (size : nat) :
  (0 < size)%nat ->
  forall (fuel : nat) (l : list A),
    (List.length l <= fuel)%nat ->
    List.concat (chunks_fuel fuel size l) = l
    /\ List.length (chunks_fuel fuel size l) = ((List.length l + size - 1) / size)%nat
    /\ Forall (fun c => (0 < List.length c <= size)%nat) (chunks_fuel fuel size l)
    /\ Forall (fun c => List.length c = size) (removelast (chunks_fuel fuel size l)).
Proof.
  intros Hs. induction fuel as [| fuel IH]; intros l Hl.
  - destruct l; [| simpl in Hl; lia]. simpl.
    repeat split; try constructor.
    symmetry. apply Nat.div_small. lia.
  - destruct l as [| a l'].
    + simpl. repeat split; try constructor.
      symmetry. apply Nat.div_small. lia.
    + set (L := a :: l') in *.
      assert (HL : (0 < List.length L)%nat) by (unfold L; simpl; lia).
      rewrite chunks_fuel_cons by (unfold L; discriminate).
      assert (Hr : (List.length (skipn size L) <= fuel)%nat)
        by (rewrite length_skipn; lia).
      destruct (IH (skipn size L) Hr) as (Hc & Hn & Hb & Hf).
      repeat split.
      * cbn [List.concat]. rewrite Hc. apply firstn_skipn.
      * cbn [List.length]. rewrite Hn, length_skipn.
        destruct (Nat.le_gt_cases size (List.length L)) as [Hge | Hlt].
        -- replace (List.length L + size - 1)%nat
             with ((List.length L - size + size - 1) + 1 * size)%nat by lia.
           rewrite Nat.div_add by lia. lia.
        -- replace (List.length L - size)%nat with 0%nat by lia.
           rewrite Nat.div_small by lia.
           apply Nat.div_unique with (r := (List.length L - 1)%nat); lia.
      * constructor; [| exact Hb]. rewrite length_firstn. lia.
      * destruct (chunks_fuel fuel size (skipn size L)) as [| c rest] eqn:E.
        -- constructor.
        -- change (removelast (firstn size L :: c :: rest))
             with (firstn size L :: removelast (c :: rest)).
           constructor; [| exact Hf].
           rewrite length_firstn.
           destruct (skipn size L) as [| b t] eqn:Es.
           ++ rewrite chunks_fuel_nil in E. discriminate.
           ++ apply (f_equal (@List.length A)) in Es.
              rewrite length_skipn in Es.
              pose proof (Nat.lt_0_succ (List.length t)) as Hp.
              change (S (List.length t)) with (List.length (b :: t)) in Hp.
              rewrite <- Es in Hp. lia.
Qed.

(** X17.  [[l[i:i + size] for i in range(0, len(l), size)]] cuts [l] into
    consecutive pieces: put together again they are [l], none is empty or
    longer than [size], all but the last have exactly [size] elements, and
    there are [ceil (len l / size)] of them. *)
Theorem chunks_partition {A} (size : nat) (l : list A) :
  (0 < size)%nat ->
  List.concat (chunks size l) = l
  /\ List.length (chunks size l) = ((List.length l + size - 1) / size)%nat
  /\ Forall (fun c => (0 < List.length c <= size)%nat) (chunks size l)
  /\ Forall (fun c => List.length c = size) (removelast (chunks size l)).
Proof.
  intros Hs. unfold chunks. apply chunks_fuel_spec; [exact Hs | lia].
Qed.

Lemma chunks_partition_witness :
  List.concat (chunks 2 ["a"; "b"; "c"; "d"; "e"]) = ["a"; "b"; "c"; "d"; "e"]
  /\ List.length (chunks 2 ["a"; "b"; "c"; "d"; "e"]) = 3%nat.
Proof.
  destruct (@chunks_partition string 2 ["a"; "b"; "c"; "d"; "e"]) as (H1 & H2 & _).
  - lia.
  - split; [exact H1 | exact H2].
Defined.

(** ** One lookup per chunk *)





(** ** A user without a node gets no edge *)

Lemma no_edges_without_refl (root : value) (w : World) : no_edges_without root w w.
Proof. exists []. rewrite app_nil_r. split; [reflexivity | auto]. Qed.

Lemma no_edges_without_trans (root : value) (w1 w2 w3 : World) :
  no_edges_without root w1 w2 -> no_edges_without root w2 w3 ->
  no_edges_without root w1 w3.
Proof.
  intros (e1 & T1 & H1) (e2 & T2 & H2). exists (e1 ++ e2)%list.
  split; [rewrite T2, T1, app_assoc; reflexivity |].
  intros Hu Hs.
  destruct H1 as (S1 & F1 & G1);
    [intros a b Hin; apply (Hu a b); rewrite created_friendships_app;
     apply in_or_app; now left | exact Hs |].
  destruct H2 as (S2 & F2 & G2);
    [intros a b Hin; apply (Hu a b); rewrite created_friendships_app;
     apply in_or_app; now right | exact S1 |].
  split; [exact S2 | split; congruence].
Qed.

Lemma no_edges_without_request (root : value)
    method token params retries delay ust st :
  keeps (no_edges_without root)
        (vk_api_request method token params retries delay ust st).
Proof.
  intros w r w' H.
  destruct (@vk_api_request_untouched _ _ _ _ _ _ _ _ _ _ H) as (S & _).
  apply vk_api_request_one_call in H. destruct H as (evs & T & _).
  eexists. split; [exact T |]. intros _ Hs. rewrite S. auto.
Qed.

Lemma no_edges_without_write (root : value) (e : Event) (f : Store -> Store) :
  created_friendships [e] = [] ->
  (forall s, has_user root s = false ->
             has_user root (f s) = false
             /\ friend_edges (f s) = friend_edges s
             /\ subscribed_edges (f s) = subscribed_edges s) ->
  keeps (no_edges_without root) (db_write e f).
Proof.
  intros _ Hf w r w' H. unfold db_write in H. inversion H; subst.
  exists [e]. split.
  - destruct (db_fails w (write_count w)); reflexivity.
  - intros _ Hs.
    destruct (db_fails w (write_count w)); cbn [store set_store next_write log];
      auto.
Qed.

Lemma merge_subscription_without_user (u g : value) (s : Store) :
  has_user u s = false -> merge_subscription u g s = s.
Proof. intros H. unfold merge_subscription. rewrite H. reflexivity. Qed.

Lemma merge_friend_without_target (a b : value) (s : Store) :
  has_user b s = false -> merge_friend a b s = s.
Proof.
  intros H. unfold merge_friend. rewrite H, andb_false_r. reflexivity.
Qed.

Section NoEdges.
Context {PT : PyText}.

Lemma no_edges_save_friend (u : User) (friend : value) :
  keeps (no_edges_without (id u)) (save_friend u friend).
Proof.
  unfold save_friend. intros w r w' H. unfold bind at 1 in H.
  destruct (process_profile friend) as [e | p]; cbn [lift] in H.
  { inversion H; subst. apply no_edges_without_refl. }
  unfold ret at 1 in H.
  destruct (truthy (is_private p)).
  { inversion H; subst. apply no_edges_without_refl. }
  unfold bind, create_user, create_friendship, db_write in H.
  inversion H; subst. clear H.
  exists [EvCreateUser p; EvCreateFriendship (id u) (id p)]. split.
  - destruct (db_fails w (write_count w)); simpl;
      destruct (db_fails w (S (write_count w))); simpl;
      rewrite <- app_assoc; reflexivity.
  - intros Hu Hs.
    assert (Hp : value_eqb (id p) (id u) = false)
      by (apply (Hu (id u) (id p)); simpl; now left).
    assert (Hm : has_user (id u) (merge_user (node_of_user p) (store w)) = false)
      by (apply merge_user_other; assumption).
    destruct (db_fails w (write_count w)); simpl;
      destruct (db_fails w (S (write_count w))); simpl;
      rewrite ?merge_friend_without_source by assumption; auto.
Qed.

Lemma no_edges_save_friends (token user_id : value) (friends_limit : Z) (u : User) :
  keeps (no_edges_without (id u)) (save_friends token user_id friends_limit u).
Proof.
  pose proof (no_edges_without_refl (id u)) as Rf.
  pose proof (@no_edges_without_trans (id u)) as Tr.
  unfold save_friends.
  apply keeps_bind; [exact Tr | apply no_edges_without_request | intros friends].
  destruct friends as [| | | | | d]; try (apply keeps_ret; exact Rf).
  apply keeps_bind; [exact Tr | apply keeps_lift; exact Rf | intros n].
  apply keeps_bind; [exact Tr | apply keeps_lift; exact Rf | intros l].
  apply keeps_bind; [exact Tr | | intros _; apply keeps_ret; exact Rf].
  keeps_each Rf Tr friend. apply no_edges_save_friend.
Qed.

Lemma no_edges_save_subscriptions (fuel : nat) (token service_token user_id : value)
    (subscriptions_limit : Z) (u : User) :
  keeps (no_edges_without (id u))
        (save_subscriptions fuel token service_token user_id subscriptions_limit u).
Proof.
  pose proof (no_edges_without_refl (id u)) as Rf.
  pose proof (@no_edges_without_trans (id u)) as Tr.
  unfold save_subscriptions.
  apply keeps_bind; [exact Tr | | intros r].
  { apply (@walk_subscription_pages PT (no_edges_without (id u)) Rf Tr).
    intros; apply no_edges_without_request. }
  apply keeps_bind; [exact Tr | | intros _; apply keeps_ret; exact Rf].
  unfold save_groups. destruct (py_slice_to subscriptions_limit (fst r)).
  { apply keeps_ret; exact Rf. }
  keeps_each Rf Tr chunk. unfold save_chunk.
  apply keeps_bind; [exact Tr | apply no_edges_without_request | intros groups_info].
  destruct groups_info as [| | | | groups |]; try (apply keeps_ret; exact Rf).
  keeps_each Rf Tr group.
  unfold save_group. destruct group; try (apply keeps_raise; exact Rf).
  apply keeps_bind; [exact Tr | apply keeps_lift; exact Rf | intros i].
  apply keeps_bind; [exact Tr | | intros _].
  - apply no_edges_without_write; [reflexivity |]. intros st Hst. auto.
  - apply no_edges_without_write; [reflexivity |]. intros st Hst.
    rewrite merge_subscription_without_user by exact Hst. auto.
Qed.

(** What follows the profile: the two blocks, and then the write of the
    user's own node, unless the paging ran out of fuel. *)
Lemma save_user_data_then_write (fuel : nat) (token service_token user_id : value)
    (friends_limit subscriptions_limit : Z) (u : User) (w0 : World) :
  let run := save_user_data fuel token service_token user_id friends_limit
                            subscriptions_limit u w0 in
  exists w2,
    no_edges_without (id u) w0 w2
    /\ (snd run = w2 \/ exists u', run = create_user u' w2).
Proof.
  intros run.
  pose proof (no_edges_without_refl (id u)) as Rf.
  pose proof (@no_edges_without_trans (id u)) as Tr.
  destruct (try_except (save_friends token user_id friends_limit u)
                       (fun _ => ret 0) w0) as [x1 w1] eqn:H1.
  assert (K1 : no_edges_without (id u) w0 w1).
  { refine (@keeps_try _ Tr _ _ _ _ _ _ _ _ H1).
    - apply no_edges_save_friends.
    - intros e. apply keeps_ret. exact Rf. }
  destruct (try_except (save_subscriptions fuel token service_token user_id
                                           subscriptions_limit u)
                       (fun _ => ret (VInt 0)) w1) as [x2 w2] eqn:H2.
  assert (K2 : no_edges_without (id u) w1 w2).
  { refine (@keeps_try _ Tr _ _ _ _ _ _ _ _ H2).
    - apply no_edges_save_subscriptions.
    - intros e. apply keeps_ret. exact Rf. }
  destruct x1 as [fc | e1 |].
  - exists w2. split; [exact (Tr _ _ _ K1 K2) |].
    destruct x2 as [sc | e2 |].
    + right. exists (with_counts u (Some fc) (Some sc)).
      unfold run, save_user_data. unfold bind at 1. rewrite H1.
      unfold bind at 1. rewrite H2. reflexivity.
    + left. unfold run, save_user_data. unfold bind at 1. rewrite H1.
      unfold bind at 1. rewrite H2. reflexivity.
    + left. unfold run, save_user_data. unfold bind at 1. rewrite H1.
      unfold bind at 1. rewrite H2. reflexivity.
  - exists w1. split; [exact K1 |]. left.
    unfold run, save_user_data. unfold bind at 1. rewrite H1. reflexivity.
  - exists w1. split; [exact K1 |]. left.
    unfold run, save_user_data. unfold bind at 1. rewrite H1. reflexivity.
Qed.

Lemma fetch_profile_quiet (token user_id : value) (w : World) x w0 :
  fetch_profile token user_id w = (x, w0) ->
  store w0 = store w
  /\ exists e0, trace w0 = (trace w ++ e0)%list /\ created_friendships e0 = [].
Proof.
  unfold fetch_profile. unfold bind at 1.
  destruct (vk_api_request "users.get" token (users_get_params user_id)
              default_retries default_delay false VNone w) as [r w1] eqn:Hreq.
  destruct (@vk_api_request_untouched _ _ _ _ _ _ _ _ _ _ Hreq) as (S & _).
  destruct (@request_no_writes _ _ _ _ _ _ _ _ _ _ Hreq) as (_ & e0 & T0 & _ & F0).
  intros H.
  assert (w0 = w1) as ->.
  { destruct r as [v | e |]; [| inversion H; reflexivity | inversion H; reflexivity].
    unfold bind in H. destruct (py_index0 v); cbn [lift] in H;
      [inversion H; reflexivity |].
    unfold ret in H. destruct (process_profile v0); cbn [lift] in H;
      inversion H; reflexivity. }
  split; [exact S |]. exists e0. split; assumption.
Qed.

(** [get_user_data] for a user without a node: the edges stay as they
    are. *)
Lemma get_user_data_keeps_edges
    (fuel : nat) (token service_token user_id : value)
    (friends_limit subscriptions_limit : Z) (w : World) :
  let w' := snd (get_user_data fuel token service_token user_id friends_limit
                               subscriptions_limit w) in
  (forall u w0, fetch_profile token user_id w = (Ret u, w0) ->
                has_user (id u) (store w) = false) ->
  (forall a b, In (a, b) (created_friendships (events_since w w')) ->
               value_eqb b a = false) ->
  friend_edges (store w') = friend_edges (store w)
  /\ subscribed_edges (store w') = subscribed_edges (store w).
Proof.
  intros w' Hnew Hu.
  destruct (fetch_profile token user_id w) as [x w0] eqn:Hf.
  destruct (fetch_profile_quiet _ _ _ Hf) as (S0 & e0 & T0 & F0).
  assert (Hskip : forall y, get_user_data fuel token service_token user_id
                              friends_limit subscriptions_limit w = (y, w0) ->
                  friend_edges (store w') = friend_edges (store w)
                  /\ subscribed_edges (store w') = subscribed_edges (store w)).
  { intros y Hy. unfold w'. rewrite Hy. cbn [snd]. rewrite S0. split; reflexivity. }
  destruct x as [u | e |].
  2: { apply (Hskip (Ret tt)). unfold get_user_data.
       unfold bind at 1, try_except at 1, bind at 1. rewrite Hf. reflexivity. }
  2: { apply (Hskip OutOfFuel). unfold get_user_data.
       unfold bind at 1, try_except at 1, bind at 1. rewrite Hf. reflexivity. }
  clear Hskip.
  assert (Hs : has_user (id u) (store w) = false) by (apply (Hnew u w0 eq_refl)).
  assert (E : get_user_data fuel token service_token user_id friends_limit
                            subscriptions_limit w
              = save_user_data fuel token service_token user_id friends_limit
                               subscriptions_limit u w0).
  { unfold get_user_data. unfold bind at 1, try_except at 1, bind at 1.
    rewrite Hf. reflexivity. }
  destruct (save_user_data_then_write fuel token service_token user_id
              friends_limit subscriptions_limit u w0) as (w2 & (evs & T & K) & Hend).
  rewrite <- S0 in Hs.
  assert (Hw2 : forall last,
             created_friendships last = [] ->
             trace w' = (trace w2 ++ last)%list ->
             has_user (id u) (store w2) = false
             /\ friend_edges (store w2) = friend_edges (store w)
             /\ subscribed_edges (store w2) = subscribed_edges (store w)).
  { intros last Hl Tl. rewrite <- S0. apply K; [| exact Hs].
    intros a b Hin. apply (Hu a b).
    assert (Tw : trace w' = (trace w ++ (e0 ++ evs ++ last))%list)
      by (rewrite Tl, T, T0, <- !app_assoc; reflexivity).
    rewrite (@events_since_app _ _ _ Tw), !created_friendships_app, F0, Hl.
    rewrite app_nil_r. exact Hin. }
  destruct Hend as [Hend | (u' & Hend)].
  - assert (Ew : w' = w2) by (unfold w'; rewrite E; exact Hend).
    destruct (Hw2 [] eq_refl) as (_ & F & G).
    { rewrite Ew, app_nil_r. reflexivity. }
    rewrite Ew. split; assumption.
  - assert (Ew : w' = snd (create_user u' w2)) by (unfold w'; rewrite E, Hend; reflexivity).
    destruct (Hw2 [EvCreateUser u'] eq_refl) as (_ & F & G).
    { rewrite Ew. unfold create_user, db_write.
      destruct (db_fails w2 (write_count w2)); reflexivity. }
    rewrite Ew. unfold create_user, db_write.
    destruct (db_fails w2 (write_count w2)); cbn; split; assumption.
Qed.

(** X19.  A user that has no node when [get_user_data] starts ends without
    a single edge, unless a friend record carries the user's own id: every
    [create_friendship] and [create_subscription] of the call is made
    before the user's own node is written at line 275, so the MATCH of
    both statements finds nothing, and the FRIEND and SUBSCRIBED_TO edges
    after the call are those before it. *)
Theorem get_user_data_new_user_no_edges
    (fuel : nat) (token service_token user_id : value)
    (friends_limit subscriptions_limit : Z) (w w0 : World) (u : User) :
  fetch_profile token user_id w = (Ret u, w0) ->
  has_user (id u) (store w) = false ->
  let w' := snd (get_user_data fuel token service_token user_id friends_limit
                               subscriptions_limit w) in
  (forall a b, In (a, b) (created_friendships (events_since w w')) ->
               value_eqb b a = false) ->
  friend_edges (store w') = friend_edges (store w)
  /\ subscribed_edges (store w') = subscribed_edges (store w).
Proof.
  intros Hf Hs w' Hu. apply get_user_data_keeps_edges; [| exact Hu].
  intros u' w0' Hf'. rewrite Hf in Hf'. inversion Hf'; subst. exact Hs.
Qed.

End NoEdges.

Lemma get_user_data_new_user_no_edges_witness :
  let w := Sample.fresh Cases.with_groups in
  let w' := snd (@get_user_data Sample.text 10 (VStr "token") (VStr "service")
                   (VStr "1") 100 300 w) in
  created_friendships (events_since w w') = [(VInt 1, VInt 2); (VInt 1, VInt 3)]
  /\ map g_id (group_nodes (store w')) = [VInt 1; VInt 2]
  /\ friend_edges (store w') = friend_edges (store w)
  /\ subscribed_edges (store w') = subscribed_edges (store w).
Proof.
  intros w w'.
  split; [vm_compute; reflexivity |]. split; [vm_compute; reflexivity |].
  pose (w0 := snd (@fetch_profile Sample.text (VStr "token") (VStr "1") w)).
  assert (H0 : @fetch_profile Sample.text (VStr "token") (VStr "1") w
               = (Ret Cases.anna, w0)) by (vm_compute; reflexivity).
  apply (@get_user_data_new_user_no_edges Sample.text 10 (VStr "token")
           (VStr "service") (VStr "1") 100 300 w w0 Cases.anna H0 eq_refl).
  intros a b Hin. vm_compute in Hin.
  destruct Hin as [Hin | [Hin | []]]; inversion Hin; reflexivity.
Defined.

(** ** A user with a node gets its edges *)

Section Edges.
Context {PT : PyText}.

Lemma save_friend_edge (u p : User) (friend : value) (w : World) :
  process_profile friend = inr p ->
  has_user (id u) (store w) = true ->
  (forall n, db_fails w n = false) ->
  exists w1,
    save_friend u friend w = (Ret tt, w1)
    /\ db_fails w1 = db_fails w
    /\ store_grows (store w) (store w1)
    /\ (open_profile p = true ->
        In (id u, id p) (friend_edges (store w1))
        /\ has_user (id p) (store w1) = true).
Proof.
  intros Hp Hu Hdb. unfold save_friend, open_profile. rewrite Hp. cbn [lift].
  unfold bind at 1, ret at 1.
  destruct (truthy (is_private p)); cbn [negb].
  - exists w. repeat split; try apply incl_refl; auto; discriminate.
  - unfold bind, create_user, create_friendship, db_write.
    rewrite Hdb.
    cbn [db_fails write_count store set_store next_write log].
    rewrite Hdb.
    eexists. split; [reflexivity |].
    cbn [db_fails write_count store set_store next_write log].
    set (s1 := merge_user (node_of_user p) (store w)).
    assert (U1 : has_user (id u) s1 = true)
      by (unfold s1; rewrite has_user_merge_user, Hu; reflexivity).
    assert (P1 : has_user (id p) s1 = true).
    { unfold s1. rewrite has_user_merge_user.
      change (n_id (node_of_user p)) with (id p).
      rewrite value_eqb_refl. apply orb_true_r. }
    assert (G : store_grows (store w) (merge_friend (id u) (id p) s1)).
    { eapply store_grows_trans; [apply merge_user_grows | apply merge_friend_grows]. }
    split; [reflexivity |]. split; [exact G |]. intros _. split.
    + unfold merge_friend. rewrite U1, P1. cbn [andb].
      destruct (has_edge (id u) (id p) (friend_edges s1)) eqn:E; cbn [negb].
      * apply has_edge_In, E.
      * cbn [friend_edges]. apply in_or_app. right. now left.
    + destruct (merge_friend_grows (id u) (id p) s1) as (Gu & _). apply Gu, P1.
Qed.

Lemma save_friends_loop_edges (u : User) (l : list value) :
  forall (ps : list User) (w : World),
    map process_profile l = map inr ps ->
    has_user (id u) (store w) = true ->
    (forall n, db_fails w n = false) ->
    exists w',
      for_each l (save_friend u) w = (Ret tt, w')
      /\ db_fails w' = db_fails w
      /\ store_grows (store w) (store w')
      /\ (forall p, In p ps -> open_profile p = true ->
                    In (id u, id p) (friend_edges (store w'))
                    /\ has_user (id p) (store w') = true).
Proof.
  induction l as [| friend l IH]; intros ps w Hps Hu Hdb.
  - destruct ps; [| discriminate]. exists w.
    repeat split; try apply incl_refl; auto; contradiction.
  - destruct ps as [| p ps]; [discriminate |]. simpl in Hps.
    inversion Hps as [[Hp Hrest]].
    destruct (save_friend_edge u friend w Hp Hu Hdb) as (w1 & R1 & D1 & G1 & E1).
    assert (Hu1 : has_user (id u) (store w1) = true) by (apply G1, Hu).
    assert (Hdb1 : forall n, db_fails w1 n = false) by (intros n; rewrite D1; apply Hdb).
    destruct (IH ps w1 Hrest Hu1 Hdb1) as (w2 & R2 & D2 & G2 & E2).
    exists w2. split.
    { cbn [for_each]. rewrite (bind_of_ret _ _ _ R1). exact R2. }
    split; [congruence |].
    split; [eapply store_grows_trans; eassumption |].
    intros q [<- | Hq] Ho.
    + destruct (E1 Ho) as (He & Hn). destruct G2 as (Gu & _ & Gf & _).
      split; [apply Gf, He | apply Gu, Hn].
    + apply E2; assumption.
Qed.

(** X20.  When the crawled user has a node already, as a friend written
    by an earlier call has, and the writes go through, the friends block
    leaves a node for every friend that is not private and a FRIEND edge to
    it from the crawled user. *)
Theorem save_friends_edges_from_known_user
    (token user_id : value) (friends_limit : Z) (u : User) (w w1 : World)
    (d : list (string * value)) (l : list value) (ps : list User) :
  vk_api_request "friends.get" token (friends_get_params user_id friends_limit)
                 default_retries default_delay false VNone w
  = (Ret (VDict d), w1) ->
  py_iter (dict_get "items" (VList []) d) = inr l ->
  map process_profile l = map inr ps ->
  has_user (id u) (store w) = true ->
  (forall n, db_fails w n = false) ->
  let w' := snd (save_friends token user_id friends_limit u w) in
  forall p, In p ps -> open_profile p = true ->
            In (id u, id p) (friend_edges (store w'))
            /\ has_user (id p) (store w') = true.
Proof.
  intros Hreq Hl Hps Hu Hdb w'.
  destruct (@vk_api_request_untouched _ _ _ _ _ _ _ _ _ _ Hreq)
    as (S1 & _ & _ & _ & D1).
  assert (Hu1 : has_user (id u) (store w1) = true) by (rewrite S1; exact Hu).
  assert (Hdb1 : forall n, db_fails w1 n = false) by (intros n; rewrite D1; apply Hdb).
  destruct (save_friends_loop_edges u l ps w1 Hps Hu1 Hdb1) as (w2 & R2 & _ & _ & E2).
  assert (Ew : w' = w2).
  { unfold w', save_friends. rewrite (bind_of_ret _ _ _ Hreq).
    unfold py_len. rewrite Hl. cbn [lift]. unfold bind at 1 2, ret at 1 2.
    unfold bind at 1. rewrite R2. reflexivity. }
  rewrite Ew. exact E2.
Qed.

End Edges.

Lemma save_friends_edges_from_known_user_witness :
  let w := Cases.known Cases.anna (Sample.fresh Sample.three_friends) in
  let w' := snd (@save_friends Sample.text (VStr "token") (VStr "1") 100
                   Cases.anna w) in
  In (VInt 1, VInt 3) (friend_edges (store w'))
  /\ has_user (VInt 3) (store w') = true.
Proof.
  intros w w'.
  pose (l := [Sample.person 2; Sample.person 3; Sample.closed_person 4]).
  pose (d := [("count", VInt 3); ("items", VList l)]).
  pose (ps := [Cases.friend_record 2 "Boris Ivanov" false;
               Cases.friend_record 3 "Vera Ivanov" false;
               Cases.friend_record 4 "Gleb Petrov" true]).
  assert (H1 : vk_api_request "friends.get" (VStr "token")
                 (friends_get_params (VStr "1") 100)
                 default_retries default_delay false VNone w
               = (Ret (VDict d),
                  snd (vk_api_request "friends.get" (VStr "token")
                         (friends_get_params (VStr "1") 100)
                         default_retries default_delay false VNone w)))
    by (vm_compute; reflexivity).
  assert (H2 : py_iter (dict_get "items" (VList []) d) = inr l) by reflexivity.
  assert (H3 : map (@process_profile Sample.text) l = map inr ps)
    by (vm_compute; reflexivity).
  apply (@save_friends_edges_from_known_user Sample.text (VStr "token") (VStr "1")
           100 Cases.anna w _ d l ps H1 H2 H3 eq_refl (fun _ => eq_refl)
           (Cases.friend_record 3 "Vera Ivanov" false)).
  - right. left. reflexivity.
  - reflexivity.
Defined.

(** ** One group of the lookup *)

Lemma merge_group_find (g : GroupData) (s : Store) :
  find_group (g_id g) (merge_group g s) = Some g.
Proof.
  unfold find_group, merge_group. simpl.
  destruct (existsb (fun m => value_eqb (g_id m) (g_id g)) (group_nodes s)) eqn:E.
  - apply (find_replaced g_id g _ E).
  - apply (find_appended g_id g _ E).
Qed.

(** X21.  A group record with an [id], for a user that has a node, when
    the two writes go through: the group is found under its id with the
    [name] and [members_count] of the record, or [''] and 0 where the
    record has none, the user is subscribed to it, and no user node is
    touched. *)
Theorem save_group_subscribes (u : User) (d : list (string * value))
    (i : value) (w : World) :
  dict_lookup "id" d = Some i ->
  has_user (id u) (store w) = true ->
  db_fails w (write_count w) = false ->
  db_fails w (S (write_count w)) = false ->
  let run := save_group u (VDict d) w in
  fst run = Ret tt
  /\ find_group i (store (snd run))
     = Some {| g_id := i;
               g_name := dict_get "name" (VStr "") d;
               g_members_count := dict_get "members_count" (VInt 0) d |}
  /\ In (id u, i) (subscribed_edges (store (snd run)))
  /\ user_nodes (store (snd run)) = user_nodes (store w).
Proof.
  intros Hi Hu D1 D2 run.
  set (g := {| g_id := i;
               g_name := dict_get "name" (VStr "") d;
               g_members_count := dict_get "members_count" (VInt 0) d |}).
  set (s1 := merge_group g (store w)).
  assert (E : run = (Ret tt,
                     set_store (merge_subscription (id u) i s1)
                       (next_write
                          (log (EvCreateSubscription (id u) i)
                             (set_store s1
                                (next_write (log (EvCreateGroup g) w))))))).
  { unfold run, save_group, dict_item. rewrite Hi. cbn [lift].
    unfold bind, ret, create_group, create_subscription, db_write.
    rewrite D1. cbn [db_fails write_count store set_store next_write log].
    rewrite D2. reflexivity. }
  rewrite E. cbn [fst snd store set_store].
  assert (U1 : has_user (id u) s1 = true) by exact Hu.
  assert (G1 : has_group i s1 = true).
  { unfold s1. rewrite has_group_merge_group.
    change (g_id g) with i. rewrite value_eqb_refl. apply orb_true_r. }
  assert (F1 : find_group i s1 = Some g) by (apply (merge_group_find g)).
  unfold merge_subscription. rewrite U1, G1. cbn [andb].
  destruct (has_edge (id u) i (subscribed_edges s1)) eqn:He; cbn [negb].
  - repeat split; [exact F1 | apply has_edge_In, He].
  - repeat split; [exact F1 |].
    cbn [subscribed_edges]. apply in_or_app. right. now left.
Qed.

Lemma save_group_subscribes_witness :
  let w := Cases.known Cases.anna (Sample.fresh Sample.three_friends) in
  let run := save_group Cases.anna (VDict [("id", VInt 7)]) w in
  find_group (VInt 7) (store (snd run))
  = Some {| g_id := VInt 7; g_name := VStr ""; g_members_count := VInt 0 |}
  /\ In (VInt 1, VInt 7) (subscribed_edges (store (snd run))).
Proof.
  intros w run.
  destruct (@save_group_subscribes Cases.anna [("id", VInt 7)] (VInt 7) w
              eq_refl eq_refl eq_refl eq_refl) as (_ & F & S & _).
  split; [exact F | exact S].
Defined.

(** ** [main] *)

Section MainRuns.
Context {PT : PyText}.
Variable engine : Query -> Store -> option (list Row).

(** X22.  With [--query], [main] clears the database before it runs the
    query: whatever the store held, the query is answered on the empty
    store, nothing is requested from VK, and the store is empty when
    [main] returns. *)
Theorem main_query_reads_cleared_store (fuel : nat) (db : Neo4j) (args : Args)
    (typed : Inputs) (w : World) (q : string) :
  nonempty (typed_token typed) = true ->
  nonempty (typed_user_id typed) = true ->
  nonempty (typed_service_token typed) = true ->
  connects db = true ->
  clears db = true ->
  args_query args = Some q ->
  nonempty q = true ->
  let out := main engine fuel db args typed w in
  printed out = fst (report engine q empty_store)
  /\ store (after out) = empty_store
  /\ trace (after out) = trace w
  /\ closed out = true
  /\ ending out = Returned.
Proof.
  intros Ht Hu Hs Hc Hd Hq Hn out.
  assert (E : out = mkOutcome (fst (report engine q empty_store))
                      (set_store empty_store w)
                      (Some (args_uri args,
                             if nonempty (typed_db_user typed)
                             then typed_db_user typed else "neo4j",
                             typed_db_password typed))
                      true Returned).
  { unfold out, main, clear_database. rewrite Ht, Hu, Hs, Hc, Hd, Hq, Hn.
    cbn [negb orb]. unfold execute_queries. rewrite Hn.
    cbn [report_each store set_store].
    destruct (report engine q empty_store) as [ls [e |]]; [reflexivity |].
    cbn [fst]. rewrite app_nil_r. reflexivity. }
  rewrite E. repeat split.
Qed.

(** X23.  With [--depth_limit 1], or any limit below, [main] leaves a
    graph without a single edge, unless a friend record carries the id of
    the user it is listed for: the store is cleared, only the user typed
    in is crawled, and that user's node is written after every
    [create_friendship] and [create_subscription]. *)
Theorem main_depth_one_no_edges (fuel : nat) (db : Neo4j) (args : Args)
    (typed : Inputs) (w : World) :
  nonempty (typed_token typed) = true ->
  nonempty (typed_user_id typed) = true ->
  nonempty (typed_service_token typed) = true ->
  connects db = true ->
  clears db = true ->
  args_query args = None ->
  args_depth_limit args <= 1 ->
  let out := main engine fuel db args typed w in
  (forall a b, In (a, b) (created_friendships (events_since w (after out))) ->
               value_eqb b a = false) ->
  friend_edges (store (after out)) = []
  /\ subscribed_edges (store (after out)) = []
  /\ fetched_ids (events_since w (after out)) = [VStr (typed_user_id typed)].
Proof.
  intros Ht Hu Hs Hc Hd Hq Hl out Hself.
  set (w1 := set_store empty_store w).
  set (wv := set_visited [KStr (typed_user_id typed)] (set_visited [] w1)).
  set (run := get_user_data fuel (VStr (typed_token typed))
                (VStr (typed_service_token typed)) (VStr (typed_user_id typed))
                (args_friends_limit args) (args_subscriptions_limit args) wv).
  assert (E : after out = snd run).
  { unfold out, main, clear_database. rewrite Ht, Hu, Hs, Hc, Hd, Hq.
    cbn [negb orb]. fold w1.
    unfold get_detailed_data. rewrite get_detailed_data_at_limit by exact Hl.
    unfold bind at 1, enter_user at 1.
    cbn [key_of visited_users set_visited existsb app].
    fold wv. unfold bind at 1. fold run.
    destruct run as [[[] | e |] w2]; reflexivity. }
  assert (Ev : events_since w (after out) = events_since wv (snd run))
    by (rewrite E; reflexivity).
  rewrite Ev in Hself |- *. rewrite E.
  destruct (@get_user_data_keeps_edges PT fuel (VStr (typed_token typed))
              (VStr (typed_service_token typed)) (VStr (typed_user_id typed))
              (args_friends_limit args) (args_subscriptions_limit args) wv)
    as (F & G).
  - intros u w0 _. reflexivity.
  - exact Hself.
  - fold run in F, G. split; [exact F |]. split; [exact G |].
    destruct run as [x w2] eqn:Hrun.
    destruct (@get_user_data_fetches PT _ _ _ _ _ _ _ _ _ Hrun) as (_ & evs & T & Hf).
    cbn [snd]. rewrite (@events_since_app _ _ _ T). exact Hf.
Qed.

(** X24.  Where [main] stops before the crawl: with an empty token, user
    id or service token it prints the notice and opens no connection; when
    the connection cannot be opened, the [finally] block finds
    [db_handler] unbound and an [UnboundLocalError] leaves [main]; when
    the database cannot be cleared, nothing is crawled or printed and the
    connection is closed.  In all three cases the store and the trace are
    as they were. *)
Theorem main_stops_early (fuel : nat) (db : Neo4j) (args : Args)
    (typed : Inputs) (w : World) :
  let out := main engine fuel db args typed w in
  let complete := nonempty (typed_token typed) && nonempty (typed_user_id typed)
                  && nonempty (typed_service_token typed) in
  (complete = false ->
   out = mkOutcome [MissingInputLine] w None false Returned)
  /\ (complete = true -> connects db = false ->
      out = mkOutcome [] w None false UnboundLocalError)
  /\ (complete = true -> connects db = true -> clears db = false ->
      printed out = [] /\ after out = w /\ closed out = true
      /\ ending out = Returned).
Proof.
  intros out complete. unfold complete, out, main, clear_database.
  destruct (nonempty (typed_token typed));
    destruct (nonempty (typed_user_id typed));
    destruct (nonempty (typed_service_token typed)); cbn [negb orb andb];
    (split; [| split]); intros; try discriminate; try reflexivity.
  - rewrite H0. reflexivity.
  - rewrite H0, H1. repeat split.
Qed.

End MainRuns.

Lemma main_query_reads_cleared_store_witness :
  let w := Cases.known Cases.anna (Sample.fresh Sample.three_friends) in
  let out := @main Sample.text Cases.counting 10 (mkNeo4j true true)
               (mkArgs (Some "total_users") 3 100 300 "bolt://localhost:7687")
               (mkInputs "token" "service" "1" "" "secret") w in
  has_user (VInt 1) (store w) = true
  /\ printed out = [TotalUsersLine (VInt 0)]
  /\ trace (after out) = [].
Proof.
  intros w out. split; [reflexivity |].
  destruct (@main_query_reads_cleared_store Sample.text Cases.counting 10
              (mkNeo4j true true)
              (mkArgs (Some "total_users") 3 100 300 "bolt://localhost:7687")
              (mkInputs "token" "service" "1" "" "secret") w "total_users"
              eq_refl eq_refl eq_refl eq_refl eq_refl eq_refl eq_refl)
    as (P & _ & T & _).
  split; [exact P | exact T].
Defined.

Lemma main_depth_one_no_edges_witness :
  let w := Sample.fresh Cases.with_groups in
  let out := @main Sample.text Cases.counting 10 (mkNeo4j true true)
               (mkArgs None 1 100 300 "bolt://localhost:7687")
               (mkInputs "token" "service" "1" "" "secret") w in
  created_friendships (events_since w (after out))
  = [(VInt 1, VInt 2); (VInt 1, VInt 3)]
  /\ map n_id (user_nodes (store (after out))) = [VInt 2; VInt 3; VInt 1]
  /\ friend_edges (store (after out)) = []
  /\ subscribed_edges (store (after out)) = [].
Proof.
  intros w out.
  split; [vm_compute; reflexivity |]. split; [vm_compute; reflexivity |].
  destruct (@main_depth_one_no_edges Sample.text Cases.counting 10
              (mkNeo4j true true)
              (mkArgs None 1 100 300 "bolt://localhost:7687")
              (mkInputs "token" "service" "1" "" "secret") w
              eq_refl eq_refl eq_refl eq_refl eq_refl eq_refl)
    as (F & G & _).
  - cbn. lia.
  - intros a b Hin. vm_compute in Hin.
    destruct Hin as [Hin | [Hin | []]]; inversion Hin; reflexivity.
  - split; [exact F | exact G].
Defined.

Lemma main_stops_early_witness :
  @main Sample.text Cases.counting 10 (mkNeo4j false true)
    (mkArgs None 3 100 300 "bolt://localhost:7687")
    (mkInputs "token" "service" "1" "" "secret")
    (Sample.fresh Sample.three_friends)
  = mkOutcome [] (Sample.fresh Sample.three_friends) None false UnboundLocalError.
Proof.
  apply (@main_stops_early Sample.text Cases.counting 10 (mkNeo4j false true)
           (mkArgs None 3 100 300 "bolt://localhost:7687")
           (mkInputs "token" "service" "1" "" "secret")
           (Sample.fresh Sample.three_friends)); reflexivity.
Defined.

(** ** [execute_queries] *)

Lemma dict_item_shown (c : string) (record : Row) :
  dict_mem c record = true -> dict_item c record = inr (shown c record).
Proof.
  unfold dict_mem, dict_item, shown, dict_get.
  destruct (dict_lookup c record); [reflexivity | discriminate].
Qed.

Lemma print_records_all (line : Row -> exn + Line) (mk : Row -> Line)
    (result : list Row) :
  Forall (fun record => line record = inr (mk record)) result ->
  print_records line result = (map mk result, None).
Proof.
  induction 1 as [| record rest Hr _ IH]; [reflexivity |].
  cbn [print_records map]. rewrite Hr, IH. reflexivity.
Qed.

Section ReportsRun.
Variable engine : Query -> Store -> option (list Row).

(** X25.  Without a query type, and when every record has the columns of
    its query, [execute_queries] raises nothing and prints, in this order:
    the number of users and the number of groups, each only if its query
    gave a record; then the header and one line per record for the top
    groups, for the top users and for the mutual friends.  A query that
    failed counts as one without records. *)
Theorem execute_queries_prints_all (s : Store) :
  answers_in_columns engine s ->
  execute_queries engine None s
  = ((map (fun r => TotalUsersLine (shown "total_users" r))
          (firstn 1 (execute_query engine QTotalUsers s))
      ++ map (fun r => TotalGroupsLine (shown "total_groups" r))
             (firstn 1 (execute_query engine QTotalGroups s))
      ++ TopGroupsHeader
         :: map (fun r => TopGroupLine (shown "group_id" r) (shown "name" r)
                                       (shown "members_count" r))
                (execute_query engine QTopGroups s)
      ++ TopUsersHeader
         :: map (fun r => TopUserLine (shown "user_id" r) (shown "name" r)
                                      (shown "friends_count" r))
                (execute_query engine QTopUsers s)
      ++ MutualFriendsHeader
         :: map (fun r => MutualFriendsLine (shown "user1_name" r)
                            (shown "user1_id" r) (shown "user2_name" r)
                            (shown "user2_id" r))
                (execute_query engine QMutualFriends s))%list,
     None).
Proof.
  intros Hc.
  assert (Hu : report engine "total_users" s
               = (map (fun r => TotalUsersLine (shown "total_users" r))
                      (firstn 1 (execute_query engine QTotalUsers s)), None)).
  { unfold report. cbn [String.eqb Ascii.eqb Bool.eqb andb].
    pose proof (Hc QTotalUsers) as H.
    destruct (execute_query engine QTotalUsers s) as [| r rest]; [reflexivity |].
    inversion H as [| ? ? Hr _]; subst.
    rewrite (dict_item_shown _ _ (Hr "total_users" (or_introl eq_refl))).
    reflexivity. }
  assert (Hg : report engine "total_groups" s
               = (map (fun r => TotalGroupsLine (shown "total_groups" r))
                      (firstn 1 (execute_query engine QTotalGroups s)), None)).
  { unfold report. cbn [String.eqb Ascii.eqb Bool.eqb andb].
    pose proof (Hc QTotalGroups) as H.
    destruct (execute_query engine QTotalGroups s) as [| r rest]; [reflexivity |].
    inversion H as [| ? ? Hr _]; subst.
    rewrite (dict_item_shown _ _ (Hr "total_groups" (or_introl eq_refl))).
    reflexivity. }
  assert (Htg : report engine "top_groups" s
                = (TopGroupsHeader
                   :: map (fun r => TopGroupLine (shown "group_id" r)
                                      (shown "name" r) (shown "members_count" r))
                          (execute_query engine QTopGroups s), None)).
  { unfold report. cbn [String.eqb Ascii.eqb Bool.eqb andb].
    erewrite print_records_all; [reflexivity |].
    eapply Forall_impl; [| exact (Hc QTopGroups)].
    intros r Hr. unfold top_group_line.
    rewrite (dict_item_shown _ _ (Hr "group_id" (or_introl eq_refl))).
    rewrite (dict_item_shown _ _ (Hr "name" (or_intror (or_introl eq_refl)))).
    rewrite (dict_item_shown _ _
               (Hr "members_count" (or_intror (or_intror (or_introl eq_refl))))).
    reflexivity. }
  assert (Htu : report engine "top_users" s
                = (TopUsersHeader
                   :: map (fun r => TopUserLine (shown "user_id" r)
                                      (shown "name" r) (shown "friends_count" r))
                          (execute_query engine QTopUsers s), None)).
  { unfold report. cbn [String.eqb Ascii.eqb Bool.eqb andb].
    erewrite print_records_all; [reflexivity |].
    eapply Forall_impl; [| exact (Hc QTopUsers)].
    intros r Hr. unfold top_user_line.
    rewrite (dict_item_shown _ _ (Hr "user_id" (or_introl eq_refl))).
    rewrite (dict_item_shown _ _ (Hr "name" (or_intror (or_introl eq_refl)))).
    rewrite (dict_item_shown _ _
               (Hr "friends_count" (or_intror (or_intror (or_introl eq_refl))))).
    reflexivity. }
  assert (Hm : report engine "mutual_friends" s
               = (MutualFriendsHeader
                  :: map (fun r => MutualFriendsLine (shown "user1_name" r)
                                     (shown "user1_id" r) (shown "user2_name" r)
                                     (shown "user2_id" r))
                         (execute_query engine QMutualFriends s), None)).
  { unfold report. cbn [String.eqb Ascii.eqb Bool.eqb andb].
    erewrite print_records_all; [reflexivity |].
    eapply Forall_impl; [| exact (Hc QMutualFriends)].
    intros r Hr. unfold mutual_friends_line.
    rewrite (dict_item_shown _ _ (Hr "user1_name" (or_intror (or_introl eq_refl)))).
    rewrite (dict_item_shown _ _ (Hr "user1_id" (or_introl eq_refl))).
    rewrite (dict_item_shown _ _
               (Hr "user2_name"
                   (or_intror (or_intror (or_intror (or_introl eq_refl)))))).
    rewrite (dict_item_shown _ _
               (Hr "user2_id" (or_intror (or_intror (or_introl eq_refl))))).
    reflexivity. }
  unfold execute_queries, all_queries. cbn [report_each].
  rewrite Hu, Hg, Htg, Htu, Hm. rewrite app_nil_r. reflexivity.
Qed.

End ReportsRun.

Lemma execute_queries_prints_all_witness :
  execute_queries Cases.counting None
    (merge_user (node_of_user Cases.anna) empty_store)
  = ([TotalUsersLine (VInt 1); TotalGroupsLine (VInt 0); TopGroupsHeader;
      TopUsersHeader; MutualFriendsHeader], None).
Proof.
  rewrite (@execute_queries_prints_all Cases.counting
             (merge_user (node_of_user Cases.anna) empty_store)).
  - reflexivity.
  - intros q. destruct q; repeat constructor;
      intros c [<- | []]; reflexivity.
Defined.

(** ** The ids kept from a page *)

(** X26.  From a page of subscriptions line 226 keeps the ids of the
    groups whose [is_closed] is 0, [False] or missing, as text and in the
    order of the page; closed groups are dropped, and a closed group
    needs no [id]. *)
Theorem open_group_ids_keeps_open {PT : PyText} (items : list value) :
  Forall readable_subscription items ->
  open_group_ids items = inr (map id_text (filter is_open items)).
Proof.
  induction 1 as [| sub rest (d & -> & Hid) _ IH]; [reflexivity |].
  cbn [open_group_ids filter is_open] in *.
  destruct (eq_zero (dict_get "is_closed" (VInt 0) d)) eqn:E.
  - specialize (Hid eq_refl). unfold dict_item, dict_mem in *.
    cbn [map id_text]. unfold dict_get.
    destruct (dict_lookup "id" d); [| discriminate].
    rewrite IH. reflexivity.
  - exact IH.
Qed.

Lemma open_group_ids_keeps_open_witness :
  @open_group_ids Sample.text
    [VDict [("id", VInt 5)];
     VDict [("is_closed", VInt 1)];
     VDict [("id", VInt 7); ("is_closed", VBool false)];
     VDict [("id", VInt 8); ("is_closed", VInt 2)]]
  = inr ["5"; "7"].
Proof.
  rewrite open_group_ids_keeps_open; [reflexivity |].
  repeat constructor; eexists; (split; [reflexivity |]);
    (reflexivity || discriminate).
Defined.

(** ** The subscriptions limit *)

Lemma calls_of_app (method : string) (e1 e2 : list Event) :
  calls_of method (e1 ++ e2) = (calls_of method e1 ++ calls_of method e2)%list.
Proof. unfold calls_of. rewrite calls_app. apply filter_app. Qed.






(** ** Private lists *)

(** X28.  Error 30 on the friend list and on the subscriptions reads as
    two empty lists: each is asked for once, no friend and no group is
    written, and the user is stored with [friends_count] 0 and
    [subscriptions_count] 0. *)
Theorem get_user_data_private_lists {PT : PyText} (fuel : nat)
    (token service_token user_id : value)
    (friends_limit subscriptions_limit : Z) (w w0 : World) (u : User)
    (m1 m2 : string) :
  let r1 := friends_request token user_id friends_limit in
  let r2 := subscriptions_request token user_id 0 in
  fetch_profile token user_id w = (Ret u, w0) ->
  api w0 (http_count w0) r1 = AttApiError 30 m1 ->
  api w0 (S (http_count w0)) r2 = AttApiError 30 m2 ->
  let w1 := next_http (log (EvHttp r1 (AttApiError 30 m1)) (log (EvCall r1) w0)) in
  let w2 := next_http (log (EvHttp r2 (AttApiError 30 m2)) (log (EvCall r2) w1)) in
  get_user_data (S fuel) token service_token user_id friends_limit
                subscriptions_limit w
  = create_user (with_counts u (Some 0) (Some (VInt 0))) w2.
Proof.
  intros r1 r2 Hf H1 H2 w1 w2.
  assert (F : save_friends token user_id friends_limit u w0 = (Ret 0, w1)).
  { unfold save_friends. unfold bind at 1.
    rewrite vk_api_request_first_answer with (v := private_sentinel)
      by (fold (friends_request token user_id friends_limit); fold r1;
          rewrite H1; reflexivity).
    fold (friends_request token user_id friends_limit). fold r1.
    rewrite H1. reflexivity. }
  assert (P : subscription_pages (S fuel) token user_id subscriptions_limit 0 []
                                 (VInt 0) w1
              = (Ret ([], VInt 0), w2)).
  { cbn [subscription_pages]. unfold bind at 1.
    rewrite vk_api_request_first_answer with (v := private_sentinel)
      by (fold (subscriptions_request token user_id 0); fold r2;
          change (api w1) with (api w0);
          change (http_count w1) with (S (http_count w0));
          rewrite H2; reflexivity).
    fold (subscriptions_request token user_id 0). fold r2.
    change (api w1) with (api w0).
    change (http_count w1) with (S (http_count w0)).
    rewrite H2. reflexivity. }
  assert (S : save_subscriptions (S fuel) token service_token user_id
                                 subscriptions_limit u w1
              = (Ret (VInt 0), w2)).
  { unfold save_subscriptions. unfold bind at 1. rewrite P. cbn [fst snd].
    assert (E : py_slice_to subscriptions_limit (@nil string) = [])
      by (unfold py_slice_to; destruct (0 <=? subscriptions_limit);
          apply firstn_nil).
    rewrite E. reflexivity. }
  unfold get_user_data. unfold bind at 1, try_except at 1, bind at 1.
  rewrite Hf. unfold ret at 1. cbv iota beta.
  unfold save_user_data. unfold bind at 1, try_except at 1. rewrite F.
  unfold bind at 1, try_except at 1. rewrite S. reflexivity.
Qed.

Lemma get_user_data_private_lists_witness :
  let w := Sample.fresh Cases.private_lists in
  let run := @get_user_data Sample.text 1 (VStr "token") (VStr "service")
               (VStr "1") 100 300 w in
  List.length (calls (trace (snd run))) = 3%nat
  /\ map n_id (user_nodes (store (snd run))) = [VInt 1]
  /\ map n_friends_count (user_nodes (store (snd run))) = [0]
  /\ map n_subscriptions_count (user_nodes (store (snd run))) = [VInt 0].
Proof.
  intros w run.
  pose (w0 := snd (@fetch_profile Sample.text (VStr "token") (VStr "1") w)).
  assert (H0 : @fetch_profile Sample.text (VStr "token") (VStr "1") w
               = (Ret Cases.anna, w0)) by (vm_compute; reflexivity).
  unfold run.
  rewrite (@get_user_data_private_lists Sample.text 0 (VStr "token")
             (VStr "service") (VStr "1") 100 300 w w0 Cases.anna
             "This profile is private" "This profile is private"
             H0 eq_refl eq_refl).
  vm_compute. repeat split.
Defined.

(** ** The friend list is asked for twice *)

Lemma no_friends_call_app (e1 e2 : list Event) :
  no_friends_call e1 -> no_friends_call e2 -> no_friends_call (e1 ++ e2).
Proof.
  unfold no_friends_call. intros H1 H2. rewrite calls_of_app, H1, H2. reflexivity.
Qed.

Lemma no_friends_call_other (r : Request) :
  String.eqb (api_method r) "friends.get" = false -> no_friends_call [EvCall r].
Proof.
  intros H. unfold no_friends_call, calls_of. cbn [calls flat_map app filter].
  rewrite H. reflexivity.
Qed.

Lemma no_calls_no_friends_call (evs : list Event) :
  no_calls evs -> no_friends_call evs.
Proof. unfold no_calls, no_friends_call, calls_of. intros ->. reflexivity. Qed.

Section Twice.
Context {PT : PyText}.

Let Rf := @only_refl no_friends_call eq_refl.
Let Tr := @only_trans no_friends_call no_friends_call_app.

(** Lines 180-193, what follows the request for the friend list. *)
Lemma friends_loop_quiet (u : User) (friends : value) :
  keeps (only no_friends_call)
        (match friends with
         | VDict d =>
             let friends_list := dict_get "items" (VList []) d in
             friends_count <- lift (py_len friends_list) ;;
             l <- lift (py_iter friends_list) ;;
             for_each l (save_friend u) ;;;
             ret friends_count
         | _ => ret 0
         end)%crawl.
Proof.
  destruct friends as [| | | | | d]; try (apply keeps_ret; exact Rf).
  apply keeps_bind; [exact Tr | apply keeps_lift; exact Rf | intros n].
  apply keeps_bind; [exact Tr | apply keeps_lift; exact Rf | intros l].
  apply keeps_bind; [exact Tr | | intros _; apply keeps_ret; exact Rf].
  keeps_each Rf Tr friend. unfold save_friend.
  apply keeps_bind; [exact Tr | apply keeps_lift; exact Rf | intros p].
  destruct (truthy (is_private p)); [apply keeps_ret; exact Rf |].
  apply keeps_bind; [exact Tr | apply only_db_write; reflexivity | intros _].
  apply only_db_write; reflexivity.
Qed.

(** Lines 198-276, what follows the friends block. *)
Lemma after_friends_quiet (fuel : nat) (token service_token user_id : value)
    (subscriptions_limit : Z) (u : User) (friends_count : Z) :
  keeps (only no_friends_call)
        (subscriptions_count <-
           try_except (save_subscriptions fuel token service_token user_id
                                          subscriptions_limit u)
                      (fun _ => ret (VInt 0)) ;;
         create_user (with_counts u (Some friends_count)
                                  (Some subscriptions_count)))%crawl.
Proof.
  apply keeps_bind; [exact Tr | | intros sc; apply only_db_write; reflexivity].
  apply keeps_try; [exact Tr | | intros _; apply keeps_ret; exact Rf].
  unfold save_subscriptions.
  apply keeps_bind; [exact Tr | | intros r].
  { apply allowed_subscription_pages
      with (ok := fun m => String.eqb m "friends.get" = false);
      try reflexivity; try exact no_friends_call_app.
    intros r. apply no_friends_call_other. }
  apply keeps_bind; [exact Tr | | intros _; apply keeps_ret; exact Rf].
  apply allowed_save_groups
    with (ok := fun m => String.eqb m "friends.get" = false);
    try reflexivity; try exact no_friends_call_app.
  intros q. apply no_friends_call_other.
Qed.

Lemma save_user_data_calls (fuel : nat) (token service_token user_id : value)
    (friends_limit subscriptions_limit : Z) (u : User) (w : World) :
  exists evs c1,
    trace (snd (save_user_data fuel token service_token user_id friends_limit
                               subscriptions_limit u w))
    = (trace w ++ evs)%list
    /\ calls evs = friends_request token user_id friends_limit :: c1
    /\ filter (fun q => String.eqb (api_method q) "friends.get") c1 = [].
Proof.
  set (r := friends_request token user_id friends_limit).
  destruct (vk_api_request "friends.get" token
              (friends_get_params user_id friends_limit)
              default_retries default_delay false VNone w) as [x wq] eqn:Hreq.
  destruct (vk_api_request_one_call _ _ _ _ _ _ _ _ Hreq) as (eq & Tq & Nq).
  fold (friends_request token user_id friends_limit) in Tq. fold r in Tq.
  assert (Hrest : forall (m : M unit),
             keeps (only no_friends_call) m ->
             save_user_data fuel token service_token user_id friends_limit
                            subscriptions_limit u w = m wq ->
             exists evs c1,
               trace (snd (save_user_data fuel token service_token user_id
                             friends_limit subscriptions_limit u w))
               = (trace w ++ evs)%list
               /\ calls evs = r :: c1
               /\ filter (fun q => String.eqb (api_method q) "friends.get") c1 = []).
  { intros m Km Em. rewrite Em.
    destruct (m wq) as [y w'] eqn:Hm.
    destruct (Km _ _ _ Hm) as (_ & e2 & T2 & N2).
    exists (EvCall r :: eq ++ e2)%list, (calls (eq ++ e2)).
    split; [| split].
    - cbn [snd]. rewrite T2, Tq, <- app_assoc. reflexivity.
    - reflexivity.
    - change (no_friends_call (eq ++ e2)).
      apply no_friends_call_app; [apply no_calls_no_friends_call, Nq | exact N2]. }
  destruct x as [friends | e |].
  - eapply (Hrest (fc <- try_except _ (fun _ => ret 0) ;; _)%crawl).
    + apply keeps_bind; [exact Tr | | intros fc; apply after_friends_quiet].
      apply keeps_try; [exact Tr | apply (friends_loop_quiet u friends) |].
      intros _. apply keeps_ret; exact Rf.
    + unfold save_user_data. unfold bind at 1, try_except at 1.
      unfold save_friends. unfold bind at 1. rewrite Hreq.
      unfold bind at 1, try_except at 1. reflexivity.
  - eapply (Hrest (fc <- ret 0 ;; _)%crawl).
    + apply keeps_bind; [exact Tr | apply keeps_ret; exact Rf |].
      intros fc. apply after_friends_quiet.
    + unfold save_user_data. unfold bind at 1, try_except at 1.
      unfold save_friends. unfold bind at 1. rewrite Hreq.
      unfold bind at 1. reflexivity.
  - eapply (Hrest out_of_fuel).
    + apply keeps_out_of_fuel; exact Rf.
    + unfold save_user_data. unfold bind at 1, try_except at 1.
      unfold save_friends. unfold bind at 1. rewrite Hreq. reflexivity.
Qed.

(** Lines 293-311: the request for the friend list, and then the friends. *)
Lemma recurse_friends_calls (token user_id : value) (friends_limit : Z)
    (recur : value -> M unit) (w : World) :
  (forall friend_id, keeps crawled (recur friend_id)) ->
  exists evs c2,
    trace (snd (try_except (recurse_friends token user_id friends_limit recur)
                           (fun _ => ret tt) w))
    = (trace w ++ evs)%list
    /\ calls evs = friends_request token user_id friends_limit :: c2.
Proof.
  intros Hr.
  set (r := friends_request token user_id friends_limit).
  destruct (vk_api_request "friends.get" token
              (friends_get_params user_id friends_limit)
              default_retries default_delay false VNone w) as [x wq] eqn:Hreq.
  destruct (vk_api_request_one_call _ _ _ _ _ _ _ _ Hreq) as (eq & Tq & Nq).
  fold (friends_request token user_id friends_limit) in Tq. fold r in Tq.
  assert (Hrest : forall (m : M unit),
             keeps crawled m ->
             try_except (recurse_friends token user_id friends_limit recur)
                        (fun _ => ret tt) w = m wq ->
             exists evs c2,
               trace (snd (try_except
                             (recurse_friends token user_id friends_limit recur)
                             (fun _ => ret tt) w))
               = (trace w ++ evs)%list
               /\ calls evs = r :: c2).
  { intros m Km Em. rewrite Em.
    destruct (m wq) as [y w'] eqn:Hm.
    destruct (Km _ _ _ Hm) as (ks & e2 & _ & T2 & _).
    exists (EvCall r :: eq ++ e2)%list, (calls (eq ++ e2)).
    split; [| reflexivity].
    cbn [snd]. rewrite T2, Tq, <- app_assoc. reflexivity. }
  destruct x as [friends | e |].
  - eapply (Hrest (try_except _ (fun _ => ret tt))).
    + apply keeps_try;
        [exact crawled_trans | | intros _; apply keeps_ret, crawled_refl].
      instantiate (1 := match friends with
                        | VDict d =>
                            (l <- lift (py_iter (dict_get "items" (VList []) d)) ;;
                             for_each l (fun friend =>
                               friend_profile <- lift (process_profile friend) ;;
                               if truthy (is_private friend_profile) then ret tt
                               else recur (id friend_profile)))%crawl
                        | _ => ret tt
                        end).
      destruct friends as [| | | | | d]; try (apply keeps_ret, crawled_refl).
      apply keeps_bind;
        [exact crawled_trans | apply keeps_lift, crawled_refl | intros l].
      keeps_each crawled_refl crawled_trans friend.
      apply keeps_bind;
        [exact crawled_trans | apply keeps_lift, crawled_refl | intros p].
      destruct (truthy (is_private p)); [apply keeps_ret, crawled_refl | apply Hr].
    + unfold try_except at 1, recurse_friends. unfold bind at 1. rewrite Hreq.
      unfold try_except at 1. reflexivity.
  - eapply (Hrest (ret tt)).
    + apply keeps_ret, crawled_refl.
    + unfold try_except at 1, recurse_friends. unfold bind at 1. rewrite Hreq.
      reflexivity.
  - eapply (Hrest out_of_fuel).
    + apply keeps_out_of_fuel, crawled_refl.
    + unfold try_except at 1, recurse_friends. unfold bind at 1. rewrite Hreq.
      reflexivity.
Qed.

(** X29.  Below the depth limit the friend list of a user whose profile
    was fetched is requested twice with the same parameters: once by
    [get_user_data], line 177, and once more by [get_detailed_data], line
    294, with no other request for a friend list between the two. *)
Theorem friends_requested_twice (fuel : nat)
    (token service_token user_id : value)
    (depth_limit current_depth friends_limit subscriptions_limit : Z)
    (given : bool) (w we wf : World) (u : User) :
  enter_user given user_id w = (Ret false, we) ->
  fetch_profile token user_id we = (Ret u, wf) ->
  current_depth < depth_limit ->
  let run := get_detailed_data fuel token service_token user_id depth_limit
               current_depth friends_limit subscriptions_limit given w in
  fst run <> OutOfFuel ->
  exists c1 c2,
    calls (events_since w (snd run))
    = (profile_request token user_id
       :: friends_request token user_id friends_limit :: c1
       ++ friends_request token user_id friends_limit :: c2)%list
    /\ filter (fun q => String.eqb (api_method q) "friends.get") c1 = [].
Proof.
  intros Henter Hf Hlt run Hfuel.
  assert (Te : trace we = trace w).
  { unfold enter_user in Henter.
    destruct (key_of user_id); [| discriminate].
    destruct (existsb _ _); inversion Henter; destruct given; reflexivity. }
  destruct (fetch_profile_quiet _ _ _ Hf) as (_ & e0 & T0 & _).
  destruct (fetch_profile_one_call _ _ _ Hf) as (_ & C0).
  rewrite (@events_since_app _ _ _ T0) in C0.
  destruct (save_user_data_calls fuel token service_token user_id friends_limit
              subscriptions_limit u wf) as (e1 & c1 & T1 & C1 & N1).
  destruct (Z.to_nat (depth_limit - current_depth)) as [| b] eqn:Hb; [lia |].
  set (recur := fun friend_id =>
                  get_detailed_data_from b fuel token service_token friend_id
                    depth_limit (current_depth + 1) friends_limit
                    subscriptions_limit true).
  assert (E : run = match save_user_data fuel token service_token user_id
                            friends_limit subscriptions_limit u wf with
                    | (Ret _, w1) =>
                        try_except (recurse_friends token user_id friends_limit recur)
                                   (fun _ => ret tt) w1
                    | (Raise e, w1) => (Raise e, w1)
                    | (OutOfFuel, w1) => (OutOfFuel, w1)
                    end).
  { unfold run, get_detailed_data. rewrite Hb. cbn [get_detailed_data_from].
    unfold bind at 1. rewrite Henter. cbv iota.
    rewrite (proj2 (Z.ltb_lt _ _) Hlt).
    unfold bind at 1. unfold get_user_data.
    unfold bind at 1, try_except at 1, bind at 1. rewrite Hf.
    unfold ret at 1. cbv iota beta.
    destruct (save_user_data fuel token service_token user_id friends_limit
                subscriptions_limit u wf) as [[[] | e |] w1]; reflexivity. }
  destruct (save_user_data fuel token service_token user_id friends_limit
              subscriptions_limit u wf) as [x w1] eqn:Hs.
  cbn [snd] in T1.
  destruct x as [[] | e |].
  - destruct (recurse_friends_calls token user_id friends_limit recur w1)
      as (e2 & c2 & T2 & C2).
    { intros friend_id. apply get_detailed_data_crawled. }
    rewrite <- E in T2.
    assert (T : trace (snd run) = (trace w ++ (e0 ++ e1 ++ e2))%list)
      by (rewrite T2, T1, T0, Te, <- !app_assoc; reflexivity).
    exists c1, c2. split; [| exact N1].
    rewrite (@events_since_app _ _ _ T), !calls_app, C0, C1, C2. reflexivity.
  - exfalso.
    assert (Hn : fst (save_user_data fuel token service_token user_id
                        friends_limit subscriptions_limit u wf) <> Raise e).
    { unfold save_user_data. unfold bind at 1.
      pose proof (@try_except_total _ (save_friends token user_id friends_limit u)
                    0 wf) as H1.
      destruct (try_except (save_friends token user_id friends_limit u)
                           (fun _ => ret 0) wf) as [[fc | e1' |] w2];
        [| exfalso; exact (H1 e1' eq_refl) | discriminate].
      unfold bind at 1.
      pose proof (@try_except_total _ (save_subscriptions fuel token service_token
                                         user_id subscriptions_limit u)
                    (VInt 0) w2) as H2.
      destruct (try_except (save_subscriptions fuel token service_token user_id
                                               subscriptions_limit u)
                           (fun _ => ret (VInt 0)) w2) as [[sc | e2' |] w3];
        [| exfalso; exact (H2 e2' eq_refl) | discriminate].
      unfold create_user, db_write. discriminate. }
    rewrite Hs in Hn. exact (Hn eq_refl).
  - exfalso. apply Hfuel. rewrite E. reflexivity.
Qed.

End Twice.

Lemma friends_requested_twice_witness :
  let w := Sample.fresh Sample.three_friends in
  let run := @get_detailed_data Sample.text 10 (VStr "token") (VStr "service")
               (VStr "1") 2 1 100 300 false w in
  exists c1 c2,
    calls (events_since w (snd run))
    = (profile_request (VStr "token") (VStr "1")
       :: friends_request (VStr "token") (VStr "1") 100 :: c1
       ++ friends_request (VStr "token") (VStr "1") 100 :: c2)%list
    /\ filter (fun q => String.eqb (api_method q) "friends.get") c1 = [].
Proof.
  intros w run.
  pose (we := snd (enter_user false (VStr "1") w)).
  pose (wf := snd (@fetch_profile Sample.text (VStr "token") (VStr "1") we)).
  assert (H0 : enter_user false (VStr "1") w = (Ret false, we)) by reflexivity.
  assert (H1 : @fetch_profile Sample.text (VStr "token") (VStr "1") we
               = (Ret Cases.anna, wf)) by (vm_compute; reflexivity).
  apply (@friends_requested_twice Sample.text 10 (VStr "token") (VStr "service")
           (VStr "1") 2 1 100 300 false w we wf Cases.anna H0 H1).
  - lia.
  - vm_compute. discriminate.
Defined.

(** ** API errors *)

Lemma attempts_exhausted (r : Request) (delay : Z) :
  0 <= delay ->
  forall (n : nat) (w : World),
    (forall i, (i < n)%nat -> attempt_result (api w (http_count w + i)%nat r) = None) ->
    exists evs,
      fst (attempts n r delay w) = Raise ApiExhausted
      /\ trace (snd (attempts n r delay w)) = (trace w ++ evs)%list
      /\ http_requests evs = repeat r n
      /\ sleeps evs = repeat delay n.
Proof.
  intros Hd. induction n as [| n IH]; intros w Hfail.
  - exists []. cbn. rewrite app_nil_r. repeat split.
  - assert (H0 : attempt_result (api w (http_count w) r) = None).
    { specialize (Hfail 0%nat ltac:(lia)). rewrite Nat.add_0_r in Hfail. exact Hfail. }
    rewrite attempts_fail_step by assumption.
    set (w2 := log (EvSleep delay)
                   (next_http (log (EvHttp r (api w (http_count w) r)) w))).
    destruct (IH w2) as (evs & R & T & Hh & Hs).
    { intros i Hi. specialize (Hfail (S i) ltac:(lia)).
      replace (http_count w + S i)%nat with (S (http_count w + i)) in Hfail by lia.
      exact Hfail. }
    exists (EvHttp r (api w (http_count w) r) :: EvSleep delay :: evs).
    split; [exact R |]. split.
    { rewrite T. simpl. rewrite <- !app_assoc. reflexivity. }
    split; [simpl; rewrite Hh; reflexivity |].
    change (sleeps (EvHttp r (api w (http_count w) r) :: EvSleep delay :: evs))
      with (delay :: sleeps evs).
    rewrite Hs. reflexivity.
Qed.

(** C9.  After any number [k] of attempts that were answered with an API
    error whose code is not 30, each of which was slept on and tried
    again: an answer with error code 30 makes the call return
    [{'is_private': True}] there and then, with no further request, sleep
    or exception; a proper answer makes it return the payload; and when
    the [k] errors were all the attempts there are, the call raises. *)
Theorem vk_api_request_error_code
    (method : string) (token : value) (params : list (string * value))
    (retries delay : Z) (use_service_token : bool) (service_token : value)
    (w : World) (k : nat) (code : nat -> Z) (msg : nat -> string) :
  let r := api_request method token params use_service_token service_token in
  let a := fun i : nat => api w (http_count w + i)%nat r in
  let run := vk_api_request method token params retries delay
                            use_service_token service_token w in
  let evs := events_since w (snd run) in
  0 <= delay ->
  (forall i, (i < k)%nat -> a i = AttApiError (code i) (msg i) /\ code i <> 30) ->
  (forall m, (k < Z.to_nat retries)%nat -> a k = AttApiError 30 m ->
     fst run = Ret (VDict [("is_private", VBool true)])
     /\ http_requests evs = repeat r (S k)
     /\ sleeps evs = repeat delay k)
  /\ (forall v, (k < Z.to_nat retries)%nat -> a k = AttResponse v ->
        fst run = Ret v
        /\ http_requests evs = repeat r (S k)
        /\ sleeps evs = repeat delay k)
  /\ (k = Z.to_nat retries ->
        fst run = Raise ApiExhausted
        /\ http_requests evs = repeat r k
        /\ sleeps evs = repeat delay k).
Proof.
  intros r a run evs Hd Herr.
  assert (Hfail : forall i, (i < k)%nat ->
             attempt_result (api (log (EvCall r) w)
                                 (http_count (log (EvCall r) w) + i)%nat r) = None).
  { intros i Hi. destruct (Herr i Hi) as [Ha Hc].
    change (attempt_result (a i) = None). rewrite Ha. cbn [attempt_result].
    destruct (code i =? 30) eqn:E; [lia | reflexivity]. }
  assert (Hret : forall v, (k < Z.to_nat retries)%nat ->
             attempt_result (a k) = Some v ->
             fst run = Ret v
             /\ http_requests evs = repeat r (S k)
             /\ sleeps evs = repeat delay k).
  { intros v Hk Hok.
    destruct (@attempts_until_success r delay v k Hd (Z.to_nat retries)
                (log (EvCall r) w) Hk Hfail Hok) as (e & R & T & Hh & Hs & _).
    assert (E : evs = EvCall r :: e).
    { apply events_since_app.
      change (snd run) with (snd (attempts (Z.to_nat retries) r delay
                                           (log (EvCall r) w))).
      rewrite T. simpl. rewrite <- app_assoc. reflexivity. }
    rewrite E. split; [exact R |]. split; assumption. }
  split; [| split].
  - intros m Hk Ha. apply Hret; [exact Hk |]. rewrite Ha. reflexivity.
  - intros v Hk Ha. apply Hret; [exact Hk |]. rewrite Ha. reflexivity.
  - intros Hk. subst k.
    destruct (@attempts_exhausted r delay Hd (Z.to_nat retries)
                (log (EvCall r) w) Hfail) as (e & R & T & Hh & Hs).
    assert (E : evs = EvCall r :: e).
    { apply events_since_app.
      change (snd run) with (snd (attempts (Z.to_nat retries) r delay
                                           (log (EvCall r) w))).
      rewrite T. simpl. rewrite <- app_assoc. reflexivity. }
    rewrite E. split; [exact R |]. split; assumption.
Qed.

Lemma vk_api_request_error_code_witness :
  let call := vk_api_request "users.get" (VStr "token")
                (users_get_params (VInt 1)) 3 2 false VNone in
  let private :=
    Sample.fresh (Cases.rate_limited 2 (AttApiError 30 "This profile is private")) in
  let flood :=
    Sample.fresh (Cases.rate_limited 3 (AttApiError 30 "This profile is private")) in
  (fst (call private) = Ret (VDict [("is_private", VBool true)])
   /\ List.length (http_requests (events_since private (snd (call private)))) = 3%nat
   /\ sleeps (events_since private (snd (call private))) = [2; 2])
  /\ (fst (call flood) = Raise ApiExhausted
      /\ List.length (http_requests (events_since flood (snd (call flood)))) = 3%nat
      /\ sleeps (events_since flood (snd (call flood))) = [2; 2; 2]).
Proof.
  intros call private flood. split.
  - destruct (@vk_api_request_error_code
                "users.get" (VStr "token") (users_get_params (VInt 1)) 3 2
                false VNone private 2 (fun _ => 6)
                (fun _ => "Too many requests per second") ltac:(lia))
      as (H & _ & _).
    + intros i Hi. destruct i as [| [| i]];
        [split; [reflexivity | lia] | split; [reflexivity | lia] | lia].
    + destruct (H "This profile is private" ltac:(simpl; lia) eq_refl)
        as (R & Q & S).
      split; [exact R |]. split; [| exact S].
      unfold call. rewrite Q. reflexivity.
  - destruct (@vk_api_request_error_code
                "users.get" (VStr "token") (users_get_params (VInt 1)) 3 2
                false VNone flood 3 (fun _ => 6)
                (fun _ => "Too many requests per second") ltac:(lia))
      as (_ & _ & H).
    + intros i Hi. destruct i as [| [| [| i]]];
        [split; [reflexivity | lia] | split; [reflexivity | lia]
         | split; [reflexivity | lia] | lia].
    + destruct (H eq_refl) as (R & Q & S).
      split; [exact R |]. split; [| exact S].
      unfold call. rewrite Q. reflexivity.
Defined.

(** ** The stored [subscriptions_count] *)

(** C10, as the code has it.  When the profile was fetched, the
    [subscriptions_count] that line 275 hands to [create_user], and that
    stands on the user's node when this write goes through, is the [count]
    of the last subscription page that came back as a dictionary, 0 for a
    dictionary without [count] and 0 when no page was one, if the
    subscription block ended without an exception; it is 0 if the block
    raised, whatever the pages had reported.  The number of ids kept, cut
    off by the limit or written as edges plays no part. *)
Theorem get_user_data_subscriptions_count {PT : PyText}
    (fuel : nat) (token service_token user_id : value)
    (friends_limit subscriptions_limit : Z)
    (w w0 w1 : World) (user_info : User) (fc : Z) :
  fetch_profile token user_id w = (Ret user_info, w0) ->
  try_except (save_friends token user_id friends_limit user_info)
             (fun _ => ret 0) w0 = (Ret fc, w1) ->
  let block := save_subscriptions fuel token service_token user_id
                                  subscriptions_limit user_info w1 in
  let w2 := snd block in
  let final := get_user_data fuel token service_token user_id
                             friends_limit subscriptions_limit w in
  let reported := reported_total (VInt 0) (pages (events_since w1 w2)) in
  let stored := option_map n_subscriptions_count
                           (find_user (id user_info) (store (snd final))) in
  match fst block with
  | Ret c =>
      c = reported
      /\ final = create_user (with_counts user_info (Some fc) (Some reported)) w2
      /\ (db_fails w2 (write_count w2) = false -> stored = Some reported)
  | Raise _ =>
      final = create_user (with_counts user_info (Some fc) (Some (VInt 0))) w2
      /\ (db_fails w2 (write_count w2) = false -> stored = Some (VInt 0))
  | OutOfFuel => final = (OutOfFuel, w2)
  end.
Proof.
  intros Hf Hfr block w2 final reported stored.
  assert (Hb : block = (fst block, w2)) by apply surjective_pairing.
  assert (Hstart : final = (subscriptions_count <-
                              try_except (save_subscriptions fuel token
                                            service_token user_id
                                            subscriptions_limit user_info)
                                         (fun _ => ret (VInt 0)) ;;
                            create_user (with_counts user_info (Some fc)
                                           (Some subscriptions_count)))%crawl w1).
  { unfold final, get_user_data.
    unfold bind at 1, try_except at 1, bind at 1. rewrite Hf.
    unfold ret at 1. cbv iota beta.
    unfold save_user_data. unfold bind at 1. rewrite Hfr. reflexivity. }
  assert (Hwrite : forall c,
             final = create_user (with_counts user_info (Some fc) (Some c)) w2 ->
             db_fails w2 (write_count w2) = false -> stored = Some c).
  { intros c E Hw. unfold stored. rewrite E.
    unfold create_user, db_write. cbn [snd]. rewrite Hw.
    cbn [store set_store next_write log].
    pose proof (proj1 (merge_user_find
                         (node_of_user (with_counts user_info (Some fc) (Some c)))
                         (store w2))) as F.
    change (n_id (node_of_user (with_counts user_info (Some fc) (Some c))))
      with (id user_info) in F.
    rewrite F. reflexivity. }
  fold block in Hstart.
  destruct (fst block) as [c | e |] eqn:Hx.
  - assert (Hc : c = reported).
    { unfold reported. eapply save_subscriptions_total. exact Hb. }
    assert (E : final = create_user (with_counts user_info (Some fc) (Some reported)) w2).
    { rewrite Hstart. unfold bind at 1, try_except at 1.
      fold block. rewrite Hb, Hc. reflexivity. }
    split; [exact Hc |]. split; [exact E |]. apply Hwrite, E.
  - assert (E : final = create_user (with_counts user_info (Some fc) (Some (VInt 0))) w2).
    { rewrite Hstart. unfold bind at 1, try_except at 1.
      fold block. rewrite Hb. reflexivity. }
    split; [exact E |]. apply Hwrite, E.
  - rewrite Hstart. unfold bind at 1, try_except at 1.
    fold block. rewrite Hb. reflexivity.
Qed.

Lemma get_user_data_subscriptions_count_witness :
  let w := Sample.fresh (Sample.subscriber 650) in
  let final := @get_user_data Sample.text 10 (VStr "token") (VStr "service")
                 (VStr "1") 100 300 w in
  option_map n_subscriptions_count (find_user (VInt 1) (store (snd final)))
  = Some (VInt 650)
  /\ List.length (subscribed_edges (store (snd final))) = 0%nat.
Proof.
  intros w final.
  split; [| vm_compute; reflexivity].
  pose (tok := VStr "token"). pose (uid := VStr "1").
  pose (w0 := snd (@fetch_profile Sample.text tok uid w)).
  pose (w1 := snd (try_except (@save_friends Sample.text tok uid 100 Cases.anna)
                              (fun _ => ret 0) w0)).
  assert (H0 : @fetch_profile Sample.text tok uid w = (Ret Cases.anna, w0))
    by (vm_compute; reflexivity).
  assert (H1 : try_except (@save_friends Sample.text tok uid 100 Cases.anna)
                          (fun _ => ret 0) w0 = (Ret 0, w1))
    by (vm_compute; reflexivity).
  pose proof (@get_user_data_subscriptions_count Sample.text 10 tok (VStr "service")
                uid 100 300 w w0 w1 Cases.anna 0 H0 H1) as H.
  cbv zeta in H.
  assert (Hx : fst (@save_subscriptions Sample.text 10 tok (VStr "service") uid 300
                      Cases.anna w1) = Ret (VInt 650))
    by (vm_compute; reflexivity).
  rewrite Hx in H. destruct H as (Hc & _ & Hs).
  change (id Cases.anna) with (VInt 1) in Hs.
  unfold final. fold tok uid. rewrite Hs; [rewrite <- Hc; reflexivity |].
  vm_compute. reflexivity.
Defined.

(** The claim as it was stated fails twice over.  When the group lookup is
    down the pages have reported 650 and the user is stored with 0.  And
    when two users who list each other are crawled, the second crawl
    writes the first user again as a friend, without counters, so that the
    first user's node ends with 0 where the API had reported 650. *)
Lemma subscriptions_count_not_kept :
  (let w := Sample.fresh (Cases.lookup_down 650) in
   let w' := snd (@get_user_data Sample.text 10 (VStr "token") (VStr "service")
                    (VInt 1) 100 300 w) in
   reported_total (VInt 0) (pages (events_since w w')) = VInt 650
   /\ option_map n_subscriptions_count (find_user (VInt 1) (store w'))
      = Some (VInt 0))
  /\ (let w := Sample.fresh (Cases.mutual_subscribers 650) in
      let run := @get_detailed_data Sample.text 10 (VStr "token") (VStr "service")
                   (VInt 1) 2 1 100 300 false w in
      fst run = Ret tt
      /\ map (fun p => match p with
                       | VDict d => dict_get "count" VNone d
                       | _ => VNone
                       end) (pages (events_since w (snd run)))
         = [VInt 650; VInt 650; VInt 650; VInt 650]
      /\ map (fun u => (id u, subscriptions_count u))
             (created_users (events_since w (snd run)))
         = [(VInt 2, None); (VInt 1, Some (VInt 650));
            (VInt 1, None); (VInt 2, Some (VInt 650))]
      /\ option_map n_subscriptions_count (find_user (VInt 1) (store (snd run)))
         = Some (VInt 0)
      /\ option_map n_subscriptions_count (find_user (VInt 2) (store (snd run)))
         = Some (VInt 650)).
Proof. vm_compute. repeat split. Qed.

(** ** A friend record resets the counters *)

Lemma process_profile_no_counts {PT : PyText} (profile : value) (p : User) :
  process_profile profile = inr p ->
  friends_count p = None /\ subscriptions_count p = None.
Proof.
  destruct profile; simpl; try discriminate.
  destruct (profile_home_town d); try discriminate.
  destruct (dict_item "id" d); try discriminate.
  intros H. inversion H; subst. split; reflexivity.
Qed.

(** X30.  Writing a user as somebody's friend resets that user's counters:
    the friend record has no [friends_count] and no [subscriptions_count],
    line 188 hands it to [create_user] as it is, and the SET of lines
    84-90 then stores 0 for both, whatever an earlier crawl of that user
    had stored. *)
Theorem save_friend_resets_counts {PT : PyText} (u p : User) (friend : value)
    (w : World) :
  process_profile friend = inr p ->
  open_profile p = true ->
  db_fails w (write_count w) = false ->
  let w' := snd (save_friend u friend w) in
  exists n, find_user (id p) (store w') = Some n
            /\ n_friends_count n = 0
            /\ n_subscriptions_count n = VInt 0.
Proof.
  intros Hp Ho Hw w'.
  destruct (process_profile_no_counts _ Hp) as (Hfc & Hsc).
  set (s1 := merge_user (node_of_user p) (store w)).
  assert (F1 : find_user (id p) s1 = Some (node_of_user p))
    by (apply (proj1 (merge_user_find (node_of_user p) (store w)))).
  assert (Fm : find_user (id p) (merge_friend (id u) (id p) s1)
               = Some (node_of_user p)).
  { unfold merge_friend.
    destruct (has_user (id u) s1 && has_user (id p) s1
              && negb (has_edge (id u) (id p) (friend_edges s1))); exact F1. }
  assert (E : find_user (id p) (store w') = Some (node_of_user p)).
  { unfold w', save_friend. rewrite Hp. cbn [lift]. unfold bind at 1, ret at 1.
    unfold open_profile in Ho. apply negb_true_iff in Ho. rewrite Ho.
    unfold bind, create_user, create_friendship, db_write. rewrite Hw.
    cbn [snd db_fails write_count store set_store next_write log].
    destruct (db_fails w (S (write_count w)));
      cbn [store set_store next_write log]; [exact F1 | exact Fm]. }
  exists (node_of_user p). split; [exact E |].
  unfold node_of_user. cbn [n_friends_count n_subscriptions_count].
  rewrite Hfc, Hsc. split; reflexivity.
Qed.

Lemma save_friend_resets_counts_witness :
  let crawled := with_counts Cases.anna (Some 1) (Some (VInt 650)) in
  let w := Cases.known crawled (Sample.fresh Sample.two_friends) in
  let w' := snd (@save_friend Sample.text (Cases.friend_record 2 "Boris Ivanov" false)
                   (Sample.person 1) w) in
  option_map n_subscriptions_count (find_user (VInt 1) (store w)) = Some (VInt 650)
  /\ exists n, find_user (VInt 1) (store w') = Some n
               /\ n_friends_count n = 0
               /\ n_subscriptions_count n = VInt 0.
Proof.
  intros crawled w w'. split; [reflexivity |].
  apply (@save_friend_resets_counts Sample.text
           (Cases.friend_record 2 "Boris Ivanov" false)
           (Cases.friend_record 1 "Anna Ivanov" false) (Sample.person 1) w);
    reflexivity.
Defined.

(** ** The root is crawled twice *)

(** C5, as the code has it.  [main] hands the user id over as the text
    that [input()] read, the friend lists hold integers, and the set of
    visited users tells the text "1" from the integer 1.  With users 1 and
    2 listing each other and the default depth limit of 3, the crawl
    started for "1" enters user 1 a second time when it meets it in the
    friend list of user 2: the profile of user 1 is fetched twice and its
    data collected and written twice; with a depth limit of 4 its friends
    are asked for by the recursion a second time as well. *)
Theorem root_typed_as_text_is_crawled_twice :
  let typed := mkInputs "token" "service" "1" "" "secret" in
  let crawl := fun depth_limit : Z =>
    after (@main Sample.text Cases.counting 10 (mkNeo4j true true)
             (mkArgs None depth_limit 100 300 "bolt://localhost:7687") typed
             (Sample.fresh Sample.two_friends)) in
  visited_users (crawl 3) = [KStr "1"; KInt 2; KInt 1]
  /\ fetched_ids (trace (crawl 3)) = [VStr "1"; VInt 2; VInt 1]
  /\ map id (filter (fun u => match friends_count u with
                               | Some _ => true
                               | None => false
                               end)
                    (created_users (trace (crawl 3))))
     = [VInt 1; VInt 2; VInt 1]
  /\ map (fun r => dict_get "user_id" VNone (params r))
         (calls_of "friends.get" (trace (crawl 4)))
     = [VStr "1"; VStr "1"; VInt 2; VInt 2; VInt 1; VInt 1].
Proof. vm_compute. repeat split. Qed.
